(** * Browser dashboards of the diet/health recommendation application

    A shallow embedding of the browser scripts:
    - [src/unnamed/part_000]: the clinician dashboard ([escapeHtml],
      [fetchWithRetry], [requireClinicianAndSetHeader], [applyFilters],
      [renderListCell], [renderTable], [drawCharts], [downloadPdf], [logout],
      [init]);
    - [src/frontend/script.js]: the patient dashboard ([mustBePatient],
      [drawChart], [getRecommendation]);
    - [src/unnamed/part_001]: the legacy history page ([loadHistory]);
    - [src/diabetes_ai_project/frontend/script.js]: the legacy form
      ([getRecommendations], [updateHistory]).
    Not modelled: [count] and [loadUserCharts] of the patient dashboard, which
    depend on the properties that a plain object inherits and on the order of
    its keys, and [sendFeedback], which rewrites an element of the rendered
    card.

    JavaScript strings are modelled as byte strings holding the UTF-8 encoding
    of the text.  The five characters rewritten by [escapeHtml] are ASCII and no
    byte of a multi-byte UTF-8 sequence is ASCII, so replacing them byte by byte
    agrees with replacing them by UTF-16 code unit. *)

From Stdlib Require Import QArith Qabs Ascii String.
From stdpp Require Import base option list strings pretty gmap.

Set Warnings "-register-all".
Close Scope Q_scope.

(** ** JavaScript values *)

(** A JavaScript number: a finite value (the exact rational value of the
    double), the two infinities, or NaN. *)
Inductive JsNumber : Type :=
  | NaN
  | NegInf
  | Fin (q : Q)
  | PosInf.

(** The values that [res.json()] can produce, and [undefined] for an absent
    property.  The properties of a plain object are never read by these
    scripts except through the record types below, so [JObject] carries none:
    it stands for an object as [String] and [Number] convert it when it has no
    key [toString] of its own (see [noObject]). *)
Inductive JsValue : Type :=
  | JUndefined
  | JNull
  | JBool (b : bool)
  | JNum (n : JsNumber)
  | JStr (s : string)
  | JArray (items : list JsValue)
  | JObject.

(** [a < b] on numbers: false as soon as one side is NaN. *)
Definition num_lt (a b : JsNumber) : bool :=
  match a, b with
  | NaN, _ | _, NaN => false
  | NegInf, NegInf => false
  | NegInf, _ => true
  | Fin _, NegInf => false
  | Fin x, Fin y => negb (Qle_bool y x)
  | Fin _, PosInf => true
  | PosInf, _ => false
  end.

(** [a >= b] on numbers: false as soon as one side is NaN, else [!(a < b)]. *)
Definition num_ge (a b : JsNumber) : bool :=
  match a, b with
  | NaN, _ | _, NaN => false
  | _, _ => negb (num_lt a b)
  end.

Definition num_of_nat (n : nat) : JsNumber := Fin (inject_Z (Z.of_nat n)).

Definition isNaN (n : JsNumber) : bool :=
  match n with NaN => true | _ => false end.

(** The number-to-text and text-to-number conversions of the JavaScript
    runtime, which the scripts call but do not define. *)
Class JsRuntime : Type := {
  (** [Number::toString(n)], as used by [String(n)] and template literals *)
  NumberToString : JsNumber -> string;
  (** [StringToNumber(s)], as used by [Number(s)] *)
  StringToNumber : string -> JsNumber;
  (** [n.toFixed(digits)] *)
  toFixed : JsNumber -> nat -> string
}.

(** [xs.join(sep)] once the elements are converted. *)
Definition join (sep : string) (xs : list string) : string := String.concat sep xs.

Section Conversions.
Context `{JsRuntime}.

(** [String(v)]: an array is its elements joined by a comma, with [null] and
    [undefined] elements rendered as the empty string.  An object is
    converted as one without a key [toString] of its own; with such a key the
    conversion throws, see [noObject]. *)
Fixpoint ToString (v : JsValue) : string :=
  match v with
  | JUndefined => "undefined"
  | JNull => "null"
  | JBool true => "true"
  | JBool false => "false"
  | JNum n => NumberToString n
  | JStr s => s
  | JArray items =>
      join "," (map (fun x => match x with
                              | JUndefined | JNull => ""
                              | _ => ToString x
                              end) items)
  | JObject => "[object Object]"
  end.

(** The text of one element inside [Array.prototype.join]. *)
Definition joinItem (x : JsValue) : string :=
  match x with
  | JUndefined | JNull => ""
  | _ => ToString x
  end.

(** [items.join(sep)] on an array of values. *)
Definition Array_join (sep : string) (items : list JsValue) : string :=
  join sep (map joinItem items).

(** [Number(v)].  An object is converted as one without a key [toString] of
    its own; with such a key the conversion throws, see [noObject]. *)
Definition Number (v : JsValue) : JsNumber :=
  match v with
  | JUndefined => NaN
  | JNull => Fin 0
  | JBool true => Fin 1
  | JBool false => Fin 0
  | JNum n => n
  | JStr s => StringToNumber s
  | JArray _ => StringToNumber (ToString v)
  | JObject => NaN
  end.
End Conversions.

(** [Boolean(v)]: the falsy values are [undefined], [null], [false], [0],
    [NaN] and the empty string. *)
Definition Boolean (v : JsValue) : bool :=
  match v with
  | JUndefined | JNull => false
  | JBool b => b
  | JNum NaN => false
  | JNum (Fin q) => negb (Qeq_bool q 0)
  | JNum _ => true
  | JStr s => negb (String.eqb s "")
  | JArray _ | JObject => true
  end.

(** Whether no object occurs in a value, at any depth of its arrays.
    [String(v)] and [Number(v)] of an object go through its [toString]; an
    object that has a key [toString] of its own, which a JSON body can give
    it, holds no function there and the two conversions throw a TypeError.
    [JObject] does not tell the keys of an object, and [ToString] and [Number]
    convert it as an object without such a key.  On a value in which no
    object occurs the two conversions never throw, whatever the body was. *)
Fixpoint noObject (v : JsValue) : bool :=
  match v with
  | JObject => false
  | JArray items => forallb noObject items
  | _ => true
  end.

(** [v == null], true of [null] and [undefined] only. *)
Definition isNullish (v : JsValue) : bool :=
  match v with
  | JUndefined | JNull => true
  | _ => false
  end.

(** [a || b] *)
Definition js_or (a b : JsValue) : JsValue := if Boolean a then a else b.

(** [a ?? b] *)
Definition js_coalesce (a b : JsValue) : JsValue := if isNullish a then b else a.

(** ** Markup templates

    The markup templates of the scripts are written below with [~] standing
    for the double quote; [tpl] puts the double quotes back.  No template of
    the scripts contains a [~]. *)

Definition DQ : ascii := "034"%char.

Fixpoint tpl (s : string) : string :=
  match s with
  | EmptyString => EmptyString
  | String c rest => String (if Ascii.eqb c "~"%char then DQ else c) (tpl rest)
  end.

(** [s.includes(pat)]: whether [pat] occurs in [s]. *)
Fixpoint occurs (pat s : string) : bool :=
  String.prefix pat s ||
  match s with
  | EmptyString => false
  | String _ rest => occurs pat rest
  end.

(** ** [escapeHtml] (part_000, lines 16-20) *)

(** The replacement table of [escapeHtml]. *)
Definition escapeChar (c : ascii) : string :=
  if Ascii.eqb c "&"%char then "&amp;"
  else if Ascii.eqb c "<"%char then "&lt;"
  else if Ascii.eqb c ">"%char then "&gt;"
  else if Ascii.eqb c DQ then "&quot;"
  else if Ascii.eqb c "'"%char then "&#039;"
  else String c EmptyString.

(** [s.replace(re, ...)], where the global pattern [re] matches any one of the
    five characters of the table. *)
Fixpoint escapeString (s : string) : string :=
  match s with
  | EmptyString => EmptyString
  | String c rest => escapeChar c +:+ escapeString rest
  end.

(** A text is well escaped when none of [<], [>], the double quote and the
    apostrophe occurs in it, and every [&] starts one of the five entities of
    the table. *)
Definition isEntityStart (rest : string) : bool :=
  String.prefix "amp;" rest || String.prefix "lt;" rest || String.prefix "gt;" rest ||
  String.prefix "quot;" rest || String.prefix "#039;" rest.

Definition isMarkupChar (c : ascii) : bool :=
  Ascii.eqb c "<"%char || Ascii.eqb c ">"%char || Ascii.eqb c DQ || Ascii.eqb c "'"%char.

Fixpoint wellEscaped (s : string) : bool :=
  match s with
  | EmptyString => true
  | String c rest =>
      (if Ascii.eqb c "&"%char then isEntityStart rest else negb (isMarkupChar c))
      && wellEscaped rest
  end.

(** A scan for a [<] directly followed by a [d], as [<details] and [<div]
    start: [None] when there is one, else whether the text ends with [<]
    ([afterLt] when the text is empty). *)
Fixpoint ltScan (s : string) (afterLt : bool) : option bool :=
  match s with
  | EmptyString => Some afterLt
  | String c rest =>
      if afterLt && Ascii.eqb c "d"%char then None
      else ltScan rest (Ascii.eqb c "<"%char)
  end.

Section Renderer.
Context `{JsRuntime}.

(** [String(str ?? empty).replace(...)], [empty] being the empty string. *)
Definition escapeHtml (str : JsValue) : string :=
  escapeString (ToString (js_coalesce str (JStr ""))).

(** ** [renderListCell] (part_000, lines 75-92) *)

(** The template [<li>${escapeHtml(x)}</li>]. *)
Definition li (x : JsValue) : string := "<li>" +:+ escapeHtml x +:+ "</li>".

(** The template [<ul class=~cell-list~>${xs.map(li).join(empty)}</ul>]. *)
Definition cellList (xs : list JsValue) : string :=
  tpl "<ul class=~cell-list~>" +:+ join "" (map li xs) +:+ "</ul>".

(** [Array.isArray(items) ? items.filter(Boolean) : []] *)
Definition truthyItems (items : JsValue) : list JsValue :=
  match items with
  | JArray xs => filter (fun x => Boolean x = true) xs
  | _ => []
  end.

Definition renderListCell (items : JsValue) : string :=
  let arr := truthyItems items in
  if Nat.eqb (length arr) 0 then tpl "<span class=~muted~>—</span>"
  else
    let first := take 3 arr in
    let rest := drop 3 arr in
    let firstHtml := cellList first in
    if Nat.eqb (length rest) 0 then firstHtml
    else
      firstHtml +:+ tpl "
    <details class=~cell-details~>
      <summary>Show all (" +:+ pretty (length arr) +:+ ")</summary>
      " +:+ cellList arr +:+ "
    </details>
  ".

(** The disclosure element of lines 86-91, for a count and the markup of
    the full list. *)
Definition disclosure (count : nat) (listHtml : string) : string :=
  tpl "
    <details class=~cell-details~>
      <summary>Show all (" +:+ pretty count +:+ ")</summary>
      " +:+ listHtml +:+ "
    </details>
  ".

(** The count label of a disclosure element. *)
Definition countLabel (count : nat) : string :=
  "<summary>Show all (" +:+ pretty count +:+ ")</summary>".
End Renderer.

(** ** Records and the record store *)

(** One record of [/clinician-data]; an absent property is [JUndefined]. *)
Record PatientRecord : Type := mkPatient {
  name : JsValue;
  bmi : JsValue;
  diet : JsValue;
  exercise : JsValue;
  general : JsValue;
  feedback : JsValue;
  risks : JsValue;
  ai_explanation : JsValue
}.

(** The record objects produced by [res.json()], in the order of the response.
    A row handed around by the scripts is a reference to one of these objects,
    modelled as its position in the store, so that a write through a row is
    seen through every other reference to the same object.  The arrays inside
    a record are held by value: [res.json()] builds a tree, no array is
    shared between two records. *)
Abbreviation Store := (list PatientRecord).

(** Whether no object occurs in the fields of a record, so that none of the
    conversions applied to them by [applyFilters], [renderTable] and
    [drawCharts] can throw. *)
Definition recordConverts (p : PatientRecord) : bool :=
  noObject (name p) && noObject (bmi p) && noObject (diet p) &&
  noObject (exercise p) && noObject (general p) && noObject (feedback p) &&
  noObject (risks p) && noObject (ai_explanation p).

(** The same for every record of a response. *)
Definition storeConverts (st : Store) : bool := forallb recordConverts st.

(** Whether every row refers to a record of the store in which no object
    occurs. *)
Definition rowsConvert (st : Store) (rows : list nat) : bool :=
  forallb (fun r => match st !! r with
                    | Some p => recordConverts p
                    | None => false
                    end) rows.

Definition set_risks (p : PatientRecord) (r : JsValue) : PatientRecord :=
  {| name := name p; bmi := bmi p; diet := diet p; exercise := exercise p;
     general := general p; feedback := feedback p; risks := r;
     ai_explanation := ai_explanation p |}.

Definition HIGH_BMI : string := "⚠️ High BMI".
Definition LOW_FEEDBACK : string := "⚠️ Low Feedback".

Section RenderTable.
Context `{JsRuntime}.

(** [(p.feedback === null || p.feedback === undefined) ? null : Number(p.feedback)],
    with [None] for [null]. *)
Definition fbOf (p : PatientRecord) : option JsNumber :=
  match feedback p with
  | JNull | JUndefined => None
  | v => Some (Number v)
  end.

(** [!Number.isNaN(bmi) && bmi >= 30] *)
Definition highBmi (p : PatientRecord) : bool :=
  negb (isNaN (Number (bmi p))) && num_ge (Number (bmi p)) (num_of_nat 30).

(** [fb !== null && fb < 3] *)
Definition lowFeedback (p : PatientRecord) : bool :=
  match fbOf p with
  | None => false
  | Some fb => num_lt fb (num_of_nat 3)
  end.

(** The two conditional [risks.push(...)] of lines 125-126, applied to the
    array [rs]. *)
Definition pushSynthesized (p : PatientRecord) (rs : list JsValue) : list JsValue :=
  let rs1 := if highBmi p then (rs ++ [JStr HIGH_BMI])%list else rs in
  if lowFeedback p then (rs1 ++ [JStr LOW_FEEDBACK])%list else rs1.

(** Lines 123-127: the array [risks] after the block, and the record after
    it.  When [p.risks] is an array, [risks] is that very array and the
    pushes write into the record; otherwise [risks] is a fresh array. *)
Definition deriveRisks (p : PatientRecord) : list JsValue * PatientRecord :=
  match risks p with
  | JArray rs =>
      if Nat.eqb (length rs) 0
      then let rs' := pushSynthesized p rs in (rs', set_risks p (JArray rs'))
      else (rs, p)
  | _ =>
      let rs := [] in
      if Nat.eqb (length rs) 0 then (pushSynthesized p rs, p) else (rs, p)
  end.

(** [risks.length ? risks.join(sep) : None-text] of line 128 *)
Definition riskTextOf (rs : list JsValue) : string :=
  if Nat.eqb (length rs) 0 then "None" else Array_join " | " rs.

Definition riskText (p : PatientRecord) : string := riskTextOf (fst (deriveRisks p)).

(** The record as the loop body leaves it. *)
Definition settle (p : PatientRecord) : PatientRecord := snd (deriveRisks p).

(** [Number.isNaN(bmi) ? N/A : bmi.toFixed(2)] *)
Definition bmiCell (p : PatientRecord) : string :=
  if isNaN (Number (bmi p)) then "N/A" else toFixed (Number (bmi p)) 2.

(** [fb === null ? N/A : `${fb.toFixed(1)}/5`] *)
Definition feedbackCell (p : PatientRecord) : string :=
  match fbOf p with
  | None => "N/A"
  | Some fb => toFixed fb 1 +:+ "/5"
  end.

(** The risk cell of the row, line 138. *)
Definition riskCell (p : PatientRecord) : string :=
  "<td>" +:+ escapeHtml (JStr (riskText p)) +:+ "</td>".

(** The row template of lines 130-141. *)
Definition rowHtml (p : PatientRecord) : string :=
  tpl "
      <tr>
        <td class=~patient-name~><strong>" +:+ escapeHtml (js_or (name p) (JStr "Unknown")) +:+ "</strong></td>
        <td>" +:+ bmiCell p +:+ "</td>
        <td>" +:+ renderListCell (diet p) +:+ "</td>
        <td>" +:+ renderListCell (exercise p) +:+ "</td>
        <td>" +:+ renderListCell (general p) +:+ "</td>
        <td>" +:+ feedbackCell p +:+ "</td>
        " +:+ riskCell p +:+ tpl "
        <td class=~ai-cell~><div class=~ai-wrap~>" +:+ escapeHtml (js_or (ai_explanation p) (JStr "")) +:+ "</div></td>
      </tr>
    ".

(** The row template before its risk cell (lines 130-137) and after it
    (lines 139-141). *)
Definition rowFront (p : PatientRecord) : string :=
  tpl "
      <tr>
        <td class=~patient-name~><strong>" +:+ escapeHtml (js_or (name p) (JStr "Unknown")) +:+ "</strong></td>
        <td>" +:+ bmiCell p +:+ "</td>
        <td>" +:+ renderListCell (diet p) +:+ "</td>
        <td>" +:+ renderListCell (exercise p) +:+ "</td>
        <td>" +:+ renderListCell (general p) +:+ "</td>
        <td>" +:+ feedbackCell p +:+ "</td>
        ".

Definition rowBack (p : PatientRecord) : string :=
  tpl "
        <td class=~ai-cell~><div class=~ai-wrap~>" +:+ escapeHtml (js_or (ai_explanation p) (JStr "")) +:+ "</div></td>
      </tr>
    ".

(** The table head of lines 102-117. *)
Definition tableHead : string := tpl "
    <table class=~dashboard-table clinician-table~>
      <thead>
        <tr>
          <th class=~col-patient~>Patient</th>
          <th class=~col-bmi~>BMI</th>
          <th class=~col-diet~>Diet</th>
          <th class=~col-exercise~>Exercise</th>
          <th class=~col-general~>General Advice</th>
          <th class=~col-feedback~>Avg Feedback</th>
          <th class=~col-risk~>Risk</th>
          <th class=~col-ai~>AI Interpretation</th>
        </tr>
      </thead>
      <tbody>
  ".

(** The body of [rows.forEach(p => ...)]: the markup appended to [html] and
    the record as the body leaves it. *)
Definition renderRow (p : PatientRecord) : string * PatientRecord :=
  (rowHtml p, settle p).

(** [rows.forEach(...)], threading [html] and the store.  [None] stands for
    a row that refers to no record of the store, which the scripts never
    build. *)
Fixpoint forEachRow (rows : list nat) (html : string) (st : Store)
  : option (string * Store) :=
  match rows with
  | [] => Some (html, st)
  | r :: rest =>
      match st !! r with
      | None => None
      | Some p =>
          let '(row, p') := renderRow p in
          forEachRow rest (html +:+ row) (<[r := p']> st)
      end
  end.

(** [renderTable(rows)] (lines 94-146): the markup assigned to
    [host.innerHTML] and the store afterwards. *)
Definition renderTable (rows : list nat) (st : Store) : option (string * Store) :=
  if Nat.eqb (length rows) 0
  then Some (tpl "<p style=~color:#555;~>No data to display.</p>", st)
  else
    match forEachRow rows tableHead st with
    | None => None
    | Some (html, st') => Some (html +:+ "</tbody></table>", st')
    end.

(** The risks a record carries: the elements of [p.risks] when it is an
    array, none otherwise. *)
Definition explicitRisks (p : PatientRecord) : list JsValue :=
  match risks p with
  | JArray rs => rs
  | _ => []
  end.

(** The array [risks] that line 128 joins. *)
Definition shownRisks (p : PatientRecord) : list JsValue := fst (deriveRisks p).

(** Two closed forms used to state what the loop computes: the store after
    the loop body ran on every row, and the markup of the rows read in the
    store the loop starts from. *)
Definition settleRows (rows : list nat) (st : Store) : Store :=
  foldl (fun s r => alter settle r s) st rows.

Definition rowsMarkup (st : Store) (rows : list nat) : string :=
  join "" (omap (fun r => rowHtml <$> st !! r) rows).

(** Each record of [st1] is the record of [st] at the same place, as it was
    or as the loop body leaves it. *)
Definition sameOrSettled (st st1 : Store) : Prop :=
  ∀ i, st1 !! i = st !! i ∨ st1 !! i = settle <$> st !! i.
End RenderTable.

(** ** The charting library, as the scripts use it

    [new Chart(canvas, config)] creates an instance bound to a canvas, and
    [instance.destroy()] unbinds it.  The world keeps the instances that are
    bound (created and not destroyed); an instance is named by the rank of its
    creation. *)

Record ChartConfig : Type := mkChart {
  chartCanvas : string;
  chartType : string;
  chartLabels : list string;
  chartSeries : string;
  chartData : list JsValue
}.

Record ChartWorld : Type := mkWorld {
  nextId : nat;
  live : list (nat * ChartConfig)
}.

Definition noCharts : ChartWorld := {| nextId := 0; live := [] |}.

(** [new Chart(...)]: the new instance and the world with it bound. *)
Definition newChart (cfg : ChartConfig) (w : ChartWorld) : nat * ChartWorld :=
  (nextId w, {| nextId := S (nextId w); live := (live w ++ [(nextId w, cfg)])%list |}).

(** [instance.destroy()]; destroying an instance that is not bound changes
    nothing. *)
Definition destroy (id : nat) (w : ChartWorld) : ChartWorld :=
  {| nextId := nextId w; live := filter (fun x => fst x <> id) (live w) |}.

(** [if (instance) instance.destroy()] *)
Definition destroyIfSet (inst : option nat) (w : ChartWorld) : ChartWorld :=
  match inst with
  | Some id => destroy id w
  | None => w
  end.

(** The number of instances bound to a canvas. *)
Definition liveOn (canvas : string) (w : ChartWorld) : nat :=
  length (filter (fun x => chartCanvas (snd x) = canvas) (live w)).

(** The instances a script keeps: for each canvas, the instance its variable
    (or its [charts] entry) holds.  [chartsTracked w t] says that every
    instance bound in [w] is the one kept for its canvas, and that no canvas
    has two. *)
Definition chartsTracked (w : ChartWorld) (t : string -> option nat) : Prop :=
  (∀ id cfg, (id, cfg) ∈ live w → t (chartCanvas cfg) = Some id) ∧
  (∀ canvas, liveOn canvas w ≤ 1).

Definition track (t : string -> option nat) (canvas : string) (id : nat)
  : string -> option nat :=
  fun c => if decide (c = canvas) then Some id else t c.

(** ** The clinician page (part_000) *)

(** The module variables of part_000 and the parts of the document it reads
    and writes. *)
Record Page : Type := mkPage {
  (** [let allPatients], with the record objects it refers to *)
  allPatients : Store;
  bmiChartInstance : option nat;
  feedbackChartInstance : option nat;
  (** [#statusMsg]: [style.display] and [textContent] *)
  statusDisplay : string;
  statusText : string;
  (** [#patientsTable.innerHTML] *)
  patientsTable : string;
  (** [#bmiFilter.value], [#feedbackFilter.value] *)
  bmiFilter : string;
  feedbackFilter : string;
  (** whether [#bmiChart] and [#feedbackChart] exist *)
  bmiCanvas : bool;
  fbCanvas : bool;
  (** [#welcomeText.textContent], [None] when the element does not exist *)
  welcomeText : option string;
  (** [window.location.href] *)
  location : string;
  charts : ChartWorld
}.

Definition set_status (pg : Page) (display text : string) : Page :=
  {| allPatients := allPatients pg; bmiChartInstance := bmiChartInstance pg;
     feedbackChartInstance := feedbackChartInstance pg;
     statusDisplay := display; statusText := text;
     patientsTable := patientsTable pg; bmiFilter := bmiFilter pg;
     feedbackFilter := feedbackFilter pg; bmiCanvas := bmiCanvas pg;
     fbCanvas := fbCanvas pg; welcomeText := welcomeText pg;
     location := location pg; charts := charts pg |}.

Definition set_table (pg : Page) (html : string) (st : Store) : Page :=
  {| allPatients := st; bmiChartInstance := bmiChartInstance pg;
     feedbackChartInstance := feedbackChartInstance pg;
     statusDisplay := statusDisplay pg; statusText := statusText pg;
     patientsTable := html; bmiFilter := bmiFilter pg;
     feedbackFilter := feedbackFilter pg; bmiCanvas := bmiCanvas pg;
     fbCanvas := fbCanvas pg; welcomeText := welcomeText pg;
     location := location pg; charts := charts pg |}.

Definition set_charts (pg : Page) (b f : option nat) (w : ChartWorld) : Page :=
  {| allPatients := allPatients pg; bmiChartInstance := b;
     feedbackChartInstance := f;
     statusDisplay := statusDisplay pg; statusText := statusText pg;
     patientsTable := patientsTable pg; bmiFilter := bmiFilter pg;
     feedbackFilter := feedbackFilter pg; bmiCanvas := bmiCanvas pg;
     fbCanvas := fbCanvas pg; welcomeText := welcomeText pg;
     location := location pg; charts := w |}.

Definition set_filters (pg : Page) (b f : string) : Page :=
  {| allPatients := allPatients pg; bmiChartInstance := bmiChartInstance pg;
     feedbackChartInstance := feedbackChartInstance pg;
     statusDisplay := statusDisplay pg; statusText := statusText pg;
     patientsTable := patientsTable pg; bmiFilter := b;
     feedbackFilter := f; bmiCanvas := bmiCanvas pg;
     fbCanvas := fbCanvas pg; welcomeText := welcomeText pg;
     location := location pg; charts := charts pg |}.

Definition showStatus (msg : string) (pg : Page) : Page := set_status pg "block" msg.
Definition clearStatus (pg : Page) : Page := set_status pg "none" "".

(** The instance that part_000 keeps for a canvas. *)
Definition clinicianTrack (pg : Page) : string -> option nat :=
  fun c =>
    if decide (c = "bmiChart") then bmiChartInstance pg
    else if decide (c = "feedbackChart") then feedbackChartInstance pg
    else None.

Section Clinician.
Context `{JsRuntime}.

(** [rows.map((_, i) => `#${i + 1}`)] *)
Definition positionalLabels {A} (rows : list A) : list string :=
  imap (fun i _ => "#" +:+ pretty (i + 1)) rows.

(** [(p.feedback == null) ? 0 : Number(p.feedback)] *)
Definition feedbackValue (p : PatientRecord) : JsValue :=
  if isNullish (feedback p) then JNum (Fin 0) else JNum (Number (feedback p)).

(** [drawCharts(rows)] (lines 148-179).  The function only reads the
    records, so it is given their current values. *)
Definition drawCharts (rows : list PatientRecord) (pg : Page) : Page :=
  if negb (bmiCanvas pg) || negb (fbCanvas pg) then pg
  else
    let w1 := destroyIfSet (bmiChartInstance pg) (charts pg) in
    let w2 := destroyIfSet (feedbackChartInstance pg) w1 in
    if Nat.eqb (length rows) 0
    then set_charts pg (bmiChartInstance pg) (feedbackChartInstance pg) w2
    else
      let labels := positionalLabels rows in
      let bmiValues := map (fun p => JNum (Number (bmi p))) rows in
      let feedbackValues := map feedbackValue rows in
      let '(b, w3) := newChart (mkChart "bmiChart" "line" labels "BMI" bmiValues) w2 in
      let '(f, w4) :=
        newChart (mkChart "feedbackChart" "bar" labels "Feedback (0 = N/A)" feedbackValues) w3 in
      set_charts pg (Some b) (Some f) w4.

(** [rows.filter(p => f(p))] on references into the store. *)
Definition keeps (f : PatientRecord -> bool) (st : Store) (r : nat) : bool :=
  match st !! r with
  | Some p => f p
  | None => false
  end.

Definition filterRows (f : PatientRecord -> bool) (st : Store) (rows : list nat) : list nat :=
  filter (fun r => keeps f st r = true) rows.

(** Lines 58-67: the references kept by the filters. *)
Definition selectRows (bmiFilter feedbackFilter : string) (st : Store) : list nat :=
  let filtered := seq 0 (length st) in
  let filtered :=
    if String.eqb bmiFilter "low"
    then filterRows (fun p => num_lt (Number (bmi p)) (num_of_nat 25)) st filtered
    else filtered in
  let filtered :=
    if String.eqb bmiFilter "medium"
    then filterRows (fun p => num_ge (Number (bmi p)) (num_of_nat 25)
                              && num_lt (Number (bmi p)) (num_of_nat 30)) st filtered
    else filtered in
  let filtered :=
    if String.eqb bmiFilter "high"
    then filterRows (fun p => num_ge (Number (bmi p)) (num_of_nat 30)) st filtered
    else filtered in
  let filtered :=
    if String.eqb feedbackFilter "low"
    then filterRows (fun p => negb (isNullish (feedback p))
                              && num_lt (Number (feedback p)) (num_of_nat 3)) st filtered
    else filtered in
  let filtered :=
    if String.eqb feedbackFilter "high"
    then filterRows (fun p => negb (isNullish (feedback p))
                              && num_ge (Number (feedback p)) (num_of_nat 4)) st filtered
    else filtered in
  filtered.

(** The records behind a list of references. *)
Definition deref (st : Store) (rows : list nat) : list PatientRecord :=
  omap (fun r => st !! r) rows.

(** [applyFilters()] (lines 52-73). *)
Definition applyFilters (pg : Page) : option Page :=
  let pg := clearStatus pg in
  let filtered := selectRows (bmiFilter pg) (feedbackFilter pg) (allPatients pg) in
  match renderTable filtered (allPatients pg) with
  | None => None
  | Some (html, st) =>
      let pg := set_table pg html st in
      let pg := drawCharts (deref st filtered) pg in
      Some (if Nat.eqb (length filtered) 0
            then showStatus "No patients match the selected filters." pg
            else pg)
  end.

(** The user picks the two filter values and clicks Apply. *)
Definition selectAndApply (sel : string * string) (pg : Page) : option Page :=
  applyFilters (set_filters pg (fst sel) (snd sel)).

(** A sequence of filter applications. *)
Fixpoint applySequence (sels : list (string * string)) (pg : Page) : option Page :=
  match sels with
  | [] => Some pg
  | sel :: rest =>
      match selectAndApply sel pg with
      | None => None
      | Some pg' => applySequence rest pg'
      end
  end.
End Clinician.

(** ** [fetchWithRetry] (part_000, lines 22-36) *)

(** What one [fetch] followed by [res.json()] can come to: a transport error,
    or a response with its status and its body, [None] for a body that is not
    JSON. *)
Inductive FetchOutcome (A : Type) : Type :=
  | NetworkError (msg : string)
  | Response (status : nat) (body : option A).
Arguments NetworkError {A} msg.
Arguments Response {A} status body.

(** The values thrown inside the loop, and [null], the initial [lastErr]. *)
Inductive JsError : Type :=
  | ErrNull
  | ErrTransport (msg : string)
  | ErrStatus (url : string) (status : nat)
  | ErrJson.

Inductive Completion (A : Type) : Type :=
  | Returned (v : A)
  | Threw (e : JsError).
Arguments Returned {A} v.
Arguments Threw {A} e.

(** What the function does to the outside, in order. *)
Inductive Event : Type :=
  | EvFetch (url : string)
  | EvWait (ms : nat).

Definition isFetch (e : Event) : bool :=
  match e with EvFetch _ => true | EvWait _ => false end.

(** [res.ok] *)
Definition ok (status : nat) : bool := Nat.leb 200 status && Nat.leb status 299.

Definition attempts (log : list Event) : nat := length (List.filter isFetch log).

Definition waits (log : list Event) : list nat :=
  omap (fun e => match e with EvWait ms => Some ms | EvFetch _ => None end) log.

(** The requests and waits of [n] failed attempts in a row, the first being
    attempt [i]. *)
Fixpoint failedRounds (url : string) (i n : nat) : list Event :=
  match n with
  | 0 => []
  | S n' => EvFetch url :: EvWait (250 * (i + 1)) :: failedRounds url (S i) n'
  end.

Section Fetcher.
Context {A : Type}.
(** The network: the outcome of the [k]-th request issued, counting from 0. *)
Variable net : nat -> FetchOutcome A.

(** The body of the [try]: either the value returned or the error caught. *)
Definition attempt (url : string) (k : nat) : A + JsError :=
  match net k with
  | NetworkError msg => inr (ErrTransport msg)
  | Response status body =>
      if negb (ok status) then inr (ErrStatus url status)
      else match body with
           | Some v => inl v
           | None => inr ErrJson
           end
  end.

(** The loop [for (let i = 0; i < tries; i++)], with [remaining = tries - i]. *)
Fixpoint retryLoop (url : string) (remaining i : nat) (lastErr : JsError)
    (log : list Event) : Completion A * list Event :=
  match remaining with
  | 0 => (Threw lastErr, log)
  | S remaining' =>
      let log1 := (log ++ [EvFetch url])%list in
      match attempt url (attempts log) with
      | inl v => (Returned v, log1)
      | inr err =>
          retryLoop url remaining' (S i) err (log1 ++ [EvWait (250 * (i + 1))])%list
      end
  end.

Definition fetchWithRetry (url : string) (tries : nat) : Completion A * list Event :=
  retryLoop url tries 0 ErrNull [].
End Fetcher.

(** ** Session guards *)

(** The body of [/whoami]. *)
Record Identity : Type := mkIdentity {
  role : JsValue;
  idName : JsValue;
  user_id : JsValue
}.

(** [a !== s] for a string literal [s] *)
Definition strictNeStr (a : JsValue) (s : string) : bool :=
  match a with
  | JStr x => negb (String.eqb x s)
  | _ => true
  end.

Definition set_location (pg : Page) (href : string) : Page :=
  {| allPatients := allPatients pg; bmiChartInstance := bmiChartInstance pg;
     feedbackChartInstance := feedbackChartInstance pg;
     statusDisplay := statusDisplay pg; statusText := statusText pg;
     patientsTable := patientsTable pg; bmiFilter := bmiFilter pg;
     feedbackFilter := feedbackFilter pg; bmiCanvas := bmiCanvas pg;
     fbCanvas := fbCanvas pg; welcomeText := welcomeText pg;
     location := href; charts := charts pg |}.

Definition set_welcome (pg : Page) (text : string) : Page :=
  {| allPatients := allPatients pg; bmiChartInstance := bmiChartInstance pg;
     feedbackChartInstance := feedbackChartInstance pg;
     statusDisplay := statusDisplay pg; statusText := statusText pg;
     patientsTable := patientsTable pg; bmiFilter := bmiFilter pg;
     feedbackFilter := feedbackFilter pg; bmiCanvas := bmiCanvas pg;
     fbCanvas := fbCanvas pg;
     welcomeText := match welcomeText pg with Some _ => Some text | None => None end;
     location := location pg; charts := charts pg |}.

Section Guards.
Context `{JsRuntime}.

(** [requireClinicianAndSetHeader()] (part_000, lines 38-50), given the body
    [data] of the identity response: the value returned and the page. *)
Definition requireClinicianAndSetHeader (data : Identity) (pg : Page) : JsValue * Page :=
  if strictNeStr (role data) "clinician"
  then (JBool false, set_location pg "/clinician_login.html")
  else (JBool true,
        set_welcome pg ("Welcome, " +:+ ToString (js_or (idName data) (JStr "Clinician")))).
End Guards.

(** ** The patient page (src/frontend/script.js) *)

(** The body of [/recommend]. *)
Record Recommendation : Type := mkRecommendation {
  recBmi : JsValue;
  recDiet : JsValue;
  recExercise : JsValue;
  recGeneral : JsValue;
  recError : JsValue
}.

Record PatientPage : Type := mkPatientPage {
  currentUserId : JsValue;
  (** [let charts = {}]: the instance kept for each canvas id, that is the
      properties of [charts] that are its own *)
  patientCharts : gmap string nat;
  patientLocation : string;
  (** [#recommendationResult.innerHTML] *)
  recommendationResult : string;
  (** the requests issued, in order *)
  requests : list string;
  (** the texts passed to [alert], in order *)
  alerts : list string;
  patientWorld : ChartWorld
}.

(** The [data] argument of [drawChart]: an array, or an object given by its
    [Object.keys] and [Object.values]. *)
Inductive ChartData : Type :=
  | DataArray (xs : list JsValue)
  | DataObject (keys : list string) (values : list JsValue).

(** The names that a plain object such as [charts] inherits from
    [Object.prototype]: reading one of them on [charts] gives a function (the
    prototype itself for the last one), which is truthy and has no
    [destroy]. *)
Definition objectPrototypeNames : list string :=
  [ "constructor"; "hasOwnProperty"; "isPrototypeOf"; "propertyIsEnumerable";
    "toLocaleString"; "toString"; "valueOf"; "__defineGetter__";
    "__defineSetter__"; "__lookupGetter__"; "__lookupSetter__"; "__proto__" ].

Definition inheritedName (id : string) : bool :=
  bool_decide (id ∈ objectPrototypeNames).

(** Whether [if (charts[id]) charts[id].destroy()] throws: [charts] has no
    chart of its own under [id] and [id] names an inherited property. *)
Definition drawChartThrows (id : string) (pp : PatientPage) : bool :=
  match patientCharts pp !! id with
  | Some _ => false
  | None => inheritedName id
  end.

Section Patient.
Context `{JsRuntime}.

(** [mustBePatient()] (lines 4-9), given the body [me] of the identity
    response: the value returned and the page.  The function has no
    [return] statement. *)
Definition mustBePatient (me : Identity) (pp : PatientPage) : JsValue * PatientPage :=
  let href := if strictNeStr (role me) "patient" then "/login.html" else patientLocation pp in
  (JUndefined,
   {| currentUserId := user_id me; patientCharts := patientCharts pp;
      patientLocation := href; recommendationResult := recommendationResult pp;
      requests := (requests pp ++ ["GET /whoami"])%list; alerts := alerts pp;
      patientWorld := patientWorld pp |}).

(** [drawChart(id, type, data, label)] (lines 18-38).  When line 19 throws,
    nothing has been changed yet and the page is returned as it is. *)
Definition drawChart (id type : string) (data : ChartData) (label : string)
    (pp : PatientPage) : PatientPage :=
  if drawChartThrows id pp then pp else
  let w1 := destroyIfSet (patientCharts pp !! id) (patientWorld pp) in
  let cfg :=
    mkChart id type
      (match data with
       | DataArray xs => imap (fun i _ => "Rec " +:+ pretty (i + 1)) xs
       | DataObject keys _ => keys
       end)
      label
      (match data with
       | DataArray xs => xs
       | DataObject _ values => values
       end) in
  let '(c, w2) := newChart cfg w1 in
  {| currentUserId := currentUserId pp; patientCharts := <[id := c]> (patientCharts pp);
     patientLocation := patientLocation pp;
     recommendationResult := recommendationResult pp;
     requests := requests pp; alerts := alerts pp; patientWorld := w2 |}.

(** [xs.map(d => `<li>${d}</li>`).join(empty)]; [None] when [xs] is not an
    array and the call throws. *)
Definition rawItems (xs : JsValue) : option string :=
  match xs with
  | JArray items => Some (join "" (map (fun d => "<li>" +:+ ToString d +:+ "</li>") items))
  | _ => None
  end.

(** The card template of lines 80-106; [None] when building it throws. *)
Definition recommendationCard (data : Recommendation) : option string :=
  d ← rawItems (recDiet data);
  e ← rawItems (recExercise data);
  g ← rawItems (recGeneral data);
  Some (tpl "
      <div class=~card~>
        <h3 style=~margin-top:0;~>Your Recommendation</h3>
        <p><strong>BMI:</strong> " +:+ ToString (recBmi data) +:+ tpl "</p>

        <div class=~section~>
          <strong>🥗 Diet</strong>
          <ul>" +:+ d +:+ tpl "</ul>
        </div>

        <div class=~section~>
          <strong>🏃 Exercise</strong>
          <ul>" +:+ e +:+ tpl "</ul>
        </div>

        <div class=~section~>
          <strong>🧠 General Advice</strong>
          <ul>" +:+ g +:+ tpl "</ul>
        </div>

        <div class=~feedback~>
          <p><strong>Was this helpful?</strong></p>
          <button onclick=~sendFeedback(5)~>👍 Yes</button>
          <button onclick=~sendFeedback(1)~>👎 No</button>
        </div>
      </div>
    ").

Definition patientAlert (msg : string) (pp : PatientPage) : PatientPage :=
  {| currentUserId := currentUserId pp; patientCharts := patientCharts pp;
     patientLocation := patientLocation pp;
     recommendationResult := recommendationResult pp;
     requests := requests pp; alerts := (alerts pp ++ [msg])%list;
     patientWorld := patientWorld pp |}.

Definition patientRequest (req : string) (pp : PatientPage) : PatientPage :=
  {| currentUserId := currentUserId pp; patientCharts := patientCharts pp;
     patientLocation := patientLocation pp;
     recommendationResult := recommendationResult pp;
     requests := (requests pp ++ [req])%list; alerts := alerts pp;
     patientWorld := patientWorld pp |}.

Definition set_recommendationResult (html : string) (pp : PatientPage) : PatientPage :=
  {| currentUserId := currentUserId pp; patientCharts := patientCharts pp;
     patientLocation := patientLocation pp;
     recommendationResult := html;
     requests := requests pp; alerts := alerts pp;
     patientWorld := patientWorld pp |}.

(** [loadUserCharts()] (lines 40-56), which ends [getRecommendation]; it
    catches its own errors. *)
Variable loadUserCharts : PatientPage -> PatientPage.

(** [getRecommendation()] (lines 58-113), given the outcome [who] of the
    [/whoami] request and the outcome [resp] of the [/recommend] request.  A
    body [None] is one that [res.json()] rejects.  [await mustBePatient()] is
    the first statement of the [try]: when its request or the reading of its
    body fails, the [catch] alerts and [/recommend] is never requested. *)
Definition getRecommendation (who : FetchOutcome Identity)
    (resp : FetchOutcome Recommendation) (pp : PatientPage) : PatientPage :=
  match who with
  | NetworkError _ | Response _ None =>
      patientAlert "Failed to get recommendation" (patientRequest "GET /whoami" pp)
  | Response _ (Some me) =>
      let '(_, pp) := mustBePatient me pp in
      let pp := patientRequest "POST /recommend" pp in
      let failed := patientAlert "Failed to get recommendation" pp in
      match resp with
      | NetworkError _ => failed
      | Response _ None => failed
      | Response status (Some data) =>
          if negb (ok status) then failed
          else match recommendationCard data with
               | None => failed
               | Some html => loadUserCharts (set_recommendationResult html pp)
               end
      end
  end.
End Patient.

(** ** The legacy history page (part_001) *)

(** One element of the body of [/history]. *)
Record HistoryRecord : Type := mkHistory {
  hBmi : JsValue;
  hDiet : JsValue;
  hExercise : JsValue;
  hGeneral : JsValue
}.

Record LegacyPage : Type := mkLegacyPage {
  (** [#historyTable.innerHTML] *)
  historyTable : string;
  (** [let bmiChartInstance] of part_001 *)
  historyChartInstance : option nat;
  legacyWorld : ChartWorld
}.

(** The instance that part_001 keeps for a canvas. *)
Definition legacyTrack (pg : LegacyPage) : string -> option nat :=
  fun c => if decide (c = "bmiChart") then historyChartInstance pg else None.

Section Legacy.
Context `{JsRuntime}.

(** [xs.join(sep)] as a method call: [None] when [xs] is not an array and
    the call throws. *)
Definition joinOf (sep : string) (xs : JsValue) : option string :=
  match xs with
  | JArray items => Some (Array_join sep items)
  | _ => None
  end.

(** The row template of lines 11-16. *)
Definition historyRow (rec : HistoryRecord) : option string :=
  d ← joinOf ", " (hDiet rec);
  e ← joinOf ", " (hExercise rec);
  g ← joinOf ", " (hGeneral rec);
  Some ("<tr>
                    <td>" +:+ ToString (hBmi rec) +:+ "</td>
                    <td>" +:+ d +:+ "</td>
                    <td>" +:+ e +:+ "</td>
                    <td>" +:+ g +:+ "</td>
                </tr>").

(** [data.forEach(rec => { html += ... })] *)
Fixpoint historyRows (data : list HistoryRecord) (html : string) : option string :=
  match data with
  | [] => Some html
  | rec :: rest =>
      match historyRow rec with
      | None => None
      | Some row => historyRows rest (html +:+ row)
      end
  end.

(** The markup assigned to [#historyTable.innerHTML] (lines 8-19). *)
Definition historyTableHtml (data : list HistoryRecord) : option string :=
  match historyRows data
          ("<h3>Last 3 Recommendations</h3>" +:+
           "<table><tr><th>BMI</th><th>Diet</th><th>Exercise</th><th>General Advice</th></tr>")
  with
  | None => None
  | Some html => Some (html +:+ "</table>")
  end.

(** The callback that [loadHistory()] runs on the body [data] of [/history]
    (lines 6-46).  An exception inside it is caught by the [catch] of the
    chain and leaves the page as it was. *)
Definition loadHistory (data : list HistoryRecord) (pg : LegacyPage) : LegacyPage :=
  match historyTableHtml data with
  | None => pg
  | Some html =>
      let labels := imap (fun i _ => "Rec " +:+ pretty (i + 1)) data in
      let bmis := map hBmi data in
      let w1 := destroyIfSet (historyChartInstance pg) (legacyWorld pg) in
      let '(c, w2) :=
        newChart (mkChart "bmiChart" "line" (reverse labels) "BMI Trend" (reverse bmis)) w1 in
      {| historyTable := html; historyChartInstance := Some c; legacyWorld := w2 |}
  end.
End Legacy.

(** ** Page load of the clinician page (part_000, lines 196-214) *)

(** What [init()] leaves behind: the page, the requests and waits of the data
    load, whether the three click handlers were added, and whether the [catch]
    block ran. *)
Record InitOutcome : Type := mkInit {
  initPage : Page;
  initEvents : list Event;
  wired : bool;
  caught : bool
}.

Definition set_allPatients (pg : Page) (st : Store) : Page :=
  {| allPatients := st; bmiChartInstance := bmiChartInstance pg;
     feedbackChartInstance := feedbackChartInstance pg;
     statusDisplay := statusDisplay pg; statusText := statusText pg;
     patientsTable := patientsTable pg; bmiFilter := bmiFilter pg;
     feedbackFilter := feedbackFilter pg; bmiCanvas := bmiCanvas pg;
     fbCanvas := fbCanvas pg; welcomeText := welcomeText pg;
     location := location pg; charts := charts pg |}.

Section Init.
Context `{JsRuntime}.

(** [init()], given the body [data] of the identity response and the network
    that answers the data requests.  The body of [/clinician-data] is an array
    of records, as [allPatients] is everywhere else in the script; the rows of
    [renderTable(allPatients)] are the references to all of them. *)
Definition init (data : Identity) (net : nat -> FetchOutcome Store) (pg : Page)
  : InitOutcome :=
  let '(ok, pg) := requireClinicianAndSetHeader data pg in
  if negb (Boolean ok) then mkInit pg [] false false
  else
    let pg := clearStatus pg in
    let failed pg log :=
      mkInit
        (showStatus "Could not load clinician dashboard data. Please refresh once." pg)
        log false true in
    match fetchWithRetry net "/clinician-data" 3 with
    | (Threw _, log) => failed pg log
    | (Returned body, log) =>
        let pg := set_allPatients pg body in
        let rows := seq 0 (length body) in
        match renderTable rows (allPatients pg) with
        | None => failed pg log
        | Some (html, st) =>
            let pg := set_table pg html st in
            let pg := drawCharts (deref st rows) pg in
            mkInit pg log true false
        end
    end.
End Init.

(** ** [downloadPdf] and [logout] (part_000, lines 181-194) *)

(** The characters that [encodeURIComponent] leaves as they are: letters,
    digits and [- _ . ! ~ * ' ( )]. *)
Definition isUnreserved (c : ascii) : bool :=
  let n := nat_of_ascii c in
  (Nat.leb 65 n && Nat.leb n 90) || (Nat.leb 97 n && Nat.leb n 122) ||
  (Nat.leb 48 n && Nat.leb n 57) ||
  Nat.eqb n 45 || Nat.eqb n 95 || Nat.eqb n 46 || Nat.eqb n 33 || Nat.eqb n 126 ||
  Nat.eqb n 42 || Nat.eqb n 39 || Nat.eqb n 40 || Nat.eqb n 41.

Definition hexDigit (n : nat) : ascii :=
  match n with
  | 0 => "0" | 1 => "1" | 2 => "2" | 3 => "3" | 4 => "4" | 5 => "5" | 6 => "6"
  | 7 => "7" | 8 => "8" | 9 => "9" | 10 => "A" | 11 => "B" | 12 => "C"
  | 13 => "D" | 14 => "E" | _ => "F"
  end%char.

(** One byte of the UTF-8 encoding, percent-encoded. *)
Definition percentEncode (c : ascii) : string :=
  String "%"%char
    (String (hexDigit (nat_of_ascii c / 16))
       (String (hexDigit (nat_of_ascii c mod 16)) EmptyString)).

(** [encodeURIComponent(s)]: every character outside the unreserved set is
    replaced by the percent-encoded bytes of its UTF-8 encoding.  The strings
    here are UTF-8 byte strings and every unreserved character is one ASCII
    byte, so the replacement goes byte by byte. *)
Fixpoint encodeURIComponent (s : string) : string :=
  match s with
  | EmptyString => EmptyString
  | String c rest =>
      (if isUnreserved c then String c EmptyString else percentEncode c)
      +:+ encodeURIComponent rest
  end.

(** [downloadPdf()] *)
Definition downloadPdf (pg : Page) : Page :=
  set_location pg
    ("/export-pdf?bmi=" +:+ encodeURIComponent (bmiFilter pg) +:+
     "&feedback=" +:+ encodeURIComponent (feedbackFilter pg)).

(** [logout()]: the request is sent and its failure is swallowed by the empty
    [catch]; the redirect follows in every case. *)
Definition logout {A} (resp : FetchOutcome A) (pg : Page) : list string * Page :=
  (["POST /logout"], set_location pg "/clinician_login.html").

(** The number of occurrences of a character in a text. *)
Fixpoint countChar (c : ascii) (s : string) : nat :=
  match s with
  | EmptyString => 0
  | String x rest => (if Ascii.eqb x c then 1 else 0) + countChar c rest
  end.

(** ** The legacy form (src/diabetes_ai_project/frontend/script.js) *)

(** The body of [/recommend] as the legacy form receives it, a JSON object. *)
Record LegacyResult : Type := mkLegacyResult {
  resBmi : JsValue;
  resDiet : JsValue;
  resExercise : JsValue;
  resGeneral : JsValue
}.

(** The same object after lines 23-25 made its three list fields arrays;
    [updateHistory] is only ever given such an object. *)
Record PastRecommendation : Type := mkPast {
  pastBmi : JsValue;
  pastDiet : list JsValue;
  pastExercise : list JsValue;
  pastGeneral : list JsValue
}.

Record FormPage : Type := mkFormPage {
  (** [#result.innerHTML] *)
  formResult : string;
  (** [#historyList.innerHTML] *)
  historyList : string;
  (** [let recommendationHistory] *)
  recommendationHistory : list PastRecommendation;
  (** the texts passed to [alert], in order *)
  formAlerts : list string;
  (** the requests issued, in order *)
  formRequests : list string
}.

(** [s.split(sep)] for the separator made of a comma and a space: [cur] is the
    piece being read. *)
Fixpoint splitCommaSpace (s : string) (cur : string) : list string :=
  match s with
  | EmptyString => [cur]
  | String c rest =>
      match rest with
      | String c2 rest2 =>
          if Ascii.eqb c ","%char && Ascii.eqb c2 " "%char
          then cur :: splitCommaSpace rest2 EmptyString
          else splitCommaSpace rest (cur +:+ String c EmptyString)
      | EmptyString => splitCommaSpace rest (cur +:+ String c EmptyString)
      end
  end.

(** Whether a text holds a comma followed by a space. *)
Fixpoint hasCommaSpace (s : string) : bool :=
  match s with
  | String c (String c2 _ as rest) =>
      (Ascii.eqb c ","%char && Ascii.eqb c2 " "%char) || hasCommaSpace rest
  | _ => false
  end.

(** The first character of a text, as a text. *)
Definition firstChar (s : string) : string :=
  match s with
  | EmptyString => EmptyString
  | String c _ => String c EmptyString
  end.

(** [Array.isArray(v) ? v : v.split(sep)]; [None] when [v] is neither an
    array nor a string and the call throws. *)
Definition ensureArray (v : JsValue) : option (list JsValue) :=
  match v with
  | JArray items => Some items
  | JStr s => Some (JStr <$> splitCommaSpace s EmptyString)
  | _ => None
  end.

Section LegacyForm.
Context `{JsRuntime}.

(** Lines 23-25. *)
Definition ensureArrays (result : LegacyResult) : option PastRecommendation :=
  d ← ensureArray (resDiet result);
  e ← ensureArray (resExercise result);
  g ← ensureArray (resGeneral result);
  Some (mkPast (resBmi result) d e g).

(** The template of lines 28-33. *)
Definition currentBox (result : PastRecommendation) : string :=
  tpl "<div class=~rec-box current-rec~>
            <h3>BMI: " +:+ ToString (pastBmi result) +:+ "</h3>
            <p><strong>Diet:</strong> " +:+ Array_join ", " (pastDiet result) +:+ "</p>
            <p><strong>Exercise:</strong> " +:+ Array_join ", " (pastExercise result) +:+ "</p>
            <p><strong>General:</strong> " +:+ Array_join ", " (pastGeneral result) +:+ "</p>
        </div>".

(** The template of lines 55-60. *)
Definition pastBox (rec : PastRecommendation) : string :=
  tpl "<div class=~rec-box past-rec~>
            <p><strong>BMI:</strong> " +:+ ToString (pastBmi rec) +:+ "</p>
            <p><strong>Diet:</strong> " +:+ Array_join ", " (pastDiet rec) +:+ "</p>
            <p><strong>Exercise:</strong> " +:+ Array_join ", " (pastExercise rec) +:+ "</p>
            <p><strong>General:</strong> " +:+ Array_join ", " (pastGeneral rec) +:+ "</p>
        </div>".

(** [recommendationHistory.forEach(rec => { historyHtml += ... })] *)
Definition pastBoxes (history : list PastRecommendation) : string :=
  foldl (fun html rec => html +:+ pastBox rec) "<h3>Past Recommendations</h3>" history.

(** [updateHistory(newRecommendation)] (lines 49-64) *)
Definition updateHistory (newRecommendation : PastRecommendation) (pg : FormPage)
  : FormPage :=
  let history := newRecommendation :: recommendationHistory pg in
  let history := if Nat.ltb 3 (length history) then take 3 history else history in
  {| formResult := formResult pg; historyList := pastBoxes history;
     recommendationHistory := history; formAlerts := formAlerts pg;
     formRequests := formRequests pg |}.

Definition formAlert (msg : string) (pg : FormPage) : FormPage :=
  {| formResult := formResult pg; historyList := historyList pg;
     recommendationHistory := recommendationHistory pg;
     formAlerts := (formAlerts pg ++ [msg])%list; formRequests := formRequests pg |}.

Definition formRequest (req : string) (pg : FormPage) : FormPage :=
  {| formResult := formResult pg; historyList := historyList pg;
     recommendationHistory := recommendationHistory pg;
     formAlerts := formAlerts pg; formRequests := (formRequests pg ++ [req])%list |}.

Definition set_formResult (html : string) (pg : FormPage) : FormPage :=
  {| formResult := html; historyList := historyList pg;
     recommendationHistory := recommendationHistory pg;
     formAlerts := formAlerts pg; formRequests := formRequests pg |}.

(** [getRecommendations()] (lines 1-44), given the numbers that [parseInt]
    and [parseFloat] read in the three fields and the outcome of the request.
    The callback does not look at the status of the response. *)
Definition getRecommendations (age weight height : JsNumber)
    (resp : FetchOutcome LegacyResult) (pg : FormPage) : FormPage :=
  if negb (Boolean (JNum age)) || negb (Boolean (JNum weight)) ||
     negb (Boolean (JNum height))
  then formAlert "Please fill all fields with valid numbers." pg
  else
    let pg := formRequest "POST /recommend" pg in
    let failed := formAlert "Error getting recommendations. Check console." pg in
    match resp with
    | NetworkError _ => failed
    | Response _ None => failed
    | Response _ (Some result) =>
        match ensureArrays result with
        | None => failed
        | Some result => updateHistory result (set_formResult (currentBox result) pg)
        end
    end.

(** The recommendations received so far, one after the other. *)
Definition updateAll (results : list PastRecommendation) (pg : FormPage) : FormPage :=
  foldl (fun pg r => updateHistory r pg) pg results.
End LegacyForm.

(** ** Helpers to state properties of [escapeHtml] *)

(** Whether a text holds none of the five characters that [escapeHtml]
    rewrites. *)
Fixpoint plainText (s : string) : bool :=
  match s with
  | EmptyString => true
  | String c rest =>
      negb (Ascii.eqb c "&"%char) && negb (isMarkupChar c) && plainText rest
  end.

(** The reading of an escaped text back into the text it stands for: each of
    the five entities gives its character back; [skip] is the number of
    characters still to skip once an entity has been recognised. *)
Fixpoint unescapeGo (skip : nat) (s : string) : string :=
  match s with
  | EmptyString => EmptyString
  | String c rest =>
      match skip with
      | S k => unescapeGo k rest
      | 0 =>
          if Ascii.eqb c "&"%char then
            if String.prefix "amp;" rest then String "&"%char (unescapeGo 4 rest)
            else if String.prefix "lt;" rest then String "<"%char (unescapeGo 3 rest)
            else if String.prefix "gt;" rest then String ">"%char (unescapeGo 3 rest)
            else if String.prefix "quot;" rest then String DQ (unescapeGo 5 rest)
            else if String.prefix "#039;" rest then String "'"%char (unescapeGo 5 rest)
            else String c (unescapeGo 0 rest)
          else String c (unescapeGo 0 rest)
      end
  end.

Definition unescapeHtml (s : string) : string := unescapeGo 0 s.

(** The placeholder of a list cell without entries (part_000, line 77). *)
Definition dashPlaceholder : string := tpl "<span class=~muted~>—</span>".

(** [Array.isArray(v)] *)
Definition isArray (v : JsValue) : bool :=
  match v with
  | JArray _ => true
  | _ => false
  end.


(** Whether the three list fields of a recommendation are arrays. *)
Definition recommendationFieldsAreArrays (data : Recommendation) : bool :=
  isArray (recDiet data) && isArray (recExercise data) && isArray (recGeneral data).

(** Whether no object occurs in the fields of a recommendation that the
    card interpolates. *)
Definition recommendationConverts (data : Recommendation) : bool :=
  noObject (recBmi data) && noObject (recDiet data) &&
  noObject (recExercise data) && noObject (recGeneral data).

(** Whether [getRecommendation] gets to render a card: a 2xx response whose
    body is JSON with three array fields. *)
Definition recommendationRenders (resp : FetchOutcome Recommendation) : bool :=
  match resp with
  | Response status (Some data) => ok status && recommendationFieldsAreArrays data
  | _ => false
  end.

(** Whether every character of a text is left as it is by
    [encodeURIComponent]. *)
Fixpoint allUnreserved (s : string) : bool :=
  match s with
  | EmptyString => true
  | String c rest => isUnreserved c && allUnreserved rest
  end.

(** ** A runtime to evaluate the model on examples

    [exampleRuntime] follows ECMAScript on the values the examples below use:
    [NumberToString] on integers of magnitude below 10^21, [toFixed] on
    numbers of magnitude below 10^21, and [StringToNumber] on the empty string
    and on strings of decimal digits.  Elsewhere it answers NaN.  The theorems
    that are not evaluations hold for every runtime. *)

Definition isInteger (q : Q) : bool := Z.eqb (Qnum q mod Zpos (Qden q)) 0.

Definition below1e21 (q : Q) : bool := negb (Qle_bool (inject_Z (10 ^ 21)) (Qabs q)).

Definition exNumberToString (n : JsNumber) : string :=
  match n with
  | NaN => "NaN"
  | PosInf => "Infinity"
  | NegInf => "-Infinity"
  | Fin q =>
      if isInteger q && below1e21 q then pretty (Qnum q / Zpos (Qden q))%Z else "NaN"
  end.

(** [n.toFixed(f)] for a finite [q] below 10^21: the integer [n] closest to
    [|q| * 10^f], the larger one on a tie, written with [f] decimals. *)
Definition exToFixedQ (q : Q) (f : nat) : string :=
  let neg := negb (Qle_bool 0 q) in
  let x := Qabs q in
  let n := ((2 * Qnum x * 10 ^ Z.of_nat f + Zpos (Qden x)) / (2 * Zpos (Qden x)))%Z in
  let digits := pretty (Z.to_N n) in
  let padded :=
    String.concat "" (replicate (S f - String.length digits) "0") +:+ digits in
  let k := String.length padded - f in
  (if neg then "-" else "") +:+ String.substring 0 k padded +:+
  (if Nat.eqb f 0 then "" else "." +:+ String.substring k f padded).

Definition exToFixed (n : JsNumber) (f : nat) : string :=
  match n with
  | Fin q => if below1e21 q then exToFixedQ q f else exNumberToString n
  | _ => exNumberToString n
  end.

Fixpoint digitsValue (s : string) (acc : Z) : option Z :=
  match s with
  | EmptyString => Some acc
  | String c rest =>
      let d := nat_of_ascii c in
      if Nat.leb 48 d && Nat.leb d 57
      then digitsValue rest (10 * acc + Z.of_nat (d - 48))%Z
      else None
  end.

Definition exStringToNumber (s : string) : JsNumber :=
  match digitsValue s 0%Z with
  | Some z => Fin (inject_Z z)
  | None => NaN
  end.

#[export] Instance exampleRuntime : JsRuntime :=
  {| NumberToString := exNumberToString;
     StringToNumber := exStringToNumber;
     toFixed := exToFixed |}.

(** ** Example data *)

(** A record with an empty [risks] array, a high BMI and a low feedback. *)
Definition patientAda : PatientRecord :=
  mkPatient (JStr "Ada <admin>") (JNum (Fin (63 # 2)))
    (JArray [JStr "oats"; JStr ""; JStr "rice & beans"; JStr "fish"; JStr "fruit"])
    (JArray [JStr "walk"]) (JArray []) (JNum (Fin 2)) (JArray []) JNull.

(** A record without [risks], [bmi] or [feedback]. *)
Definition patientBob : PatientRecord :=
  mkPatient (JStr "Bob") JUndefined (JArray []) JUndefined JUndefined JUndefined
    JUndefined (JStr "stable").

(** A record that carries a risk of its own. *)
Definition patientCyd : PatientRecord :=
  mkPatient JUndefined (JNum (Fin 24)) JUndefined JUndefined JUndefined (JNum (Fin 5))
    (JArray [JStr "smoker"]) JUndefined.

Definition examplePatients : Store := [patientAda; patientBob; patientCyd].

(** A record without risks of its own, with a high BMI and a good feedback. *)
Definition patientDee : PatientRecord :=
  mkPatient (JStr "Dee") (JNum (Fin 31)) (JArray []) (JArray []) (JArray [])
    (JNum (Fin (9 # 2))) JUndefined JUndefined.

(** The list cell as the specification words it, for an array [items]: with
    more than 3 entries a disclosure element whose count label is the length
    of [items]; with 3 or fewer entries no disclosure element. *)
Definition listCellAsWorded `{JsRuntime} (items : list JsValue) : Prop :=
  (3 < length items →
     occurs "<details" (renderListCell (JArray items)) = true ∧
     occurs (countLabel (length items)) (renderListCell (JArray items)) = true) ∧
  (length items ≤ 3 → occurs "<details" (renderListCell (JArray items)) = false).

(** A clinician page as it is loaded, with both canvases, holding the example
    records. *)
Definition examplePage : Page :=
  {| allPatients := examplePatients; bmiChartInstance := None;
     feedbackChartInstance := None; statusDisplay := "none"; statusText := "";
     patientsTable := ""; bmiFilter := "all"; feedbackFilter := "all";
     bmiCanvas := true; fbCanvas := true; welcomeText := Some "";
     location := "/clinician_dashboard.html"; charts := noCharts |}.

(** A patient page as it is loaded. *)
Definition examplePatientPage : PatientPage :=
  {| currentUserId := JNull; patientCharts := ∅; patientLocation := "/dashboard.html";
     recommendationResult := ""; requests := []; alerts := [];
     patientWorld := noCharts |}.

(** An identity with the clinician role, and one with the patient role. *)
Definition clinicianIdentity : Identity :=
  mkIdentity (JStr "clinician") (JStr "Dr. Grey") (JNum (Fin 7)).
Definition patientIdentity : Identity :=
  mkIdentity (JStr "patient") JUndefined (JNum (Fin 12)).

(** A recommendation whose diet holds markup. *)
Definition markupRecommendation : Recommendation :=
  mkRecommendation (JNum (Fin 31)) (JArray [JStr "<b>rice</b> & beans"])
    (JArray [JStr "walk"]) (JArray []) JUndefined.

Definition markupHistory : HistoryRecord :=
  mkHistory (JNum (Fin 31)) (JArray [JStr "<b>rice</b> & beans"; JStr "fish"])
    (JArray [JStr "walk"]) (JArray []).

(** A network on which every request is answered 503, and one that answers
    503 twice and then 200 with a body. *)
Definition alwaysDown : nat -> FetchOutcome (list PatientRecord) :=
  fun _ => Response 503 None.
Definition upOnThird : nat -> FetchOutcome (list PatientRecord) :=
  fun k => if Nat.ltb k 2 then Response 503 None else Response 200 (Some examplePatients).


(** The legacy form as it is loaded. *)
Definition exampleFormPage : FormPage :=
  {| formResult := ""; historyList := ""; recommendationHistory := [];
     formAlerts := []; formRequests := [] |}.

(** A body of [/recommend] whose diet is a text and whose other lists are
    arrays. *)
Definition textResult : LegacyResult :=
  mkLegacyResult (JNum (Fin 31)) (JStr "oats, rice, fish") (JArray [JStr "walk"])
    (JArray []).

(** Four recommendations as the form keeps them, in order of arrival. *)
Definition fourRecommendations : list PastRecommendation :=
  [ mkPast (JNum (Fin 31)) [JStr "oats"] [JStr "walk"] [];
    mkPast (JNum (Fin 27)) [JStr "rice"] [JStr "swim"] [];
    mkPast (JNum (Fin 24)) [JStr "fish"] [JStr "run"] [];
    mkPast (JNum (Fin 22)) [JStr "kale"] [JStr "yoga"] [] ].

(** * Properties *)

(** ** The example runtime *)

Example toFixed_two_decimals : toFixed (Fin (63 # 2)) 2 = "31.50".
Proof. vm_compute. reflexivity. Qed.

Example toFixed_one_decimal : toFixed (Fin (5 # 2)) 1 = "2.5".
Proof. vm_compute. reflexivity. Qed.

Example toFixed_tie_rounds_up : toFixed (Fin (1 # 8)) 2 = "0.13".
Proof. vm_compute. reflexivity. Qed.

Example toFixed_pads : toFixed (Fin (-1 # 20)) 1 = "-0.1".
Proof. vm_compute. reflexivity. Qed.

(** ** Strings *)

Lemma append_cons (x : ascii) (a b : string) : String x a +:+ b = String x (a +:+ b).
Proof. reflexivity. Qed.

Lemma append_nil_l (a : string) : "" +:+ a = a.
Proof. reflexivity. Qed.

Lemma append_assoc (a b c : string) : (a +:+ b) +:+ c = a +:+ (b +:+ c).
Proof.
  induction a as [|x a IH]; [reflexivity|].
  by rewrite !append_cons, IH.
Qed.

Lemma append_nil_r (a : string) : a +:+ "" = a.
Proof.
  induction a as [|x a IH]; [reflexivity|].
  by rewrite append_cons, IH.
Qed.

(** ** The loop body of [renderTable] *)

Section RenderFacts.
Context `{JsRuntime}.

Lemma set_risks_same p : set_risks p (risks p) = p.
Proof. by destruct p. Qed.

Lemma pushSynthesized_set_risks p r rs :
  pushSynthesized (set_risks p r) rs = pushSynthesized p rs.
Proof. reflexivity. Qed.

Lemma pushSynthesized_nil p :
  pushSynthesized p [] =
    ((if highBmi p then [JStr HIGH_BMI] else []) ++
     (if lowFeedback p then [JStr LOW_FEEDBACK] else []))%list.
Proof. unfold pushSynthesized. by destruct (highBmi p), (lowFeedback p). Qed.

(** What the loop body does to a record: an empty [risks] array receives
    the synthesized labels, any other record is left as it is. *)
Lemma settle_cases p :
  settle p =
    match risks p with
    | JArray [] => set_risks p (JArray (pushSynthesized p []))
    | _ => p
    end.
Proof.
  unfold settle, deriveRisks.
  destruct (risks p) as [| | | | |[|x rs]|]; reflexivity.
Qed.

(** The array shown in the risk cell. *)
Lemma shown_cases p :
  fst (deriveRisks p) =
    match risks p with
    | JArray (x :: rs) => x :: rs
    | _ => pushSynthesized p []
    end.
Proof.
  unfold deriveRisks.
  destruct (risks p) as [| | | | |[|x rs]|]; reflexivity.
Qed.

Lemma shown_settle p : fst (deriveRisks (settle p)) = fst (deriveRisks p).
Proof.
  rewrite !shown_cases, settle_cases.
  destruct (risks p) as [| | | | |[|x rs]|] eqn:E; rewrite ?E; try reflexivity.
  cbn [risks set_risks]. rewrite pushSynthesized_set_risks.
  destruct (pushSynthesized p []); reflexivity.
Qed.

Lemma settle_idem p : settle (settle p) = settle p.
Proof.
  rewrite (settle_cases (settle p)), settle_cases.
  destruct (risks p) as [| | | | |[|x rs]|] eqn:E; rewrite ?E; try reflexivity.
  cbn [risks set_risks]. rewrite pushSynthesized_set_risks.
  destruct (pushSynthesized p []); reflexivity.
Qed.

Lemma settle_fields p :
  name (settle p) = name p ∧ bmi (settle p) = bmi p ∧ diet (settle p) = diet p ∧
  exercise (settle p) = exercise p ∧ general (settle p) = general p ∧
  feedback (settle p) = feedback p ∧ ai_explanation (settle p) = ai_explanation p.
Proof.
  rewrite settle_cases.
  destruct (risks p) as [| | | | |[|x rs]|]; repeat split; reflexivity.
Qed.

Lemma rowHtml_settle p : rowHtml (settle p) = rowHtml p.
Proof.
  destruct (settle_fields p) as (Hn & Hb & Hd & He & Hg & Hf & Ha).
  unfold rowHtml, riskCell, riskText, bmiCell, feedbackCell, fbOf.
  by rewrite shown_settle, Hn, Hb, Hd, He, Hg, Hf, Ha.
Qed.

(** ** The loop of [renderTable] over the store *)

Lemma settleRows_length rows st : length (settleRows rows st) = length st.
Proof.
  revert st. induction rows as [|r rows IH]; intros st; [done|].
  change (settleRows (r :: rows) st) with (settleRows rows (alter settle r st)).
  rewrite IH. apply length_alter.
Qed.

Lemma settleRows_lookup rows st i :
  settleRows rows st !! i =
    (if decide (i ∈ rows) then settle else id) <$> st !! i.
Proof.
  revert st. induction rows as [|r rows IH]; intros st.
  - unfold settleRows. simpl. by destruct (st !! i).
  - change (settleRows (r :: rows) st) with (settleRows rows (alter settle r st)).
    rewrite IH. destruct (decide (i = r)) as [->|Hne].
    + rewrite list_lookup_alter_eq.
      destruct (st !! r) as [p|]; simpl; [|done].
      destruct (decide (r ∈ r :: rows)) as [_|Hn]; [|exfalso; apply Hn; left].
      destruct (decide (r ∈ rows)); simpl; by rewrite ?settle_idem.
    + rewrite list_lookup_alter_ne by done.
      destruct (st !! i) as [p|]; simpl; [|done].
      destruct (decide (i ∈ rows)) as [Hin|Hnin],
               (decide (i ∈ r :: rows)) as [Hin'|Hnin']; simpl; try done.
      * exfalso. apply Hnin'. by right.
      * exfalso. apply elem_of_cons in Hin' as [?|?]; done.
Qed.

Lemma settleRows_idem rows st : settleRows rows (settleRows rows st) = settleRows rows st.
Proof.
  apply list_eq. intros i. rewrite !settleRows_lookup.
  destruct (st !! i) as [p|]; simpl; [|done].
  destruct (decide (i ∈ rows)); simpl; [by rewrite settle_idem | done].
Qed.

Lemma rowHtml_settleRows rows st i :
  rowHtml <$> settleRows rows st !! i = rowHtml <$> st !! i.
Proof.
  rewrite settleRows_lookup. destruct (st !! i) as [p|]; simpl; [|done].
  destruct (decide (i ∈ rows)); simpl; [by rewrite rowHtml_settle | done].
Qed.

Lemma rowsMarkup_ext st1 st2 rows :
  (∀ i, rowHtml <$> st1 !! i = rowHtml <$> st2 !! i) →
  rowsMarkup st1 rows = rowsMarkup st2 rows.
Proof.
  intros Hext. unfold rowsMarkup. f_equal.
  induction rows as [|r rows IH]; [done|].
  csimpl. by rewrite Hext, IH.
Qed.

Lemma rowsMarkup_cons st r rows p :
  st !! r = Some p → rowsMarkup st (r :: rows) = rowHtml p +:+ rowsMarkup st rows.
Proof.
  intros Hp. unfold rowsMarkup. csimpl. rewrite Hp. csimpl.
  destruct (omap (λ r0, rowHtml <$> st !! r0) rows); simpl;
    [by rewrite append_nil_r | done].
Qed.
End RenderFacts.

(** ** Comparisons of numbers *)

Lemma num_ge_Fin (x y : Q) : num_ge (Fin x) (Fin y) = true ↔ (y <= x)%Q.
Proof.
  unfold num_ge, num_lt. rewrite negb_involutive. apply Qle_bool_iff.
Qed.

Lemma num_lt_Fin (x y : Q) : num_lt (Fin x) (Fin y) = true ↔ (x < y)%Q.
Proof.
  unfold num_lt. rewrite negb_true_iff. split.
  - intros Hb. apply Qnot_le_lt. intros Hle.
    apply Qle_bool_iff in Hle. congruence.
  - intros Hlt. destruct (Qle_bool y x) eqn:Hb; [|done].
    apply Qle_bool_iff in Hb. exfalso. by apply (Qlt_not_le x y).
Qed.

Lemma num_ge_NaN (b : JsNumber) : num_ge NaN b = false.
Proof. reflexivity. Qed.

Section TableFacts.
Context `{JsRuntime}.

Lemma highBmi_spec p : highBmi p = num_ge (Number (bmi p)) (num_of_nat 30).
Proof. unfold highBmi. by destruct (Number (bmi p)). Qed.

Lemma lowFeedback_spec p :
  lowFeedback p =
    negb (isNullish (feedback p)) && num_lt (Number (feedback p)) (num_of_nat 3).
Proof. unfold lowFeedback, fbOf. by destruct (feedback p). Qed.

Lemma escapeHtml_JStr s : escapeHtml (JStr s) = escapeString s.
Proof. reflexivity. Qed.

Lemma list_insert_as_alter (f : PatientRecord → PatientRecord) (st : Store) r p :
  st !! r = Some p → <[r := f p]> st = alter f r st.
Proof.
  intros Hp. apply list_eq. intros i.
  destruct (decide (i = r)) as [->|Hne].
  - rewrite list_lookup_alter_eq, Hp.
    apply list_lookup_insert_eq. by eapply lookup_lt_Some.
  - by rewrite list_lookup_insert_ne, list_lookup_alter_ne.
Qed.

(** The loop of [renderTable] in closed form. *)
Lemma forEachRow_spec rows html (st : Store) :
  Forall (λ r, r < length st) rows →
  forEachRow rows html st = Some (html +:+ rowsMarkup st rows, settleRows rows st).
Proof.
  revert html st. induction rows as [|r rows IH]; intros html st Hvalid.
  - simpl. unfold rowsMarkup. simpl. by rewrite append_nil_r.
  - apply Forall_cons in Hvalid as [Hr Hrows].
    destruct (lookup_lt_is_Some_2 st r Hr) as [p Hp].
    simpl. rewrite Hp. rewrite IH.
    + rewrite (rowsMarkup_cons st r rows p Hp), append_assoc.
      rewrite (list_insert_as_alter settle st r p Hp).
      f_equal. f_equal. f_equal. f_equal.
      apply rowsMarkup_ext. intros i.
      destruct (decide (i = r)) as [->|Hne].
      * rewrite list_lookup_alter_eq, Hp. simpl. by rewrite rowHtml_settle.
      * by rewrite list_lookup_alter_ne.
    + by rewrite length_insert.
Qed.

(** [renderTable] in closed form, for rows that refer to records. *)
Lemma renderTable_spec rows (st : Store) :
  Forall (λ r, r < length st) rows →
  renderTable rows st =
    Some (if Nat.eqb (length rows) 0
          then tpl "<p style=~color:#555;~>No data to display.</p>"
          else (tableHead +:+ rowsMarkup st rows) +:+ "</tbody></table>",
          settleRows rows st).
Proof.
  intros Hvalid. unfold renderTable.
  destruct rows as [|r rows]; [reflexivity|].
  by rewrite forEachRow_spec.
Qed.
End TableFacts.

(** A rendering that completes was given rows that refer to records. *)
Lemma forEachRow_Some_valid `{JsRuntime} rows html (st : Store) out :
  forEachRow rows html st = Some out → Forall (λ r, r < length st) rows.
Proof.
  revert html st. induction rows as [|r rows IH]; intros html st Hrun; [constructor|].
  simpl in Hrun. destruct (st !! r) as [p|] eqn:Hp; [|discriminate].
  constructor; [by apply lookup_lt_Some in Hp|].
  apply IH in Hrun. by rewrite length_insert in Hrun.
Qed.

Lemma renderTable_Some_valid `{JsRuntime} rows (st : Store) out :
  renderTable rows st = Some out → Forall (λ r, r < length st) rows.
Proof.
  unfold renderTable. destruct rows as [|r rows]; [constructor|].
  cbn [length Nat.eqb].
  destruct (forEachRow (r :: rows) tableHead st) as [[html st']|] eqn:Hrun; [|discriminate].
  intros _. by eapply forEachRow_Some_valid.
Qed.

(** Rows that refer to records without objects refer to records. *)
Lemma rowsConvert_valid (st : Store) rows :
  rowsConvert st rows = true → Forall (λ r, r < length st) rows.
Proof.
  unfold rowsConvert. rewrite forallb_forall, Forall_forall.
  intros Hall r Hr. specialize (Hall r (proj1 (list_elem_of_In _ _) Hr)).
  destruct (st !! r) as [p|] eqn:Hp; [|discriminate].
  by apply lookup_lt_Some in Hp.
Qed.

Lemma rowsConvert_sublist (st : Store) rows :
  storeConverts st = true → Forall (λ r, r < length st) rows → rowsConvert st rows = true.
Proof.
  unfold storeConverts, rowsConvert. rewrite !forallb_forall, Forall_forall.
  intros Hst Hvalid r Hr. apply list_elem_of_In in Hr.
  destruct (lookup_lt_is_Some_2 st r (Hvalid r Hr)) as [p Hp]. rewrite Hp.
  apply Hst. apply list_elem_of_In. by eapply list_elem_of_lookup_2.
Qed.

(** ** The risk cell *)

(** The array that the risk cell joins: the risks of the record when it
    carries some, else the labels synthesized from its BMI and feedback. *)
Lemma shownRisks_cases `{JsRuntime} (p : PatientRecord) :
  (explicitRisks p = [] →
     shownRisks p =
       ((if num_ge (Number (bmi p)) (num_of_nat 30) then [JStr HIGH_BMI] else []) ++
        (if negb (isNullish (feedback p)) && num_lt (Number (feedback p)) (num_of_nat 3)
         then [JStr LOW_FEEDBACK] else []))%list) ∧
  (explicitRisks p ≠ [] → shownRisks p = explicitRisks p).
Proof.
  unfold shownRisks, explicitRisks. rewrite shown_cases. split.
  - intros He. rewrite pushSynthesized_nil, highBmi_spec, lowFeedback_spec.
    destruct (risks p) as [| | | | |[|x rs]|]; try reflexivity. discriminate.
  - intros He. destruct (risks p) as [| | | | |[|x rs]|]; done.
Qed.

(** The row template is its front, its risk cell and its back. *)
Lemma rowHtml_cells `{JsRuntime} (p : PatientRecord) :
  rowHtml p = rowFront p +:+ riskCell p +:+ rowBack p.
Proof. unfold rowHtml, rowFront, rowBack. by rewrite !append_assoc. Qed.

(** C5: the risk cell of every rendered record.  Whenever [renderTable]
    completes, which it does for rows that refer to records in which no
    object occurs, the table is its head followed by one row per record,
    whose risk cell shows the entries of the record joined by a bar, or None
    when there is none.  On a record that carries no risks of its own (no
    [risks] array, or an empty one) the entries are the label of a high BMI
    exactly when BMI >= 30 and the label of a low feedback exactly when
    feedback is present and < 3; on a record that carries risks, the entries
    are those and nothing is synthesized.  The two labels are the ones of the
    code, each with its warning sign in front. *)
Theorem risk_cell_synthesis `{JsRuntime} (rows : list nat) (st : Store) :
  (rowsConvert st rows = true → ∃ html st', renderTable rows st = Some (html, st')) ∧
  (∀ html st', renderTable rows st = Some (html, st') →
     ∃ rowsHtml,
       (rows ≠ [] → html = tableHead +:+ join "" rowsHtml +:+ "</tbody></table>") ∧
       Forall2
         (λ r row, ∃ p entries,
            st !! r = Some p ∧
            row = rowFront p +:+
                  ("<td>" +:+
                   escapeHtml (JStr (if Nat.eqb (length entries) 0 then "None"
                                     else Array_join " | " entries)) +:+
                   "</td>") +:+
                  rowBack p ∧
            (explicitRisks p = [] →
               entries =
                 ((if num_ge (Number (bmi p)) (num_of_nat 30)
                   then [JStr "⚠️ High BMI"] else []) ++
                  (if negb (isNullish (feedback p)) &&
                      num_lt (Number (feedback p)) (num_of_nat 3)
                   then [JStr "⚠️ Low Feedback"] else []))%list) ∧
            (explicitRisks p ≠ [] → entries = explicitRisks p))
         rows rowsHtml).
Proof.
  split.
  { intros Hvalid%rowsConvert_valid. eexists _, _. by apply renderTable_spec. }
  intros html st' Hrun.
  pose proof (renderTable_Some_valid _ _ _ Hrun) as Hvalid.
  rewrite (renderTable_spec _ _ Hvalid) in Hrun. injection Hrun as <- _.
  exists (omap (λ r, rowHtml <$> st !! r) rows). split.
  - intros Hrows. destruct rows as [|r rows]; [done|].
    cbn [length Nat.eqb]. by rewrite append_assoc.
  - clear -Hvalid. induction Hvalid as [|r rows Hr Hvalid IH]; [constructor|].
    destruct (lookup_lt_is_Some_2 st r Hr) as [p Hp].
    cbn [omap list_omap]. rewrite Hp. cbn [fmap option_fmap option_map].
    constructor; [|exact IH].
    exists p, (shownRisks p). split; [exact Hp|]. split.
    + by rewrite rowHtml_cells.
    + apply shownRisks_cases.
Qed.

Lemma risk_cell_synthesis_witness :
  rowsConvert examplePatients [0; 2] = true ∧
  ∃ html st' rowsHtml,
    renderTable [0; 2] examplePatients = Some (html, st') ∧
    html = tableHead +:+ join "" rowsHtml +:+ "</tbody></table>" ∧
    length rowsHtml = 2.
Proof.
  split; [reflexivity|].
  destruct (proj1 (risk_cell_synthesis [0; 2] examplePatients) eq_refl)
    as (html & st' & Hrun).
  destruct (proj2 (risk_cell_synthesis [0; 2] examplePatients) html st' Hrun)
    as (rowsHtml & Hhtml & Hrows).
  exists html, st', rowsHtml. split; [exact Hrun|]. split; [by apply Hhtml|].
  by rewrite <- (Forall2_length _ _ _ Hrows).
Defined.

(** The labels carry their warning sign.  A record with a BMI of 31, a
    feedback of 4.5 and no risks of its own is rendered with a risk cell that
    is not the cell of the bare label High BMI, and the bare label is not
    among its entries. *)
Lemma risk_label_carries_sign :
  explicitRisks patientDee = [] ∧
  num_ge (Number (bmi patientDee)) (num_of_nat 30) = true ∧
  shownRisks patientDee = [JStr "⚠️ High BMI"] ∧
  ¬ JStr "High BMI" ∈ shownRisks patientDee ∧
  riskCell patientDee = "<td>⚠️ High BMI</td>" ∧
  riskCell patientDee ≠ "<td>High BMI</td>" ∧
  renderTable [0] [patientDee] =
    Some (tableHead +:+
          (rowFront patientDee +:+ "<td>⚠️ High BMI</td>" +:+ rowBack patientDee) +:+
          "</tbody></table>", [patientDee]).
Proof.
  split; [reflexivity|]. split; [reflexivity|]. split; [reflexivity|].
  split; [by intros [=]%list_elem_of_singleton|].
  split; [reflexivity|]. split; [discriminate|].
  vm_compute. reflexivity.
Qed.

(** ** [renderTable] on the store *)

(** C7: rendering the same rows twice in succession gives the same markup
    both times, also when the first call synthesizes risks: the second call
    starts from the store the first one left and leaves it as it is. *)
Theorem renderTable_idempotent `{JsRuntime} (rows : list nat) (st : Store) :
  Forall (λ r, r < length st) rows →
  ∃ html st',
    renderTable rows st = Some (html, st') ∧
    renderTable rows st' = Some (html, st').
Proof.
  intros Hvalid.
  eexists _, _. split; [by apply renderTable_spec|].
  rewrite renderTable_spec.
  - rewrite settleRows_idem.
    rewrite (rowsMarkup_ext (settleRows rows st) st rows); [done|].
    intros i. apply rowHtml_settleRows.
  - eapply Forall_impl; [exact Hvalid|].
    intros r Hr. simpl. by rewrite settleRows_length.
Qed.

Lemma renderTable_idempotent_witness :
  Forall (λ r, r < length examplePatients) [0; 2; 0; 1] ∧
  ∃ html st',
    renderTable [0; 2; 0; 1] examplePatients = Some (html, st') ∧
    renderTable [0; 2; 0; 1] st' = Some (html, st').
Proof.
  assert (Hvalid : Forall (λ r, r < length examplePatients) [0; 2; 0; 1])
    by (repeat constructor; simpl; lia).
  split; [exact Hvalid | exact (renderTable_idempotent _ _ Hvalid)].
Defined.

(** ** The rows kept by the filters *)

Section FilterFacts.
Context `{JsRuntime}.

Lemma elem_of_filterRows f (st : Store) rows r p :
  st !! r = Some p →
  r ∈ filterRows f st rows ↔ f p = true ∧ r ∈ rows.
Proof.
  intros Hp. unfold filterRows. rewrite list_elem_of_filter.
  unfold keeps. by rewrite Hp.
Qed.

Lemma elem_of_filter_step (c : bool) f (st : Store) rows r p :
  st !! r = Some p →
  r ∈ (if c then filterRows f st rows else rows) ↔ (c = true → f p = true) ∧ r ∈ rows.
Proof.
  intros Hp. destruct c.
  - rewrite (elem_of_filterRows f st rows r p Hp). tauto.
  - split; [intros Hr; split; [discriminate | exact Hr] | tauto].
Qed.

Lemma filter_step_sublist (c : bool) f (st : Store) rows :
  sublist (if c then filterRows f st rows else rows) rows.
Proof. destruct c; [apply sublist_filter | done]. Qed.

Lemma selectRows_sublist bf ff (st : Store) :
  sublist (selectRows bf ff st) (seq 0 (length st)).
Proof.
  unfold selectRows.
  repeat (etrans; [apply filter_step_sublist|]). done.
Qed.

Lemma selectRows_valid bf ff (st : Store) :
  Forall (λ r, r < length st) (selectRows bf ff st).
Proof.
  apply Forall_forall. intros r Hr.
  eapply elem_of_sublist in Hr; [|apply selectRows_sublist].
  apply elem_of_seq in Hr. lia.
Qed.
End FilterFacts.

(** The rows kept by the two filters, by the bands of the record. *)
Lemma elem_of_selectRows `{JsRuntime} bf ff (st : Store) r p :
  st !! r = Some p →
  r ∈ selectRows bf ff st ↔
    (bf = "low" → num_lt (Number (bmi p)) (num_of_nat 25) = true) ∧
    (bf = "medium" →
       num_ge (Number (bmi p)) (num_of_nat 25) = true ∧
       num_lt (Number (bmi p)) (num_of_nat 30) = true) ∧
    (bf = "high" → num_ge (Number (bmi p)) (num_of_nat 30) = true) ∧
    (ff = "low" →
       isNullish (feedback p) = false ∧
       num_lt (Number (feedback p)) (num_of_nat 3) = true) ∧
    (ff = "high" →
       isNullish (feedback p) = false ∧
       num_ge (Number (feedback p)) (num_of_nat 4) = true).
Proof.
  intros Hp. unfold selectRows.
  rewrite !(elem_of_filter_step _ _ st _ r p Hp).
  rewrite elem_of_seq, !String.eqb_eq, !andb_true_iff, !negb_true_iff.
  apply lookup_lt_Some in Hp. intuition lia.
Qed.

(** ** What rendering does to the records *)

Section MutationFacts.
Context `{JsRuntime}.

Lemma settle_empty_risks p :
  risks p = JArray [] →
  settle p =
    set_risks p
      (JArray ((if num_ge (Number (bmi p)) (num_of_nat 30)
                then [JStr HIGH_BMI] else []) ++
               (if negb (isNullish (feedback p)) &&
                   num_lt (Number (feedback p)) (num_of_nat 3)
                then [JStr LOW_FEEDBACK] else []))).
Proof.
  intros Hr. rewrite settle_cases, Hr, pushSynthesized_nil.
  by rewrite highBmi_spec, lowFeedback_spec.
Qed.

Lemma settle_other_risks p : risks p ≠ JArray [] → settle p = p.
Proof.
  intros Hr. rewrite settle_cases.
  destruct (risks p) as [| | | | |[|x rs]|]; done.
Qed.

Lemma set_risks_changes p rs : risks p = JArray [] → rs ≠ [] → set_risks p (JArray rs) ≠ p.
Proof.
  intros Hr Hrs Heq. apply (f_equal risks) in Heq. simpl in Heq.
  rewrite Hr in Heq. by injection Heq.
Qed.

Lemma drawCharts_frame rows pg :
  allPatients (drawCharts rows pg) = allPatients pg ∧
  patientsTable (drawCharts rows pg) = patientsTable pg ∧
  bmiFilter (drawCharts rows pg) = bmiFilter pg ∧
  feedbackFilter (drawCharts rows pg) = feedbackFilter pg.
Proof.
  unfold drawCharts.
  destruct (negb (bmiCanvas pg) || negb (fbCanvas pg)); [done|].
  destruct (Nat.eqb (length rows) 0); done.
Qed.

(** [applyFilters] never throws: it renders the rows it selected from the
    whole of [allPatients], which leaves the store as the loop body leaves
    those rows. *)
Lemma applyFilters_spec pg :
  ∃ pg',
    applyFilters pg = Some pg' ∧
    renderTable (selectRows (bmiFilter pg) (feedbackFilter pg) (allPatients pg))
      (allPatients pg) = Some (patientsTable pg', allPatients pg') ∧
    allPatients pg' =
      settleRows (selectRows (bmiFilter pg) (feedbackFilter pg) (allPatients pg))
        (allPatients pg).
Proof.
  unfold applyFilters. cbn [clearStatus set_status bmiFilter feedbackFilter allPatients].
  rewrite (renderTable_spec _ _ (selectRows_valid _ _ _)).
  eexists. split; [reflexivity|].
  match goal with |- context [drawCharts ?rows ?pg0] =>
    destruct (drawCharts_frame rows pg0) as (Ha & Ht & _ & _);
    generalize dependent (drawCharts rows pg0)
  end.
  intros pg1 Ha Ht. cbn in Ha, Ht.
  destruct (Nat.eqb _ 0); cbn; rewrite Ha, Ht; done.
Qed.
End MutationFacts.

(** ** The filters *)

(** C4: [applyFilters] shows the records inside the selected bands.
    Whenever it completes, which it does on records in which no object
    occurs, the table it puts on the page is the rendering of the rows
    [shown], which are, in the order of [allPatients] and without repetition,
    exactly the records inside the bands that the two controls select: BMI low
    is bmi < 25, medium is 25 <= bmi < 30, high is bmi >= 30; feedback low is
    a non-null feedback < 3, high is a non-null feedback >= 4; any other
    value of a control, medium feedback included, leaves every record in. *)
Theorem applyFilters_bands `{JsRuntime} (pg : Page) :
  (storeConverts (allPatients pg) = true → ∃ pg', applyFilters pg = Some pg') ∧
  (∀ pg', applyFilters pg = Some pg' →
     ∃ shown,
       renderTable shown (allPatients pg) = Some (patientsTable pg', allPatients pg') ∧
       sublist shown (seq 0 (length (allPatients pg))) ∧
       ∀ r p, allPatients pg !! r = Some p →
         (r ∈ shown ↔
            (bmiFilter pg = "low" → num_lt (Number (bmi p)) (num_of_nat 25) = true) ∧
            (bmiFilter pg = "medium" →
               num_ge (Number (bmi p)) (num_of_nat 25) = true ∧
               num_lt (Number (bmi p)) (num_of_nat 30) = true) ∧
            (bmiFilter pg = "high" → num_ge (Number (bmi p)) (num_of_nat 30) = true) ∧
            (feedbackFilter pg = "low" →
               isNullish (feedback p) = false ∧
               num_lt (Number (feedback p)) (num_of_nat 3) = true) ∧
            (feedbackFilter pg = "high" →
               isNullish (feedback p) = false ∧
               num_ge (Number (feedback p)) (num_of_nat 4) = true))).
Proof.
  destruct (applyFilters_spec pg) as (pg1 & Hrun & Htable & _).
  split; [intros _; by exists pg1|].
  intros pg' Hrun'. rewrite Hrun in Hrun'. injection Hrun' as <-.
  exists (selectRows (bmiFilter pg) (feedbackFilter pg) (allPatients pg)).
  split; [exact Htable|]. split; [apply selectRows_sublist|].
  intros r p Hp. by apply elem_of_selectRows.
Qed.

Lemma applyFilters_bands_witness :
  storeConverts (allPatients (set_filters examplePage "high" "low")) = true ∧
  ∃ pg' shown,
    applyFilters (set_filters examplePage "high" "low") = Some pg' ∧
    renderTable shown examplePatients = Some (patientsTable pg', allPatients pg') ∧
    0 ∈ shown ∧ ¬ 1 ∈ shown.
Proof.
  split; [reflexivity|].
  destruct (proj1 (applyFilters_bands (set_filters examplePage "high" "low")) eq_refl)
    as (pg' & Hrun).
  destruct (proj2 (applyFilters_bands (set_filters examplePage "high" "low")) pg' Hrun)
    as (shown & Htable & _ & Hmem).
  exists pg', shown. split; [exact Hrun|]. split; [exact Htable|]. split.
  - apply (Hmem 0 patientAda eq_refl). cbn [bmiFilter feedbackFilter set_filters].
    repeat split; first [discriminate | reflexivity | intros _; split; reflexivity].
  - intros Hin. apply (Hmem 1 patientBob eq_refl) in Hin as (_ & _ & Hhigh & _).
    specialize (Hhigh eq_refl). discriminate Hhigh.
Defined.

(** C10: [renderTable] writes into the records it is given.  A record among
    the rows whose [risks] is an empty array gets the synthesized labels pushed
    into that array, in the store the caller keeps, and so is changed as soon
    as BMI >= 30 or feedback < 3; a record whose [risks] is absent, not an
    array or not empty, and a record that is not among the rows, stay as they
    are. *)
Theorem renderTable_mutates_input `{JsRuntime} (rows : list nat) (st : Store) :
  Forall (λ r, r < length st) rows →
  ∃ html st',
    renderTable rows st = Some (html, st') ∧
    length st' = length st ∧
    ∀ i p, st !! i = Some p →
      let hi := num_ge (Number (bmi p)) (num_of_nat 30) in
      let lo := negb (isNullish (feedback p)) &&
                num_lt (Number (feedback p)) (num_of_nat 3) in
      let pushed := ((if hi then [JStr HIGH_BMI] else []) ++
                     (if lo then [JStr LOW_FEEDBACK] else []))%list in
      (i ∈ rows → risks p = JArray [] →
         st' !! i = Some (set_risks p (JArray pushed)) ∧
         (hi || lo = true → st' !! i ≠ Some p)) ∧
      (i ∈ rows → risks p ≠ JArray [] → st' !! i = Some p) ∧
      (i ∉ rows → st' !! i = Some p).
Proof.
  intros Hvalid. eexists _, _. split; [by apply renderTable_spec|].
  split; [apply settleRows_length|].
  intros i p Hp hi lo pushed. rewrite settleRows_lookup, Hp.
  split; [|split].
  - intros Hin Hr. rewrite decide_True by done. simpl.
    rewrite (settle_empty_risks p Hr). fold hi lo pushed.
    split; [done|]. intros Hsome Heq. injection Heq as Heq.
    apply (set_risks_changes p pushed Hr); [|done].
    subst pushed. by destruct hi, lo.
  - intros Hin Hr. rewrite decide_True by done. simpl.
    by rewrite settle_other_risks.
  - intros Hnin. by rewrite decide_False by done.
Qed.

Lemma renderTable_mutates_input_witness :
  Forall (λ r, r < length examplePatients) [0; 2] ∧
  ∃ html st',
    renderTable [0; 2] examplePatients = Some (html, st') ∧
    length st' = length examplePatients ∧
    ∀ i p, examplePatients !! i = Some p →
      let hi := num_ge (Number (bmi p)) (num_of_nat 30) in
      let lo := negb (isNullish (feedback p)) &&
                num_lt (Number (feedback p)) (num_of_nat 3) in
      let pushed := ((if hi then [JStr HIGH_BMI] else []) ++
                     (if lo then [JStr LOW_FEEDBACK] else []))%list in
      (i ∈ [0; 2] → risks p = JArray [] →
         st' !! i = Some (set_risks p (JArray pushed)) ∧
         (hi || lo = true → st' !! i ≠ Some p)) ∧
      (i ∈ [0; 2] → risks p ≠ JArray [] → st' !! i = Some p) ∧
      (i ∉ [0; 2] → st' !! i = Some p).
Proof.
  assert (Hvalid : Forall (λ r, r < length examplePatients) [0; 2])
    by (repeat constructor; simpl; lia).
  split; [exact Hvalid | exact (renderTable_mutates_input _ _ Hvalid)].
Defined.

(** The same through [applyFilters]: the records of [allPatients] that the
    filters keep are the ones written into. *)
Lemma applyFilters_mutates_allPatients `{JsRuntime} (pg : Page) (i : nat) (p : PatientRecord) :
  allPatients pg !! i = Some p →
  i ∈ selectRows (bmiFilter pg) (feedbackFilter pg) (allPatients pg) →
  ∃ pg', applyFilters pg = Some pg' ∧ allPatients pg' !! i = Some (settle p).
Proof.
  intros Hp Hin. destruct (applyFilters_spec pg) as (pg' & Happly & _ & Hst).
  exists pg'. split; [done|].
  rewrite Hst, settleRows_lookup, Hp. by rewrite decide_True by done.
Qed.

Example applyFilters_writes_into_allPatients :
  ∀ pg, allPatients pg = examplePatients → bmiFilter pg = "high" → feedbackFilter pg = "all" →
  ∃ pg', applyFilters pg = Some pg' ∧
    risks <$> allPatients pg' !! 0 = Some (JArray [JStr HIGH_BMI; JStr LOW_FEEDBACK]).
Proof.
  intros pg Hst Hb Hf.
  destruct (applyFilters_mutates_allPatients pg 0 patientAda) as (pg' & Happly & Hl).
  - by rewrite Hst.
  - rewrite Hst, Hb, Hf.
    assert (Hrows : selectRows "high" "all" examplePatients = [0])
      by (vm_compute; reflexivity).
    rewrite Hrows. by left.
  - exists pg'. split; [done|]. by rewrite Hl.
Qed.

(** ** The full record set across filter applications *)

Section RetainedFacts.
Context `{JsRuntime}.

Lemma sameOrSettled_refl (st : Store) : sameOrSettled st st.
Proof. intros i. by left. Qed.

Lemma sameOrSettled_length (st st1 : Store) :
  sameOrSettled st st1 → length st1 = length st.
Proof.
  intros Hrel.
  assert (Hle : length st1 ≤ length st).
  { apply lookup_ge_None. destruct (Hrel (length st)) as [Hi|Hi];
      rewrite Hi, (lookup_ge_None_2 st (length st)) by lia; done. }
  assert (Hge : length st ≤ length st1).
  { destruct (decide (length st ≤ length st1)) as [|Hlt]; [done|].
    destruct (lookup_lt_is_Some_2 st (length st1)) as [p Hp]; [lia|].
    pose proof (lookup_ge_None_2 st1 (length st1) (le_n _)) as Hnone.
    destruct (Hrel (length st1)) as [Hi|Hi];
      rewrite Hi, Hp in Hnone; discriminate. }
  lia.
Qed.

Lemma sameOrSettled_settleRows (st st1 : Store) rows :
  sameOrSettled st st1 → sameOrSettled st (settleRows rows st1).
Proof.
  intros Hrel i. rewrite settleRows_lookup.
  destruct (Hrel i) as [Hi|Hi]; rewrite Hi;
    destruct (st !! i) as [p|]; simpl; try (by left);
    destruct (decide (i ∈ rows)); simpl; rewrite ?settle_idem; auto.
Qed.

(** The filters read [bmi] and [feedback] only, which the loop body of
    [renderTable] leaves alone. *)
Lemma keeps_sameOrSettled (f : PatientRecord → bool) (st st1 : Store) r :
  (∀ p, f (settle p) = f p) →
  sameOrSettled st st1 → keeps f st1 r = keeps f st r.
Proof.
  intros Hf Hrel. unfold keeps.
  destruct (Hrel r) as [Hi|Hi]; rewrite Hi; [done|].
  destruct (st !! r) as [p|]; simpl; [apply Hf | done].
Qed.

Lemma filterRows_sameOrSettled (f : PatientRecord → bool) (st st1 : Store) rows :
  (∀ p, f (settle p) = f p) →
  sameOrSettled st st1 → filterRows f st1 rows = filterRows f st rows.
Proof.
  intros Hf Hrel. unfold filterRows. apply list_filter_iff. intros r.
  by rewrite (keeps_sameOrSettled f st st1 r Hf Hrel).
Qed.

Lemma selectRows_sameOrSettled bf ff (st st1 : Store) :
  sameOrSettled st st1 → selectRows bf ff st1 = selectRows bf ff st.
Proof.
  intros Hrel. unfold selectRows.
  rewrite (sameOrSettled_length st st1 Hrel).
  rewrite !(filterRows_sameOrSettled _ st st1 _) by
    (done || (intros p; destruct (settle_fields p) as (_ & Hb & _ & _ & _ & Hf & _);
              by rewrite ?Hb, ?Hf)).
  reflexivity.
Qed.

Lemma selectRows_all (st : Store) : selectRows "all" "all" st = seq 0 (length st).
Proof. reflexivity. Qed.

Lemma settleRows_all_sameOrSettled (st st1 : Store) :
  sameOrSettled st st1 →
  settleRows (seq 0 (length st)) st1 = settleRows (seq 0 (length st)) st.
Proof.
  intros Hrel. apply list_eq. intros i. rewrite !settleRows_lookup.
  destruct (st !! i) as [p|] eqn:Hp.
  - rewrite decide_True by (apply elem_of_seq; apply lookup_lt_Some in Hp; lia).
    destruct (Hrel i) as [Hi|Hi]; rewrite Hi, Hp; simpl; by rewrite ?settle_idem.
  - destruct (Hrel i) as [Hi|Hi]; rewrite Hi, Hp; done.
Qed.

Lemma rowsMarkup_sameOrSettled (st st1 : Store) rows :
  sameOrSettled st st1 → rowsMarkup st1 rows = rowsMarkup st rows.
Proof.
  intros Hrel. apply rowsMarkup_ext. intros i.
  destruct (Hrel i) as [Hi|Hi]; rewrite Hi; [done|].
  destruct (st !! i) as [p|]; simpl; by rewrite ?rowHtml_settle.
Qed.

Lemma selectAndApply_sameOrSettled (st : Store) sel pg :
  sameOrSettled st (allPatients pg) →
  ∃ pg', selectAndApply sel pg = Some pg' ∧ sameOrSettled st (allPatients pg').
Proof.
  intros Hrel. unfold selectAndApply.
  destruct (applyFilters_spec (set_filters pg sel.1 sel.2)) as (pg' & Happly & _ & Hst).
  exists pg'. split; [done|]. rewrite Hst. by apply sameOrSettled_settleRows.
Qed.

Lemma applySequence_sameOrSettled (st : Store) sels pg :
  sameOrSettled st (allPatients pg) →
  ∃ pg', applySequence sels pg = Some pg' ∧ sameOrSettled st (allPatients pg').
Proof.
  revert pg. induction sels as [|sel sels IH]; intros pg Hrel.
  - by exists pg.
  - destruct (selectAndApply_sameOrSettled st sel pg Hrel) as (pg1 & Hstep & Hrel1).
    destruct (IH pg1 Hrel1) as (pg2 & Hrest & Hrel2).
    exists pg2. split; [|done]. simpl. by rewrite Hstep.
Qed.
End RetainedFacts.

(** C8: [allPatients] is kept apart from the filtered view.  After any
    sequence of filter applications the array has its length and its records
    (each as it was, or as the rendering loop leaves it), every filter
    selects the same rows as it does on the original records, and selecting
    all/all shows every record: the table and the store are the ones that
    rendering the original full set gives. *)
Theorem allPatients_retained `{JsRuntime} (sels : list (string * string)) (pg : Page) :
  ∃ pg1 pg2,
    applySequence sels pg = Some pg1 ∧
    selectAndApply ("all", "all") pg1 = Some pg2 ∧
    length (allPatients pg1) = length (allPatients pg) ∧
    (∀ i p, allPatients pg !! i = Some p →
       allPatients pg1 !! i = Some p ∨ allPatients pg1 !! i = Some (settle p)) ∧
    (∀ bf ff, selectRows bf ff (allPatients pg1) = selectRows bf ff (allPatients pg)) ∧
    selectRows "all" "all" (allPatients pg1) = seq 0 (length (allPatients pg)) ∧
    renderTable (seq 0 (length (allPatients pg))) (allPatients pg) =
      Some (patientsTable pg2, allPatients pg2).
Proof.
  destruct (applySequence_sameOrSettled (allPatients pg) sels pg) as (pg1 & Hseq & Hrel);
    [apply sameOrSettled_refl|].
  pose proof (sameOrSettled_length _ _ Hrel) as Hlen.
  unfold selectAndApply.
  destruct (applyFilters_spec (set_filters pg1 "all" "all")) as (pg2 & Happly & Hrender & Hst).
  cbn [fst snd]. exists pg1, pg2.
  split; [done|]. split; [done|]. split; [done|]. split; [|split; [|split]].
  - intros i p Hp. destruct (Hrel i) as [Hi|Hi]; rewrite Hi, Hp; auto.
  - intros bf ff. by apply selectRows_sameOrSettled.
  - by rewrite selectRows_all, Hlen.
  - cbn [set_filters bmiFilter feedbackFilter allPatients] in Hrender.
    rewrite selectRows_all, Hlen in Hrender.
    rewrite renderTable_spec in Hrender
      by (apply Forall_forall; intros r Hr; apply elem_of_seq in Hr; lia).
    rewrite renderTable_spec
      by (apply Forall_forall; intros r Hr; apply elem_of_seq in Hr; lia).
    rewrite <- Hrender.
    rewrite (rowsMarkup_sameOrSettled _ _ _ Hrel).
    by rewrite (settleRows_all_sameOrSettled _ _ Hrel).
Qed.

(** ** Chart instances *)

Section ChartFacts.
Implicit Types (w : ChartWorld) (t : string → option nat).

Lemma liveOn_destroy_le canvas id w : liveOn canvas (destroy id w) ≤ liveOn canvas w.
Proof.
  unfold liveOn, destroy. simpl. apply sublist_length.
  induction (live w) as [|x l IH]; [done|].
  rewrite (filter_cons (λ x, x.1 ≠ id)).
  destruct (decide (x.1 ≠ id)).
  - rewrite !filter_cons. destruct (decide (chartCanvas x.2 = canvas)).
    + by apply sublist_skip.
    + done.
  - rewrite (filter_cons _ x l). destruct (decide (chartCanvas x.2 = canvas)).
    + by apply sublist_cons.
    + done.
Qed.

Lemma liveOn_destroyIfSet_le canvas inst w :
  liveOn canvas (destroyIfSet inst w) ≤ liveOn canvas w.
Proof. destruct inst; [apply liveOn_destroy_le | done]. Qed.

Lemma chartsTracked_destroyIfSet inst w t :
  chartsTracked w t → chartsTracked (destroyIfSet inst w) t.
Proof.
  intros [Htr Hone]. split.
  - intros id cfg Hin. apply Htr. destruct inst as [id0|]; [|done].
    simpl in Hin. by apply list_elem_of_filter in Hin as [_ Hin].
  - intros canvas. etrans; [apply liveOn_destroyIfSet_le | apply Hone].
Qed.

(** After [if (instance) instance.destroy()] on the instance kept for a
    canvas, nothing is bound to that canvas. *)
Lemma liveOn_after_destroy canvas w t :
  chartsTracked w t → liveOn canvas (destroyIfSet (t canvas) w) = 0.
Proof.
  intros [Htr _]. unfold liveOn.
  rewrite (elem_of_nil_inv (filter _ (live (destroyIfSet (t canvas) w)))); [done|].
  intros [id cfg] Hin. apply list_elem_of_filter in Hin as [Hc Hin]. simpl in Hc.
  destruct (t canvas) as [id0|] eqn:Ht; simpl in Hin.
  - apply list_elem_of_filter in Hin as [Hne Hin]. simpl in Hne.
    apply Htr in Hin. rewrite Hc, Ht in Hin. congruence.
  - apply Htr in Hin. rewrite Hc, Ht in Hin. discriminate.
Qed.

Lemma liveOn_newChart canvas cfg w :
  liveOn canvas (newChart cfg w).2 =
    liveOn canvas w + (if decide (chartCanvas cfg = canvas) then 1 else 0).
Proof.
  unfold liveOn, newChart. simpl.
  rewrite filter_app, length_app. f_equal.
  rewrite filter_cons, filter_nil. simpl. by destruct (decide _).
Qed.

Lemma liveOn_zero_not_elem canvas w id cfg :
  liveOn canvas w = 0 → (id, cfg) ∈ live w → chartCanvas cfg ≠ canvas.
Proof.
  unfold liveOn. intros Hzero Hin Hc.
  apply nil_length_inv in Hzero.
  eapply (filter_nil_not_elem_of _ _ (id, cfg)); [exact Hzero | exact Hc | exact Hin].
Qed.

(** [new Chart] on a canvas to which nothing is bound. *)
Lemma chartsTracked_newChart cfg w t :
  chartsTracked w t → liveOn (chartCanvas cfg) w = 0 →
  chartsTracked (newChart cfg w).2 (track t (chartCanvas cfg) (newChart cfg w).1).
Proof.
  intros [Htr Hone] Hzero. split.
  - intros id cfg' Hin. unfold newChart in Hin. simpl in Hin.
    unfold track. simpl.
    apply elem_of_app in Hin as [Hin|Hin].
    + rewrite decide_False by (by eapply liveOn_zero_not_elem). by apply Htr.
    + apply list_elem_of_singleton in Hin. injection Hin as -> ->.
      by rewrite decide_True.
  - intros canvas. rewrite liveOn_newChart.
    destruct (decide (chartCanvas cfg = canvas)) as [<-|Hne].
    + rewrite Hzero. lia.
    + specialize (Hone canvas). lia.
Qed.

Lemma chartsTracked_ext w t t' :
  (∀ c, t c = t' c) → chartsTracked w t → chartsTracked w t'.
Proof.
  intros Hext [Htr Hone]. split; [|done].
  intros id cfg Hin. rewrite <- Hext. by apply Htr.
Qed.

Lemma chartsTracked_noCharts t : chartsTracked noCharts t.
Proof.
  split.
  - intros id cfg Hin. by apply elem_of_nil in Hin.
  - intros canvas. unfold liveOn. simpl. lia.
Qed.

(** Destroy the instance kept for the canvas, then create one on it. *)
Lemma chartsTracked_redraw cfg w t :
  chartsTracked w t →
  chartsTracked (newChart cfg (destroyIfSet (t (chartCanvas cfg)) w)).2
    (track t (chartCanvas cfg) (newChart cfg (destroyIfSet (t (chartCanvas cfg)) w)).1).
Proof.
  intros Hinv. apply chartsTracked_newChart.
  - by apply chartsTracked_destroyIfSet.
  - by eapply liveOn_after_destroy.
Qed.
End ChartFacts.

Section ChartPages.
Context `{JsRuntime}.

Lemma drawCharts_tracked rows pg :
  chartsTracked (charts pg) (clinicianTrack pg) →
  chartsTracked (charts (drawCharts rows pg)) (clinicianTrack (drawCharts rows pg)).
Proof.
  intros Hinv. unfold drawCharts.
  destruct (negb (bmiCanvas pg) || negb (fbCanvas pg)); [done|].
  set (w1 := destroyIfSet (bmiChartInstance pg) (charts pg)).
  set (w2 := destroyIfSet (feedbackChartInstance pg) w1).
  assert (Hinv1 : chartsTracked w1 (clinicianTrack pg))
    by by apply chartsTracked_destroyIfSet.
  assert (Hinv2 : chartsTracked w2 (clinicianTrack pg))
    by by apply chartsTracked_destroyIfSet.
  destruct (Nat.eqb (length rows) 0); [exact Hinv2|].
  assert (Hb : liveOn "bmiChart" w2 = 0).
  { pose proof (liveOn_after_destroy "bmiChart" _ _ Hinv) as Hz.
    pose proof (liveOn_destroyIfSet_le "bmiChart" (feedbackChartInstance pg) w1) as Hle.
    change (clinicianTrack pg "bmiChart") with (bmiChartInstance pg) in Hz.
    fold w1 in Hz. fold w2 in Hle. lia. }
  assert (Hf : liveOn "feedbackChart" w2 = 0).
  { exact (liveOn_after_destroy "feedbackChart" _ _ Hinv1). }
  match goal with |- context [newChart ?cfg w2] => set (cfgB := cfg) end.
  pose proof (chartsTracked_newChart cfgB w2 _ Hinv2 Hb) as Hinv3.
  destruct (newChart cfgB w2) as [b w3] eqn:HnewB.
  match goal with |- context [newChart ?cfg w3] => set (cfgF := cfg) end.
  assert (Hf3 : liveOn "feedbackChart" w3 = 0).
  { replace w3 with (newChart cfgB w2).2 by (by rewrite HnewB).
    rewrite liveOn_newChart, Hf. by rewrite decide_False. }
  pose proof (chartsTracked_newChart cfgF w3 _ Hinv3 Hf3) as Hinv4.
  destruct (newChart cfgF w3) as [f w4] eqn:HnewF.
  cbn [charts set_charts fst snd] in *.
  eapply chartsTracked_ext; [|exact Hinv4].
  intros c. unfold track, clinicianTrack. cbn.
  destruct (decide (c = "feedbackChart")) as [->|]; [done|].
  destruct (decide (c = "bmiChart")); done.
Qed.

Lemma drawCharts_sequence_tracked calls pg :
  chartsTracked (charts pg) (clinicianTrack pg) →
  chartsTracked (charts (foldl (λ pg rows, drawCharts rows pg) pg calls))
    (clinicianTrack (foldl (λ pg rows, drawCharts rows pg) pg calls)).
Proof.
  revert pg. induction calls as [|rows calls IH]; intros pg Hinv; [done|].
  simpl. apply IH. by apply drawCharts_tracked.
Qed.

Lemma loadHistory_tracked data pg :
  chartsTracked (legacyWorld pg) (legacyTrack pg) →
  chartsTracked (legacyWorld (loadHistory data pg)) (legacyTrack (loadHistory data pg)).
Proof.
  intros Hinv. unfold loadHistory.
  destruct (historyTableHtml data) as [html|]; [|done].
  match goal with |- context [newChart ?cfg _] => set (cfg0 := cfg) end.
  pose proof (chartsTracked_redraw cfg0 _ _ Hinv) as Hnew.
  change (legacyTrack pg (chartCanvas cfg0)) with (historyChartInstance pg) in Hnew.
  destruct (newChart cfg0 _) as [c w2]. cbn in *.
  eapply chartsTracked_ext; [|exact Hnew].
  intros c0. unfold track, legacyTrack. cbn. by destruct (decide (c0 = "bmiChart")).
Qed.

Lemma loadHistory_sequence_tracked calls pg :
  chartsTracked (legacyWorld pg) (legacyTrack pg) →
  chartsTracked (legacyWorld (foldl (λ pg data, loadHistory data pg) pg calls))
    (legacyTrack (foldl (λ pg data, loadHistory data pg) pg calls)).
Proof.
  revert pg. induction calls as [|data calls IH]; intros pg Hinv; [done|].
  simpl. apply IH. by apply loadHistory_tracked.
Qed.

Lemma drawChart_tracked id type data label pp :
  chartsTracked (patientWorld pp) (λ c, patientCharts pp !! c) →
  chartsTracked (patientWorld (drawChart id type data label pp))
    (λ c, patientCharts (drawChart id type data label pp) !! c).
Proof.
  intros Hinv. unfold drawChart.
  destruct (drawChartThrows id pp); [exact Hinv|].
  match goal with |- context [newChart ?cfg _] => set (cfg0 := cfg) end.
  pose proof (chartsTracked_redraw cfg0 _ _ Hinv) as Hnew.
  change (chartCanvas cfg0) with id in Hnew.
  destruct (newChart cfg0 _) as [c w2]. cbn in *.
  eapply chartsTracked_ext; [|exact Hnew].
  intros c0. unfold track. cbn. destruct (decide (c0 = id)) as [->|Hne].
  - by rewrite lookup_insert_eq.
  - by rewrite lookup_insert_ne.
Qed.

Lemma drawChart_sequence_tracked (calls : list (string * string * ChartData * string)) pp :
  chartsTracked (patientWorld pp) (λ c, patientCharts pp !! c) →
  chartsTracked
    (patientWorld (foldl (λ pp '(id, type, data, label), drawChart id type data label pp)
                     pp calls))
    (λ c, patientCharts
            (foldl (λ pp '(id, type, data, label), drawChart id type data label pp)
               pp calls) !! c).
Proof.
  revert pp. induction calls as [|[[[id type] data] label] calls IH]; intros pp Hinv; [done|].
  simpl. apply IH. by apply drawChart_tracked.
Qed.
End ChartPages.

(** C9: no canvas ever has two chart instances bound to it.  On a page that
    starts without charts, after any number of successive calls of the
    clinician [drawCharts], of the legacy history callback, or of the patient
    [drawChart], each canvas has at most one instance: every call destroys the
    instance kept for a canvas before it creates one on it. *)
Theorem at_most_one_chart_per_canvas `{JsRuntime} :
  (∀ (pg : Page) (calls : list (list PatientRecord)) (canvas : string),
     charts pg = noCharts →
     liveOn canvas (charts (foldl (λ pg rows, drawCharts rows pg) pg calls)) ≤ 1) ∧
  (∀ (pg : LegacyPage) (calls : list (list HistoryRecord)) (canvas : string),
     legacyWorld pg = noCharts →
     liveOn canvas (legacyWorld (foldl (λ pg data, loadHistory data pg) pg calls)) ≤ 1) ∧
  (∀ (pp : PatientPage) (calls : list (string * string * ChartData * string))
     (canvas : string),
     patientWorld pp = noCharts →
     liveOn canvas
       (patientWorld
          (foldl (λ pp '(id, type, data, label), drawChart id type data label pp) pp calls))
       ≤ 1).
Proof.
  split; [|split].
  - intros pg calls canvas Hw.
    refine (proj2 (drawCharts_sequence_tracked calls pg _) canvas).
    rewrite Hw. apply chartsTracked_noCharts.
  - intros pg calls canvas Hw.
    refine (proj2 (loadHistory_sequence_tracked calls pg _) canvas).
    rewrite Hw. apply chartsTracked_noCharts.
  - intros pp calls canvas Hw.
    refine (proj2 (drawChart_sequence_tracked calls pp _) canvas).
    rewrite Hw. apply chartsTracked_noCharts.
Qed.

Lemma at_most_one_chart_per_canvas_witness :
  charts examplePage = noCharts ∧
  liveOn "bmiChart"
    (charts (foldl (λ pg rows, drawCharts rows pg) examplePage
               [examplePatients; []; examplePatients])) ≤ 1.
Proof.
  split; [reflexivity|].
  exact (proj1 at_most_one_chart_per_canvas examplePage
           [examplePatients; []; examplePatients] "bmiChart" eq_refl).
Defined.

Example drawCharts_twice_leaves_one_each :
  let pg := drawCharts examplePatients (drawCharts examplePatients examplePage) in
  liveOn "bmiChart" (charts pg) = 1 ∧ liveOn "feedbackChart" (charts pg) = 1 ∧
  bmiChartInstance pg = Some 2 ∧ feedbackChartInstance pg = Some 3.
Proof. vm_compute. repeat split. Qed.

(** ** The retry loop *)

Section FetcherFacts.
Context {A : Type} (net : nat → FetchOutcome A) (url : string).

Lemma attempts_app log1 log2 : attempts (log1 ++ log2) = attempts log1 + attempts log2.
Proof. unfold attempts. by rewrite List.filter_app, length_app. Qed.

Lemma retryLoop_step remaining i lastErr log :
  retryLoop net url (S remaining) i lastErr log =
    match attempt net url (attempts log) with
    | inl v => (Returned v, log ++ [EvFetch url])
    | inr err =>
        retryLoop net url remaining (S i) err
          ((log ++ [EvFetch url]) ++ [EvWait (250 * (i + 1))])
    end.
Proof. reflexivity. Qed.

Lemma attempts_round log i :
  attempts ((log ++ [EvFetch url]) ++ [EvWait (250 * (i + 1))]) = S (attempts log).
Proof. rewrite !attempts_app. unfold attempts at 2 3. cbn [List.filter isFetch length]. lia. Qed.

Lemma failedRounds_cons log i n :
  ((log ++ [EvFetch url]) ++ [EvWait (250 * (i + 1))]) ++ failedRounds url (S i) n =
  log ++ failedRounds url i (S n).
Proof. by rewrite <- !app_assoc. Qed.

(** While the attempts fail, the loop goes on: it has issued one request
    and waited once per failed attempt. *)
Lemma retryLoop_failures n remaining i lastErr log :
  attempts log = i →
  (∀ k, i ≤ k < i + n → ∃ e, attempt net url k = inr e) →
  ∃ err,
    retryLoop net url (n + remaining) i lastErr log =
      retryLoop net url remaining (i + n) err (log ++ failedRounds url i n) ∧
    (n = 0 → err = lastErr) ∧
    (∀ e, 0 < n → attempt net url (i + n - 1) = inr e → err = e).
Proof.
  revert i lastErr log. induction n as [|n IH]; intros i lastErr log Hlog Hfail.
  - exists lastErr. rewrite Nat.add_0_r, app_nil_r. split; [done|]. split; [done|lia].
  - destruct (Hfail i) as [e He]; [lia|].
    destruct (IH (S i) e ((log ++ [EvFetch url]) ++ [EvWait (250 * (i + 1))]))
      as (err & Hloop & Hzero & Hlast).
    { by rewrite attempts_round, Hlog. }
    { intros k Hk. apply Hfail. lia. }
    exists err. split; [|split].
    + change (S n + remaining) with (S (n + remaining)).
      rewrite retryLoop_step, Hlog, He, Hloop, failedRounds_cons.
      by replace (S i + n) with (i + S n) by lia.
    + intros Hn. discriminate Hn.
    + intros e' _ He'. destruct n as [|n].
      * rewrite Hzero by done. replace (i + 1 - 1) with i in He' by lia. congruence.
      * apply Hlast; [lia|]. by replace (S i + S n - 1) with (i + S (S n) - 1) by lia.
Qed.

(** The loop ends at the first attempt that succeeds. *)
Lemma retryLoop_success remaining i lastErr log v :
  attempt net url (attempts log) = inl v →
  retryLoop net url (S remaining) i lastErr log = (Returned v, log ++ [EvFetch url]).
Proof. intros Hv. by rewrite retryLoop_step, Hv. Qed.
End FetcherFacts.

(** When every attempt fails the loop throws the error of the last attempt,
    after one request and one wait per attempt, the last wait included. *)
Lemma fetchWithRetry_all_fail {A} (net : nat → FetchOutcome A) (url : string)
    (tries : nat) (e : JsError) :
  0 < tries →
  (∀ k, k < tries → ∃ e', attempt net url k = inr e') →
  attempt net url (tries - 1) = inr e →
  fetchWithRetry net url tries = (Threw e, failedRounds url 0 tries).
Proof.
  intros Hpos Hfail Hlast. unfold fetchWithRetry.
  destruct (retryLoop_failures net url tries 0 0 ErrNull []) as (err & Hloop & _ & Herr).
  - reflexivity.
  - intros k Hk. apply Hfail. lia.
  - rewrite Nat.add_0_r in Hloop. rewrite Hloop. simpl.
    by rewrite (Herr e Hpos Hlast).
Qed.

(** A payload returned by the third attempt, after two failures and the waits
    of 250 ms and 500 ms. *)
Lemma fetchWithRetry_third_attempt {A} (net : nat → FetchOutcome A) (url : string)
    (tries : nat) (e0 e1 : JsError) (v : A) :
  3 ≤ tries →
  attempt net url 0 = inr e0 → attempt net url 1 = inr e1 → attempt net url 2 = inl v →
  fetchWithRetry net url tries =
    (Returned v, [EvFetch url; EvWait 250; EvFetch url; EvWait 500; EvFetch url]).
Proof.
  intros Htries H0 H1 H2. unfold fetchWithRetry.
  destruct tries as [|[|[|tries]]]; try lia.
  rewrite retryLoop_step. change (attempts []) with 0. rewrite H0.
  rewrite retryLoop_step, attempts_round. change (attempts []) with 0. rewrite H1.
  rewrite retryLoop_step, !attempts_round. change (attempts []) with 0. rewrite H2.
  reflexivity.
Qed.

Example fetchWithRetry_upOnThird :
  fetchWithRetry upOnThird "/clinician-data" 3 =
    (Returned examplePatients,
     [EvFetch "/clinician-data"; EvWait 250; EvFetch "/clinician-data"; EvWait 500;
      EvFetch "/clinician-data"]).
Proof. reflexivity. Qed.

(** C2, as the code runs it: with three attempts that all fail, the loop
    issues exactly three requests and throws the error of the third, but it
    has waited three times, 250 ms, 500 ms and then 750 ms after the third
    attempt, before the error propagates. *)
Theorem fetchWithRetry_waits_after_last_attempt {A} (net : nat → FetchOutcome A)
    (url : string) (e : JsError) :
  (∀ k, k < 3 → ∃ e', attempt net url k = inr e') →
  attempt net url 2 = inr e →
  fetchWithRetry net url 3 =
    (Threw e,
     [EvFetch url; EvWait 250; EvFetch url; EvWait 500; EvFetch url; EvWait 750]) ∧
  attempts (snd (fetchWithRetry net url 3)) = 3 ∧
  waits (snd (fetchWithRetry net url 3)) = [250; 500; 750] ∧
  last (snd (fetchWithRetry net url 3)) = Some (EvWait 750).
Proof.
  intros Hfail Hlast.
  rewrite (fetchWithRetry_all_fail net url 3 e); [|lia|done|done].
  repeat split.
Qed.

Lemma fetchWithRetry_waits_after_last_attempt_witness :
  (∀ k, k < 3 → ∃ e', attempt alwaysDown "/clinician-data" k = inr e') ∧
  attempt alwaysDown "/clinician-data" 2 = inr (ErrStatus "/clinician-data" 503) ∧
  fetchWithRetry alwaysDown "/clinician-data" 3 =
    (Threw (ErrStatus "/clinician-data" 503),
     [EvFetch "/clinician-data"; EvWait 250; EvFetch "/clinician-data"; EvWait 500;
      EvFetch "/clinician-data"; EvWait 750]) ∧
  attempts (snd (fetchWithRetry alwaysDown "/clinician-data" 3)) = 3 ∧
  waits (snd (fetchWithRetry alwaysDown "/clinician-data" 3)) = [250; 500; 750] ∧
  last (snd (fetchWithRetry alwaysDown "/clinician-data" 3)) = Some (EvWait 750).
Proof.
  assert (Hfail : ∀ k, k < 3 → ∃ e', attempt alwaysDown "/clinician-data" k = inr e')
    by (intros k _; eexists; reflexivity).
  split; [exact Hfail|]. split; [reflexivity|].
  exact (fetchWithRetry_waits_after_last_attempt alwaysDown "/clinician-data"
           (ErrStatus "/clinician-data" 503) Hfail eq_refl).
Defined.

(** ** Session guards *)

(** The clinician guard returns a boolean: false with a redirect to the
    clinician login page when the role is not the clinician role, true with the
    welcome text set from the name when it is. *)
Lemma requireClinician_contract `{JsRuntime} (data : Identity) (pg : Page) :
  (role data ≠ JStr "clinician" →
     requireClinicianAndSetHeader data pg =
       (JBool false, set_location pg "/clinician_login.html")) ∧
  (role data = JStr "clinician" →
     fst (requireClinicianAndSetHeader data pg) = JBool true ∧
     location (snd (requireClinicianAndSetHeader data pg)) = location pg ∧
     (welcomeText pg ≠ None →
        welcomeText (snd (requireClinicianAndSetHeader data pg)) =
          Some ("Welcome, " +:+ ToString (js_or (idName data) (JStr "Clinician"))))).
Proof.
  unfold requireClinicianAndSetHeader. split.
  - intros Hrole. destruct (role data) as [| | | |s| |]; try reflexivity.
    simpl. destruct (String.eqb_spec s "clinician") as [->|]; [done|reflexivity].
  - intros ->. simpl. repeat split. intros Hw.
    destruct (welcomeText pg); done.
Qed.

(** C3, as the code runs it: the patient guard returns no boolean.  Whatever
    the identity, [mustBePatient] returns [undefined] and stores the user id;
    on a role other than the patient role it sets the redirect to the login
    page and goes on, and its caller [getRecommendation] goes on to post the
    form. The clinician guard, on the same identity, returns false. *)
Theorem mustBePatient_returns_no_boolean :
  fst (mustBePatient clinicianIdentity examplePatientPage) = JUndefined ∧
  patientLocation (snd (mustBePatient clinicianIdentity examplePatientPage)) = "/login.html" ∧
  currentUserId (snd (mustBePatient clinicianIdentity examplePatientPage)) = JNum (Fin 7) ∧
  fst (mustBePatient patientIdentity examplePatientPage) = JUndefined ∧
  (∀ loadUserCharts status,
     requests (getRecommendation loadUserCharts (Response status (Some clinicianIdentity))
                 (NetworkError "offline") examplePatientPage) =
       ["GET /whoami"; "POST /recommend"]) ∧
  fst (requireClinicianAndSetHeader patientIdentity examplePage) = JBool false ∧
  fst (requireClinicianAndSetHeader clinicianIdentity examplePage) = JBool true.
Proof. repeat split. Qed.

(** The same for every identity and page. *)
Lemma mustBePatient_spec `{JsRuntime} (me : Identity) (pp : PatientPage) :
  fst (mustBePatient me pp) = JUndefined ∧
  currentUserId (snd (mustBePatient me pp)) = user_id me ∧
  patientLocation (snd (mustBePatient me pp)) =
    (if strictNeStr (role me) "patient" then "/login.html" else patientLocation pp).
Proof. repeat split. Qed.

(** ** Escaping *)

Lemma wellEscaped_cons c rest :
  wellEscaped (String c rest) =
    (if Ascii.eqb c "&"%char then isEntityStart rest else negb (isMarkupChar c))
    && wellEscaped rest.
Proof. reflexivity. Qed.

Lemma prefix_empty s : String.prefix "" s = true.
Proof. by destruct s. Qed.

Ltac entity_case Hrest :=
  rewrite !append_cons, append_nil_l, !wellEscaped_cons;
  unfold isEntityStart; simpl; rewrite ?prefix_empty; simpl; exact Hrest.

Lemma wellEscaped_escapeChar c rest :
  wellEscaped rest = true → wellEscaped (escapeChar c +:+ rest) = true.
Proof.
  intros Hrest. unfold escapeChar.
  destruct (Ascii.eqb c "&"%char) eqn:E1; [entity_case Hrest|].
  destruct (Ascii.eqb c "<"%char) eqn:E2; [entity_case Hrest|].
  destruct (Ascii.eqb c ">"%char) eqn:E3; [entity_case Hrest|].
  destruct (Ascii.eqb c DQ) eqn:E4; [entity_case Hrest|].
  destruct (Ascii.eqb c "'"%char) eqn:E5; [entity_case Hrest|].
  rewrite append_cons, append_nil_l, wellEscaped_cons.
  unfold isMarkupChar. by rewrite E1, E2, E3, E4, E5.
Qed.

(** What [escapeHtml] returns is well escaped, whatever the text. *)
Lemma escapeString_wellEscaped s : wellEscaped (escapeString s) = true.
Proof.
  induction s as [|c s IH]; [reflexivity|].
  change (escapeString (String c s)) with (escapeChar c +:+ escapeString s).
  by apply wellEscaped_escapeChar.
Qed.

Lemma escapeHtml_wellEscaped `{JsRuntime} (v : JsValue) : wellEscaped (escapeHtml v) = true.
Proof. apply escapeString_wellEscaped. Qed.

(** C1, as the code runs it: the clinician table escapes a list item, but
    the recommendation card of the patient dashboard and the legacy history
    table insert the same text as it is, markup included. *)
Theorem unescaped_render_paths :
  renderListCell (JArray [JStr "<b>rice</b> & beans"]) =
    tpl "<ul class=~cell-list~><li>&lt;b&gt;rice&lt;/b&gt; &amp; beans</li></ul>" ∧
  (∃ html, recommendationCard markupRecommendation = Some html ∧
           occurs "<ul><li><b>rice</b> & beans</li></ul>" html = true ∧
           wellEscaped "<b>rice</b> & beans" = false) ∧
  (∃ html, historyTableHtml [markupHistory] = Some html ∧
           occurs "<td><b>rice</b> & beans, fish</td>" html = true).
Proof.
  split; [vm_compute; reflexivity|].
  split; eexists; (split; [reflexivity|]); vm_compute; auto.
Qed.

(** ** List cells *)

Lemma ltScan_cons c rest p :
  ltScan (String c rest) p =
    if p && Ascii.eqb c "d"%char then None else ltScan rest (Ascii.eqb c "<"%char).
Proof. reflexivity. Qed.

Lemma ltScan_app a b p : ltScan (a +:+ b) p = ltScan a p ≫= ltScan b.
Proof.
  revert p. induction a as [|c a IH]; intros p; [reflexivity|].
  rewrite append_cons, !ltScan_cons.
  destruct (p && Ascii.eqb c "d"%char); [reflexivity | apply IH].
Qed.

Lemma ltScan_app_clean a b :
  ltScan a false = Some false → ltScan (a +:+ b) false = ltScan b false.
Proof. intros Ha. by rewrite ltScan_app, Ha. Qed.

Lemma ltScan_escapeChar c : ltScan (escapeChar c) false = Some false.
Proof.
  unfold escapeChar.
  destruct (Ascii.eqb c "&"%char); [reflexivity|].
  destruct (Ascii.eqb c "<"%char) eqn:E; [reflexivity|].
  destruct (Ascii.eqb c ">"%char); [reflexivity|].
  destruct (Ascii.eqb c DQ); [reflexivity|].
  destruct (Ascii.eqb c "'"%char); [reflexivity|].
  rewrite ltScan_cons. simpl. by rewrite E.
Qed.

Lemma ltScan_escapeString s : ltScan (escapeString s) false = Some false.
Proof.
  induction s as [|c s IH]; [reflexivity|].
  change (escapeString (String c s)) with (escapeChar c +:+ escapeString s).
  rewrite ltScan_app_clean; [exact IH | apply ltScan_escapeChar].
Qed.

Lemma join_empty_cons x xs : join "" (x :: xs) = x +:+ join "" xs.
Proof.
  unfold join. destruct xs as [|y ys]; simpl; [by rewrite append_nil_r | done].
Qed.

Lemma prefix_cons a s1 b s2 :
  String.prefix (String a s1) (String b s2) =
    if ascii_dec a b then String.prefix s1 s2 else false.
Proof. reflexivity. Qed.

Lemma occurs_cons pat c s :
  occurs pat (String c s) = String.prefix pat (String c s) || occurs pat s.
Proof. reflexivity. Qed.

Lemma prefix_app pat b : String.prefix pat (pat +:+ b) = true.
Proof.
  induction pat as [|c pat IH]; [apply prefix_empty|].
  rewrite append_cons, prefix_cons. by destruct (ascii_dec c c).
Qed.

Lemma occurs_prefix pat s : String.prefix pat s = true → occurs pat s = true.
Proof.
  intros Hpre. destruct s as [|c s].
  - change (occurs pat "") with (String.prefix pat "" || false). by rewrite Hpre.
  - by rewrite occurs_cons, Hpre.
Qed.

Lemma occurs_app_r pat a s : occurs pat s = true → occurs pat (a +:+ s) = true.
Proof.
  intros Hocc. induction a as [|c a IH]; [exact Hocc|].
  rewrite append_cons, occurs_cons, IH. apply orb_true_r.
Qed.

(** [pat] occurs in any text built around it. *)
Lemma occurs_middle pat a b : occurs pat (a +:+ pat +:+ b) = true.
Proof. apply occurs_app_r, occurs_prefix, prefix_app. Qed.

(** A text in which [<details] occurs has a [<] directly followed by [d]. *)
Lemma occurs_details_ltScan s p : occurs "<details" s = true → ltScan s p = None.
Proof.
  revert p. induction s as [|c s IH]; intros p Hocc; [discriminate Hocc|].
  rewrite occurs_cons in Hocc. apply orb_true_iff in Hocc as [Hpre|Hrest].
  - rewrite prefix_cons in Hpre. destruct (ascii_dec "<" c) as [<-|]; [|discriminate].
    destruct s as [|c2 s2]; [discriminate Hpre|].
    rewrite prefix_cons in Hpre. destruct (ascii_dec "d" c2) as [<-|]; [|discriminate].
    by destruct p.
  - rewrite ltScan_cons. destruct (p && Ascii.eqb c "d"%char); [done | by apply IH].
Qed.

Section ListCellFacts.
Context `{JsRuntime}.

Lemma ltScan_li x : ltScan (li x) false = Some false.
Proof.
  unfold li, escapeHtml.
  rewrite ltScan_app_clean by reflexivity.
  rewrite ltScan_app_clean by apply ltScan_escapeString.
  reflexivity.
Qed.

Lemma ltScan_items xs : ltScan (join "" (map li xs)) false = Some false.
Proof.
  induction xs as [|x xs IH]; [reflexivity|].
  rewrite map_cons, join_empty_cons.
  rewrite ltScan_app_clean; [exact IH | apply ltScan_li].
Qed.

Lemma ltScan_cellList xs : ltScan (cellList xs) false = Some false.
Proof.
  unfold cellList.
  rewrite ltScan_app_clean by reflexivity.
  rewrite ltScan_app_clean by apply ltScan_items.
  reflexivity.
Qed.

(** The disclosure element, with its count label set apart. *)
Lemma disclosure_label count listHtml :
  disclosure count listHtml =
    tpl "
    <details class=~cell-details~>
      " +:+ countLabel count +:+ ("
      " +:+ listHtml +:+ "
    </details>
  ").
Proof.
  unfold disclosure, countLabel.
  generalize (pretty count). intros n.
  change (tpl "
    <details class=~cell-details~>
      <summary>Show all (")
    with (tpl "
    <details class=~cell-details~>
      " +:+ "<summary>Show all (").
  change (")</summary>
      ") with (")</summary>" +:+ "
      ").
  by rewrite !append_assoc.
Qed.

(** The inline list holds no disclosure element. *)
Lemma cellList_no_details xs : occurs "<details" (cellList xs) = false.
Proof.
  destruct (occurs "<details" (cellList xs)) eqn:Hocc; [|done].
  apply (occurs_details_ltScan _ false) in Hocc.
  rewrite ltScan_cellList in Hocc. discriminate.
Qed.
End ListCellFacts.

(** C6 as the code has it: the cell counts the entries that are truthy
    (neither empty strings nor null).  A list with more than 3 such entries
    shows the first 3 of them inline and a disclosure element that lists them
    all under a count label equal to their number; with 3 or fewer of them no
    disclosure element is rendered and the inline list holds them all. *)
Theorem renderListCell_truthy_disclosure `{JsRuntime} (items : JsValue) :
  let arr := truthyItems items in
  (3 < length arr →
     renderListCell items =
       cellList (take 3 arr) +:+ disclosure (length arr) (cellList arr) ∧
     length (take 3 arr) = 3 ∧
     occurs (countLabel (length arr)) (disclosure (length arr) (cellList arr)) = true) ∧
  (length arr ≤ 3 →
     occurs "<details" (renderListCell items) = false ∧
     (0 < length arr → renderListCell items = cellList arr)).
Proof.
  intros arr. unfold renderListCell. fold arr. split.
  - intros Hlen.
    destruct (Nat.eqb_spec (length arr) 0) as [|_]; [lia|].
    destruct (Nat.eqb_spec (length (drop 3 arr)) 0) as [Hd|_];
      [rewrite length_drop in Hd; lia|].
    split; [reflexivity|]. split; [apply length_take_le; lia|].
    rewrite disclosure_label. apply occurs_middle.
  - intros Hlen.
    destruct (Nat.eqb_spec (length arr) 0) as [Hz|Hnz].
    + split; [vm_compute; reflexivity | lia].
    + destruct (Nat.eqb_spec (length (drop 3 arr)) 0) as [_|Hd];
        [|rewrite length_drop in Hd; lia].
      rewrite take_ge by lia. split; [apply cellList_no_details | done].
Qed.

Lemma renderListCell_truthy_disclosure_witness :
  3 < length (truthyItems (diet patientAda)) ∧
  renderListCell (diet patientAda) =
    cellList (take 3 (truthyItems (diet patientAda))) +:+
    disclosure (length (truthyItems (diet patientAda)))
      (cellList (truthyItems (diet patientAda))) ∧
  length (take 3 (truthyItems (diet patientAda))) = 3 ∧
  occurs (countLabel (length (truthyItems (diet patientAda))))
    (disclosure (length (truthyItems (diet patientAda)))
       (cellList (truthyItems (diet patientAda)))) = true.
Proof.
  assert (Hlen : 3 < length (truthyItems (diet patientAda))) by (vm_compute; lia).
  split; [exact Hlen|].
  exact (proj1 (renderListCell_truthy_disclosure (diet patientAda)) Hlen).
Defined.

(** An array of four entries, one of them empty, gets no disclosure element;
    an array of five entries, one of them empty, gets the count label 4. *)
Lemma renderListCell_counts_truthy_only :
  ¬ listCellAsWorded [JStr "oats"; JStr "rice"; JStr "fish"; JStr ""] ∧
  ¬ listCellAsWorded [JStr "oats"; JStr ""; JStr "rice & beans"; JStr "fish"; JStr "fruit"].
Proof.
  split; intros [Hmore _].
  - destruct Hmore as [Hdetails _]; [simpl; lia|].
    vm_compute in Hdetails. discriminate.
  - destruct Hmore as [_ Hlabel]; [simpl; lia|].
    vm_compute in Hlabel. discriminate.
Qed.

Example renderListCell_four_with_empty :
  renderListCell (JArray [JStr "oats"; JStr "rice"; JStr "fish"; JStr ""]) =
    tpl "<ul class=~cell-list~><li>oats</li><li>rice</li><li>fish</li></ul>".
Proof. vm_compute. reflexivity. Qed.

Example renderListCell_five_with_empty :
  occurs (countLabel 4) (renderListCell (diet patientAda)) = true ∧
  occurs (countLabel 5) (renderListCell (diet patientAda)) = false.
Proof. vm_compute. split; reflexivity. Qed.

Example risk_cells :
  riskCell patientAda = "<td>⚠️ High BMI | ⚠️ Low Feedback</td>" ∧
  riskCell patientBob = "<td>None</td>" ∧
  riskCell patientCyd = "<td>smoker</td>".
Proof. vm_compute. repeat split. Qed.

Lemma allPatients_retained_witness :
  ∃ pg1 pg2,
    applySequence [("high", "all"); ("low", "low"); ("medium", "high")] examplePage = Some pg1 ∧
    selectAndApply ("all", "all") pg1 = Some pg2 ∧
    length (allPatients pg1) = length (allPatients examplePage) ∧
    (∀ i p, allPatients examplePage !! i = Some p →
       allPatients pg1 !! i = Some p ∨ allPatients pg1 !! i = Some (settle p)) ∧
    (∀ bf ff, selectRows bf ff (allPatients pg1) = selectRows bf ff (allPatients examplePage)) ∧
    selectRows "all" "all" (allPatients pg1) = seq 0 (length (allPatients examplePage)) ∧
    renderTable (seq 0 (length (allPatients examplePage))) (allPatients examplePage) =
      Some (patientsTable pg2, allPatients pg2).
Proof.
  exact (allPatients_retained [("high", "all"); ("low", "low"); ("medium", "high")]
           examplePage).
Defined.

(** * Further properties *)

(** ** [escapeHtml] *)

Lemma countChar_app c a b : countChar c (a +:+ b) = countChar c a + countChar c b.
Proof.
  induction a as [|x a IH]; [reflexivity|].
  rewrite append_cons. simpl. rewrite IH. lia.
Qed.

Lemma wellEscaped_no_markup c s :
  isMarkupChar c = true → wellEscaped s = true → countChar c s = 0.
Proof.
  intros Hc. induction s as [|x s IH]; [reflexivity|].
  rewrite wellEscaped_cons. intros [Hx Hs]%andb_true_iff.
  simpl. rewrite (IH Hs).
  destruct (Ascii.eqb_spec x c) as [->|_]; [|reflexivity].
  destruct (Ascii.eqb_spec c "&"%char) as [->|_]; [discriminate Hc|].
  rewrite Hc in Hx. discriminate Hx.
Qed.

(** X1: whatever the value, the text that [escapeHtml] returns holds no [<],
    no [>], no double quote and no apostrophe, and each [&] in it starts one
    of the five entities. *)
Theorem escapeHtml_emits_no_markup `{JsRuntime} (v : JsValue) :
  countChar "<" (escapeHtml v) = 0 ∧
  countChar ">" (escapeHtml v) = 0 ∧
  countChar DQ (escapeHtml v) = 0 ∧
  countChar "'" (escapeHtml v) = 0 ∧
  wellEscaped (escapeHtml v) = true.
Proof.
  pose proof (escapeString_wellEscaped (ToString (js_coalesce v (JStr "")))) as Hw.
  unfold escapeHtml. repeat split; try exact Hw;
    by apply wellEscaped_no_markup.
Qed.

Lemma escapeString_cons c s : escapeString (String c s) = escapeChar c +:+ escapeString s.
Proof. reflexivity. Qed.

Lemma unescapeGo_cons c rest :
  unescapeGo 0 (String c rest) =
    if Ascii.eqb c "&"%char then
      if String.prefix "amp;" rest then String "&"%char (unescapeGo 4 rest)
      else if String.prefix "lt;" rest then String "<"%char (unescapeGo 3 rest)
      else if String.prefix "gt;" rest then String ">"%char (unescapeGo 3 rest)
      else if String.prefix "quot;" rest then String DQ (unescapeGo 5 rest)
      else if String.prefix "#039;" rest then String "'"%char (unescapeGo 5 rest)
      else String c (unescapeGo 0 rest)
    else String c (unescapeGo 0 rest).
Proof. reflexivity. Qed.

Lemma unescapeGo_skip k c rest : unescapeGo (S k) (String c rest) = unescapeGo k rest.
Proof. reflexivity. Qed.

Ltac unescape_entity :=
  rewrite !append_cons, append_nil_l, unescapeGo_cons;
  simpl; rewrite ?prefix_empty; reflexivity.

Lemma unescapeGo_escapeChar c rest :
  unescapeGo 0 (escapeChar c +:+ rest) = String c (unescapeGo 0 rest).
Proof.
  unfold escapeChar.
  destruct (Ascii.eqb_spec c "&"%char) as [->|Hamp]; [unescape_entity|].
  destruct (Ascii.eqb_spec c "<"%char) as [->|_]; [unescape_entity|].
  destruct (Ascii.eqb_spec c ">"%char) as [->|_]; [unescape_entity|].
  destruct (Ascii.eqb_spec c DQ) as [->|_]; [unescape_entity|].
  destruct (Ascii.eqb_spec c "'"%char) as [->|_]; [unescape_entity|].
  rewrite append_cons, append_nil_l, unescapeGo_cons.
  by destruct (Ascii.eqb_spec c "&"%char).
Qed.

(** X2: escaping loses nothing.  Reading the five entities back gives the
    text that was escaped, so two different texts are never escaped to the
    same markup. *)
Theorem escapeString_round_trip :
  (∀ s, unescapeHtml (escapeString s) = s) ∧
  (∀ s1 s2, escapeString s1 = escapeString s2 → s1 = s2).
Proof.
  assert (Hrt : ∀ s, unescapeHtml (escapeString s) = s).
  { unfold unescapeHtml. induction s as [|c s IH]; [reflexivity|].
    by rewrite escapeString_cons, unescapeGo_escapeChar, IH. }
  split; [exact Hrt|].
  intros s1 s2 Heq. by rewrite <- (Hrt s1), <- (Hrt s2), Heq.
Qed.

Lemma length_append a b : String.length (a +:+ b) = String.length a + String.length b.
Proof.
  induction a as [|x a IH]; [reflexivity|].
  rewrite append_cons. simpl. by rewrite IH.
Qed.

Lemma length_escapeChar c : 1 ≤ String.length (escapeChar c).
Proof.
  unfold escapeChar.
  repeat (match goal with |- context [Ascii.eqb ?a ?b] => destruct (Ascii.eqb a b) end;
          [simpl; lia|]).
  simpl. lia.
Qed.

Lemma length_escapeString s : String.length s ≤ String.length (escapeString s).
Proof.
  induction s as [|c s IH]; [reflexivity|].
  rewrite escapeString_cons, length_append.
  pose proof (length_escapeChar c). simpl. lia.
Qed.

Lemma escapeChar_plain c :
  negb (Ascii.eqb c "&"%char) && negb (isMarkupChar c) = true →
  escapeChar c = String c EmptyString.
Proof.
  unfold escapeChar, isMarkupChar.
  destruct (Ascii.eqb c "&"%char); [discriminate|].
  destruct (Ascii.eqb c "<"%char); [discriminate|].
  destruct (Ascii.eqb c ">"%char); [discriminate|].
  destruct (Ascii.eqb c DQ); [discriminate|].
  destruct (Ascii.eqb c "'"%char); [discriminate|]. reflexivity.
Qed.

Lemma escapeChar_special c :
  negb (Ascii.eqb c "&"%char) && negb (isMarkupChar c) = false →
  2 ≤ String.length (escapeChar c).
Proof.
  unfold escapeChar, isMarkupChar.
  destruct (Ascii.eqb c "&"%char); [simpl; lia|].
  destruct (Ascii.eqb c "<"%char); [simpl; lia|].
  destruct (Ascii.eqb c ">"%char); [simpl; lia|].
  destruct (Ascii.eqb c DQ); [simpl; lia|].
  destruct (Ascii.eqb c "'"%char); [simpl; lia|]. discriminate.
Qed.

(** X3: a text comes out of the escaping unchanged exactly when it holds
    none of the five characters that [escapeHtml] rewrites. *)
Theorem escapeString_unchanged_iff_plain (s : string) :
  escapeString s = s ↔ plainText s = true.
Proof.
  induction s as [|c s IH]; [done|].
  rewrite escapeString_cons.
  change (plainText (String c s))
    with (negb (Ascii.eqb c "&"%char) && negb (isMarkupChar c) && plainText s).
  destruct (negb (Ascii.eqb c "&"%char) && negb (isMarkupChar c)) eqn:Hc.
  - rewrite (escapeChar_plain c Hc), append_cons, append_nil_l. simpl. split.
    + intros Heq. apply IH. by injection Heq.
    + intros Hs. f_equal. by apply IH.
  - simpl. split; [|discriminate].
    intros Heq. apply (f_equal String.length) in Heq.
    rewrite length_append in Heq. simpl in Heq.
    pose proof (escapeChar_special c Hc). pose proof (length_escapeString s). lia.
Qed.

(** ** List cells and table rows *)

Lemma cellList_head `{JsRuntime} xs :
  ∃ rest, cellList xs = String "<"%char (String "u"%char rest).
Proof.
  unfold cellList.
  change (tpl "<ul class=~cell-list~>")
    with (String "<"%char (String "u"%char (tpl "l class=~cell-list~>"))).
  eexists. rewrite !append_cons. reflexivity.
Qed.

(** X4: a list cell is the dash placeholder exactly when the field has no
    truthy entry: it is not an array, or it is an array of nothing but empty
    strings, nulls and other falsy values. *)
Theorem renderListCell_dash_iff `{JsRuntime} (items : JsValue) :
  renderListCell items = dashPlaceholder ↔ truthyItems items = [].
Proof.
  unfold renderListCell. destruct (truthyItems items) as [|x arr]; [done|].
  split; [|discriminate]. cbn [length Nat.eqb].
  destruct (cellList_head (take 3 (x :: arr))) as [rest Hrest]. rewrite Hrest.
  intros Heq. exfalso.
  assert (Hget : ∀ tail, String.get 1 (String "<"%char (String "u"%char rest) +:+ tail)
                         = Some "u"%char) by (intros tail; by rewrite !append_cons).
  destruct (Nat.eqb (length (drop 3 (x :: arr))) 0).
  - apply (f_equal (String.get 1)) in Heq. vm_compute in Heq. discriminate.
  - apply (f_equal (String.get 1)) in Heq. rewrite Hget in Heq.
    vm_compute in Heq. discriminate.
Qed.

(** X5: a call of [renderTable] that completes, as it does for rows that
    refer to records in which no object occurs, has written into no field of
    a record but [risks], and into [risks] only when it is an empty array:
    every record of the store keeps its place and its name, BMI, lists,
    feedback and AI text. *)
Theorem renderTable_frame `{JsRuntime} (rows : list nat) (st : Store) :
  (rowsConvert st rows = true → ∃ html st', renderTable rows st = Some (html, st')) ∧
  (∀ html st', renderTable rows st = Some (html, st') →
     ∀ i p, st !! i = Some p →
       ∃ p', st' !! i = Some p' ∧
         name p' = name p ∧ bmi p' = bmi p ∧ diet p' = diet p ∧
         exercise p' = exercise p ∧ general p' = general p ∧
         feedback p' = feedback p ∧ ai_explanation p' = ai_explanation p ∧
         (risks p' = risks p ∨ risks p = JArray [])).
Proof.
  split.
  { intros Hvalid%rowsConvert_valid. eexists _, _. by apply renderTable_spec. }
  intros html st' Hrun.
  pose proof (renderTable_Some_valid _ _ _ Hrun) as Hvalid.
  rewrite (renderTable_spec _ _ Hvalid) in Hrun. injection Hrun as _ <-.
  intros i p Hp. rewrite settleRows_lookup, Hp. simpl.
  destruct (decide (i ∈ rows)) as [_|_].
  - exists (settle p). split; [done|].
    destruct (settle_fields p) as (Hn & Hb & Hd & He & Hg & Hf & Ha).
    repeat (split; [done|]).
    rewrite settle_cases.
    destruct (risks p) as [| | | | |[|x rs]|] eqn:Hr; rewrite ?Hr; auto.
  - exists p. split; [done|]. repeat (split; [done|]). by left.
Qed.

Lemma renderTable_frame_witness :
  rowsConvert examplePatients [0; 1] = true ∧
  ∃ html st',
    renderTable [0; 1] examplePatients = Some (html, st') ∧
    ∀ i p, examplePatients !! i = Some p →
      ∃ p', st' !! i = Some p' ∧
        name p' = name p ∧ bmi p' = bmi p ∧ diet p' = diet p ∧
        exercise p' = exercise p ∧ general p' = general p ∧
        feedback p' = feedback p ∧ ai_explanation p' = ai_explanation p ∧
        (risks p' = risks p ∨ risks p = JArray []).
Proof.
  split; [reflexivity|].
  destruct (proj1 (renderTable_frame [0; 1] examplePatients) eq_refl)
    as (html & st' & Hrun).
  exists html, st'. split; [exact Hrun|].
  exact (proj2 (renderTable_frame [0; 1] examplePatients) html st' Hrun).
Defined.

(** ** Filters *)

Section FilterProperties.
Context `{JsRuntime}.

Lemma selectRows_lookup_Some bf ff (st : Store) r :
  r ∈ selectRows bf ff st → ∃ p, st !! r = Some p.
Proof.
  intros Hr. apply lookup_lt_is_Some.
  pose proof (selectRows_valid bf ff st) as Hvalid.
  rewrite Forall_forall in Hvalid. by apply Hvalid.
Qed.

Lemma drawCharts_status rows pg :
  statusDisplay (drawCharts rows pg) = statusDisplay pg ∧
  statusText (drawCharts rows pg) = statusText pg.
Proof.
  unfold drawCharts.
  destruct (negb (bmiCanvas pg) || negb (fbCanvas pg)); [done|].
  destruct (Nat.eqb (length rows) 0); done.
Qed.
End FilterProperties.

(** X6: whenever [applyFilters] completes, as it does on records in which
    no object occurs, its status banner tells whether the filters kept
    anything: with no row kept it shows the no-match message over the no-data
    table, with some row kept it is hidden and empty, whatever it showed
    before. *)
Theorem applyFilters_status_banner `{JsRuntime} (pg : Page) :
  (storeConverts (allPatients pg) = true → ∃ pg', applyFilters pg = Some pg') ∧
  (∀ pg', applyFilters pg = Some pg' →
     (selectRows (bmiFilter pg) (feedbackFilter pg) (allPatients pg) = [] →
        statusDisplay pg' = "block" ∧
        statusText pg' = "No patients match the selected filters." ∧
        patientsTable pg' = tpl "<p style=~color:#555;~>No data to display.</p>") ∧
     (selectRows (bmiFilter pg) (feedbackFilter pg) (allPatients pg) ≠ [] →
        statusDisplay pg' = "none" ∧ statusText pg' = "")).
Proof.
  unfold applyFilters. cbn [clearStatus set_status bmiFilter feedbackFilter allPatients].
  rewrite (renderTable_spec _ _ (selectRows_valid _ _ _)).
  split; [intros _; by eexists|].
  intros pg' [= <-].
  match goal with |- context [drawCharts ?rows ?pg0] =>
    destruct (drawCharts_status rows pg0) as (Hd & Ht);
    destruct (drawCharts_frame rows pg0) as (_ & Htab & _ & _);
    generalize dependent (drawCharts rows pg0)
  end.
  intros pg1 Hd Ht Htab. cbn in Hd, Ht, Htab.
  destruct (selectRows (bmiFilter pg) (feedbackFilter pg) (allPatients pg)) as [|r rows].
  - split; [|done]. intros _. cbn. by rewrite Htab.
  - split; [done|]. intros _. cbn. by rewrite Hd, Ht.
Qed.

Lemma applyFilters_status_banner_witness :
  storeConverts (allPatients (set_filters examplePage "medium" "low")) = true ∧
  ∃ pg',
    applyFilters (set_filters examplePage "medium" "low") = Some pg' ∧
    statusDisplay pg' = "block" ∧
    statusText pg' = "No patients match the selected filters.".
Proof.
  split; [reflexivity|].
  destruct (proj1 (applyFilters_status_banner (set_filters examplePage "medium" "low"))
              eq_refl) as (pg' & Hrun).
  exists pg'. split; [exact Hrun|].
  destruct (proj1 (proj2 (applyFilters_status_banner
                           (set_filters examplePage "medium" "low")) pg' Hrun) eq_refl)
    as (Hd & Ht & _).
  by split.
Defined.

(** X7: applying the same pair of filters twice in a row shows the same table
    and leaves the records as the first application left them. *)
Theorem selectAndApply_twice `{JsRuntime} (sel : string * string) (pg : Page) :
  ∃ pg1 pg2,
    selectAndApply sel pg = Some pg1 ∧
    selectAndApply sel pg1 = Some pg2 ∧
    patientsTable pg2 = patientsTable pg1 ∧
    allPatients pg2 = allPatients pg1.
Proof.
  unfold selectAndApply.
  destruct (applyFilters_spec (set_filters pg sel.1 sel.2)) as (pg1 & Happly1 & Hr1 & Hst1).
  destruct (applyFilters_spec (set_filters pg1 sel.1 sel.2)) as (pg2 & Happly2 & Hr2 & Hst2).
  exists pg1, pg2. split; [done|]. split; [done|].
  cbn [set_filters bmiFilter feedbackFilter allPatients] in *.
  set (st := allPatients pg) in *. set (rows := selectRows sel.1 sel.2 st) in *.
  assert (Hrel : sameOrSettled st (allPatients pg1)).
  { rewrite Hst1. apply sameOrSettled_settleRows, sameOrSettled_refl. }
  rewrite (selectRows_sameOrSettled _ _ _ _ Hrel) in Hr2. fold rows in Hr2.
  assert (Hvalid : Forall (λ r, r < length st) rows) by apply selectRows_valid.
  rewrite renderTable_spec in Hr1 by done.
  rewrite renderTable_spec in Hr2
    by (by rewrite (sameOrSettled_length _ _ Hrel)).
  rewrite (rowsMarkup_sameOrSettled _ _ _ Hrel) in Hr2.
  injection Hr1 as Htab1 _. injection Hr2 as Htab2 Hstore2.
  split; [by rewrite <- Htab1, <- Htab2|].
  by rewrite <- Hstore2, Hst1, settleRows_idem.
Qed.

(** X8: the two filters act independently: a row passes a BMI filter and a
    feedback filter together exactly when it passes each of them alone. *)
Theorem selectRows_both_filters `{JsRuntime} (bf ff : string) (st : Store) (r : nat) :
  r ∈ selectRows bf ff st ↔ r ∈ selectRows bf "all" st ∧ r ∈ selectRows "all" ff st.
Proof.
  destruct (st !! r) as [p|] eqn:Hp.
  - rewrite !(elem_of_selectRows _ _ st r p Hp). intuition discriminate.
  - split.
    + intros [p' Hp']%selectRows_lookup_Some. congruence.
    + intros [[p' Hp']%selectRows_lookup_Some _]. congruence.
Qed.

Lemma num_ge_30_25 (n : JsNumber) :
  num_ge n (num_of_nat 30) = true → num_ge n (num_of_nat 25) = true.
Proof.
  destruct n as [| |x|]; try done. unfold num_of_nat.
  rewrite !num_ge_Fin. intros Hx. eapply Qle_trans; [|exact Hx].
  unfold Qle. simpl. lia.
Qed.

Lemma num_lt_ge_total (n : JsNumber) (k : nat) :
  n ≠ NaN → num_lt n (num_of_nat k) = negb (num_ge n (num_of_nat k)).
Proof.
  intros Hn. unfold num_of_nat. destruct n as [| |x|]; try done.
  unfold num_ge, num_lt. by rewrite negb_involutive.
Qed.

(** X9: the three BMI bands split the records that have a numeric BMI: each
    such record passes exactly one of the low, medium and high filters.  A
    record whose BMI is not a number passes none of the three, so it is shown
    only when the BMI filter is off. *)
Theorem bmi_bands_partition `{JsRuntime} (st : Store) (r : nat) (p : PatientRecord) :
  st !! r = Some p →
  let low := r ∈ selectRows "low" "all" st in
  let medium := r ∈ selectRows "medium" "all" st in
  let high := r ∈ selectRows "high" "all" st in
  r ∈ selectRows "all" "all" st ∧
  (Number (bmi p) = NaN → ¬ low ∧ ¬ medium ∧ ¬ high) ∧
  (Number (bmi p) ≠ NaN →
     (low ∧ ¬ medium ∧ ¬ high) ∨ (¬ low ∧ medium ∧ ¬ high) ∨ (¬ low ∧ ¬ medium ∧ high)).
Proof.
  intros Hp low medium high. subst low medium high.
  rewrite !(elem_of_selectRows _ _ st r p Hp).
  split; [repeat split; discriminate|]. split.
  - intros ->. repeat split; intros (H1 & H2 & H3 & _);
      try (specialize (H1 eq_refl)); try (specialize (H2 eq_refl));
      try (specialize (H3 eq_refl)); try destruct H2; discriminate.
  - intros Hn.
    pose proof (num_lt_ge_total _ 25 Hn) as H25.
    pose proof (num_lt_ge_total _ 30 Hn) as H30.
    pose proof (num_ge_30_25 (Number (bmi p))) as Hmono.
    destruct (num_ge (Number (bmi p)) (num_of_nat 25)) eqn:G25;
      destruct (num_ge (Number (bmi p)) (num_of_nat 30)) eqn:G30;
      simpl in H25, H30; rewrite ?H25, ?H30.
    + right. right. repeat split; try discriminate; intros (H1 & H2 & H3 & _);
        try (specialize (H1 eq_refl)); try (destruct (H2 eq_refl)); discriminate.
    + right. left. repeat split; try discriminate; intros (H1 & H2 & H3 & _);
        try (specialize (H1 eq_refl)); try (specialize (H3 eq_refl)); discriminate.
    + specialize (Hmono eq_refl). discriminate.
    + left. repeat split; try discriminate; intros (H1 & H2 & H3 & _);
        try (destruct (H2 eq_refl)); try (specialize (H3 eq_refl)); discriminate.
Qed.


Lemma bmi_bands_partition_witness :
  examplePatients !! 0 = Some patientAda ∧
  0 ∈ selectRows "all" "all" examplePatients ∧
  (Number (bmi patientAda) ≠ NaN →
     (0 ∈ selectRows "low" "all" examplePatients ∧
      ¬ 0 ∈ selectRows "medium" "all" examplePatients ∧
      ¬ 0 ∈ selectRows "high" "all" examplePatients) ∨
     (¬ 0 ∈ selectRows "low" "all" examplePatients ∧
      0 ∈ selectRows "medium" "all" examplePatients ∧
      ¬ 0 ∈ selectRows "high" "all" examplePatients) ∨
     (¬ 0 ∈ selectRows "low" "all" examplePatients ∧
      ¬ 0 ∈ selectRows "medium" "all" examplePatients ∧
      0 ∈ selectRows "high" "all" examplePatients)).
Proof.
  split; [reflexivity|].
  pose proof (bmi_bands_partition examplePatients 0 patientAda eq_refl) as Hb.
  exact (conj (proj1 Hb) (proj2 (proj2 Hb))).
Defined.

Lemma num_lt_3_not_ge_4 (n : JsNumber) :
  num_lt n (num_of_nat 3) = true → num_ge n (num_of_nat 4) = false.
Proof.
  unfold num_of_nat. destruct n as [| |x|]; try done.
  rewrite num_lt_Fin. intros Hx.
  destruct (num_ge (Fin x) (Fin (inject_Z (Z.of_nat 4)))) eqn:Hge; [|done].
  apply num_ge_Fin in Hge. exfalso.
  apply (Qlt_not_le x (inject_Z (Z.of_nat 3))); [done|].
  eapply Qle_trans; [|exact Hge]. unfold Qle. simpl. lia.
Qed.

(** X10: the feedback bands leave records out.  A record without feedback
    (null or absent) passes neither the low nor the high filter, no record
    passes both, and a record whose feedback is at least 3 and below 4 passes
    neither. *)
Theorem feedback_bands_gap `{JsRuntime} (st : Store) (r : nat) (p : PatientRecord) :
  st !! r = Some p →
  let low := r ∈ selectRows "all" "low" st in
  let high := r ∈ selectRows "all" "high" st in
  (isNullish (feedback p) = true → ¬ low ∧ ¬ high) ∧
  ¬ (low ∧ high) ∧
  (∀ x, Number (feedback p) = Fin x → (3 <= x)%Q → (x < 4)%Q → ¬ low ∧ ¬ high).
Proof.
  intros Hp low high. subst low high.
  rewrite !(elem_of_selectRows _ _ st r p Hp).
  split; [|split].
  - intros Hnull. split; intros (_ & _ & _ & Hl & Hh).
    + destruct (Hl eq_refl). congruence.
    + destruct (Hh eq_refl). congruence.
  - intros [(_ & _ & _ & Hl & _) (_ & _ & _ & _ & Hh)].
    destruct (Hl eq_refl) as [_ Hlt]. destruct (Hh eq_refl) as [_ Hge].
    apply num_lt_3_not_ge_4 in Hlt. congruence.
  - intros x Hx H3 H4. rewrite !(elem_of_selectRows _ _ st r p Hp), Hx.
    unfold num_of_nat. split.
    + intros (_ & _ & _ & Hl & _). destruct (Hl eq_refl) as [_ Hlt].
      apply num_lt_Fin in Hlt. by apply (Qlt_not_le x 3).
    + intros (_ & _ & _ & _ & Hh). destruct (Hh eq_refl) as [_ Hge].
      apply num_ge_Fin in Hge. by apply (Qlt_not_le x 4).
Qed.

Lemma feedback_bands_gap_witness :
  examplePatients !! 1 = Some patientBob ∧
  (isNullish (feedback patientBob) = true →
     ¬ 1 ∈ selectRows "all" "low" examplePatients ∧
     ¬ 1 ∈ selectRows "all" "high" examplePatients).
Proof.
  split; [reflexivity|].
  exact (proj1 (feedback_bands_gap examplePatients 1 patientBob eq_refl)).
Defined.

(** ** Charts *)

Section ChartExact.
Implicit Types (w : ChartWorld) (t : string → option nat).

Lemma elem_of_destroyIfSet x inst w :
  x ∈ live (destroyIfSet inst w) ↔ x ∈ live w ∧ inst ≠ Some x.1.
Proof.
  destruct inst as [id|]; simpl.
  - rewrite list_elem_of_filter. split.
    + intros [Hne Hin]. split; [done|]. intros Heq. by injection Heq as ->.
    + intros [Hin Hne]. split; [|done]. intros Heq. apply Hne. by rewrite Heq.
  - split; [by intros ? | by intros [? _]].
Qed.

Lemma nextId_destroyIfSet inst w : nextId (destroyIfSet inst w) = nextId w.
Proof. by destruct inst. Qed.

(** Once the instances kept for the two canvases [a] and [b] are destroyed,
    a world that holds tracked instances on these canvases only is empty. *)
Lemma live_after_destroy_both w t a b :
  chartsTracked w t → (∀ c, c ≠ a → c ≠ b → t c = None) →
  live (destroyIfSet (t b) (destroyIfSet (t a) w)) = [].
Proof.
  intros [Htr _] Hother. apply elem_of_nil_inv. intros [id cfg] Hin.
  apply elem_of_destroyIfSet in Hin as [Hin Hb].
  apply elem_of_destroyIfSet in Hin as [Hin Ha].
  specialize (Htr id cfg Hin). simpl in Ha, Hb.
  destruct (decide (chartCanvas cfg = a)) as [Heq|Hna]; [by rewrite Heq in Htr|].
  destruct (decide (chartCanvas cfg = b)) as [Heq|Hnb]; [by rewrite Heq in Htr|].
  rewrite (Hother _ Hna Hnb) in Htr. discriminate.
Qed.

End ChartExact.

(** X11: [drawCharts] redraws from scratch.  On a page whose bound charts
    are the ones it keeps, a call with both canvases present destroys them
    all; with no rows it leaves no chart (the two variables still hold the
    destroyed instances), with rows it leaves exactly two new charts, a line
    chart of the BMI values and a bar chart of the feedback values, one point
    per row under the labels #1, #2, ...  When a canvas is missing the call
    changes nothing. *)
Theorem drawCharts_redraws_from_scratch `{JsRuntime} (rows : list PatientRecord) (pg : Page) :
  chartsTracked (charts pg) (clinicianTrack pg) →
  (bmiCanvas pg && fbCanvas pg = false → drawCharts rows pg = pg) ∧
  (bmiCanvas pg && fbCanvas pg = true →
     (rows = [] →
        live (charts (drawCharts rows pg)) = [] ∧
        bmiChartInstance (drawCharts rows pg) = bmiChartInstance pg ∧
        feedbackChartInstance (drawCharts rows pg) = feedbackChartInstance pg) ∧
     (rows ≠ [] →
        live (charts (drawCharts rows pg)) =
          [(nextId (charts pg),
            mkChart "bmiChart" "line" (positionalLabels rows) "BMI"
              (map (λ p, JNum (Number (bmi p))) rows));
           (S (nextId (charts pg)),
            mkChart "feedbackChart" "bar" (positionalLabels rows) "Feedback (0 = N/A)"
              (map feedbackValue rows))] ∧
        bmiChartInstance (drawCharts rows pg) = Some (nextId (charts pg)) ∧
        feedbackChartInstance (drawCharts rows pg) = Some (S (nextId (charts pg))) ∧
        length (positionalLabels rows) = length rows ∧
        ∀ i, i < length rows →
          positionalLabels rows !! i = Some ("#" +:+ pretty (i + 1)))).
Proof.
  intros Hinv. unfold drawCharts. split.
  - intros Hc. destruct (bmiCanvas pg), (fbCanvas pg); try discriminate; reflexivity.
  - intros Hc. destruct (bmiCanvas pg), (fbCanvas pg); try discriminate. simpl.
    assert (Hlive : live (destroyIfSet (feedbackChartInstance pg)
                            (destroyIfSet (bmiChartInstance pg) (charts pg))) = []).
    { apply (live_after_destroy_both (charts pg) (clinicianTrack pg)
               "bmiChart" "feedbackChart" Hinv).
      intros c Ha Hb. unfold clinicianTrack. by rewrite !decide_False. }
    split.
    + intros ->. simpl. by rewrite Hlive.
    + intros Hrows.
      assert (Hne : Nat.eqb (length rows) 0 = false) by (by destruct rows).
      rewrite Hne. unfold newChart. cbn [fst snd charts set_charts
        bmiChartInstance feedbackChartInstance live nextId].
      rewrite Hlive, !nextId_destroyIfSet.
      repeat split; try reflexivity.
      * unfold positionalLabels. apply length_imap.
      * intros i Hi. unfold positionalLabels. rewrite list_lookup_imap.
        destruct (lookup_lt_is_Some_2 rows i Hi) as [x ->]. done.
Qed.

Lemma drawCharts_redraws_from_scratch_witness :
  chartsTracked (charts examplePage) (clinicianTrack examplePage) ∧
  (bmiCanvas examplePage && fbCanvas examplePage = true →
     examplePatients ≠ [] →
     bmiChartInstance (drawCharts examplePatients examplePage) =
       Some (nextId (charts examplePage))).
Proof.
  assert (Hinv : chartsTracked (charts examplePage) (clinicianTrack examplePage))
    by apply chartsTracked_noCharts.
  split; [exact Hinv|].
  intros Hc Hrows.
  exact (proj1 (proj2 (proj2 (proj2 (drawCharts_redraws_from_scratch
                                      examplePatients examplePage Hinv) Hc) Hrows))).
Defined.



(** On the name [constructor] the call changes nothing. *)
Example drawChart_inherited_name :
  drawChartThrows "constructor" examplePatientPage = true ∧
  drawChart "constructor" "bar" (DataArray []) "x" examplePatientPage = examplePatientPage.
Proof. split; reflexivity. Qed.

(** ** The legacy history page *)

Section HistoryProperties.
Context `{JsRuntime}.



End HistoryProperties.




(** ** The patient page *)

Section CardProperties.
Context `{JsRuntime}.

Lemma recommendationCard_is_Some data :
  is_Some (recommendationCard data) ↔ recommendationFieldsAreArrays data = true.
Proof.
  unfold recommendationCard, recommendationFieldsAreArrays, rawItems.
  destruct (recDiet data), (recExercise data), (recGeneral data); simpl;
    split; intros Hx; try done; by inversion Hx.
Qed.
End CardProperties.

(** X15: when the identity request of [getRecommendation] fails, or its
    body cannot be read, the function alerts once and stops: nothing is posted
    and the page is otherwise as it was.  Once the identity is read, the form
    is posted whatever the session guard found, and a card is rendered only
    for a 2xx response whose body is JSON with array-valued diet, exercise and
    general: in every other case (transport error, body that is not JSON,
    other status, a list field that is not an array) the function alerts
    once, leaves the card as it was and does not load the charts.  For such a
    response in whose BMI and lists no object occurs, the card is rendered
    and the charts are loaded. *)
Theorem getRecommendation_outcomes `{JsRuntime} (loadUserCharts : PatientPage → PatientPage)
    (who : FetchOutcome Identity) (resp : FetchOutcome Recommendation) (pp : PatientPage) :
  let pp' := getRecommendation loadUserCharts who resp pp in
  ((∀ status me, who ≠ Response status (Some me)) →
     pp' = patientAlert "Failed to get recommendation" (patientRequest "GET /whoami" pp) ∧
     requests pp' = (requests pp ++ ["GET /whoami"])%list ∧
     alerts pp' = (alerts pp ++ ["Failed to get recommendation"])%list ∧
     recommendationResult pp' = recommendationResult pp ∧
     currentUserId pp' = currentUserId pp ∧
     patientLocation pp' = patientLocation pp) ∧
  (∀ status me, who = Response status (Some me) →
     (recommendationRenders resp = false →
        pp' = patientAlert "Failed to get recommendation"
                (patientRequest "POST /recommend" (mustBePatient me pp).2) ∧
        recommendationResult pp' = recommendationResult pp ∧
        alerts pp' = (alerts pp ++ ["Failed to get recommendation"])%list ∧
        requests pp' = (requests pp ++ ["GET /whoami"; "POST /recommend"])%list) ∧
     (∀ code data,
        resp = Response code (Some data) →
        ok code = true →
        recommendationFieldsAreArrays data = true →
        recommendationConverts data = true →
        ∃ html,
          recommendationCard data = Some html ∧
          pp' = loadUserCharts
                  (set_recommendationResult html
                     (patientRequest "POST /recommend" (mustBePatient me pp).2)))).
Proof.
  intros pp'. subst pp'. split.
  - intros Hwho. unfold getRecommendation.
    destruct who as [msg|status [me|]]; [done| |done].
    by destruct (Hwho status me).
  - intros status me ->. unfold getRecommendation, recommendationRenders.
    cbn [mustBePatient snd fst]. split.
    + intros Hno.
      assert (Hfail : ∀ pg, match resp with
                | NetworkError _ => patientAlert "Failed to get recommendation" pg
                | Response _ None => patientAlert "Failed to get recommendation" pg
                | Response status (Some data) =>
                    if negb (ok status) then patientAlert "Failed to get recommendation" pg
                    else match recommendationCard data with
                         | None => patientAlert "Failed to get recommendation" pg
                         | Some html => loadUserCharts (set_recommendationResult html pg)
                         end
                end = patientAlert "Failed to get recommendation" pg).
      { intros pg. destruct resp as [msg|code [data|]]; try reflexivity.
        destruct (ok code); [|reflexivity]. simpl in *.
        pose proof (recommendationCard_is_Some data) as Hsome.
        destruct (recommendationCard data) as [html|]; [|reflexivity].
        rewrite (proj1 Hsome) in Hno by done. discriminate. }
      rewrite Hfail. cbn. by rewrite <- app_assoc.
    + intros code data -> Hok Harr _.
      destruct (proj2 (recommendationCard_is_Some data) Harr) as [html Hhtml].
      exists html. rewrite Hok, Hhtml. done.
Qed.

(** ** The retry loop, in general *)

Lemma waits_app log1 log2 : waits (log1 ++ log2) = (waits log1 ++ waits log2)%list.
Proof. unfold waits. apply omap_app. Qed.

Lemma waits_round log url i :
  waits ((log ++ [EvFetch url]) ++ [EvWait (250 * (i + 1))]) =
    (waits log ++ [250 * (i + 1)])%list.
Proof. rewrite !waits_app. change (waits [EvFetch url]) with (@nil nat). by rewrite app_nil_r. Qed.

Lemma waits_failedRounds url i n :
  waits (failedRounds url i n) = (λ j, 250 * (j + 1)) <$> seq i n.
Proof.
  revert i. induction n as [|n IH]; intros i; [reflexivity|].
  change (failedRounds url i (S n))
    with ([EvFetch url; EvWait (250 * (i + 1))] ++ failedRounds url (S i) n)%list.
  rewrite waits_app, IH. reflexivity.
Qed.

Lemma attempts_failedRounds url i n : attempts (failedRounds url i n) = n.
Proof.
  revert i. induction n as [|n IH]; intros i; [reflexivity|].
  change (failedRounds url i (S n))
    with ([EvFetch url; EvWait (250 * (i + 1))] ++ failedRounds url (S i) n)%list.
  rewrite attempts_app, IH. reflexivity.
Qed.

Lemma retryLoop_bounded {A} (net : nat → FetchOutcome A) url remaining i lastErr log :
  attempts log = i →
  waits log = (λ j, 250 * (j + 1)) <$> seq 0 i →
  ∃ k, i ≤ k ≤ i + remaining ∧
    waits (retryLoop net url remaining i lastErr log).2 = (λ j, 250 * (j + 1)) <$> seq 0 k ∧
    match (retryLoop net url remaining i lastErr log).1 with
    | Returned _ =>
        k < i + remaining ∧ attempts (retryLoop net url remaining i lastErr log).2 = S k
    | Threw _ =>
        k = i + remaining ∧ attempts (retryLoop net url remaining i lastErr log).2 = k
    end.
Proof.
  revert i lastErr log. induction remaining as [|remaining IH];
    intros i lastErr log Hatt Hwaits.
  - exists i. simpl. repeat split; try lia; done.
  - rewrite retryLoop_step, Hatt. destruct (attempt net url i) as [v|err].
    + exists i. cbn [fst snd]. split; [lia|]. split.
      * rewrite waits_app. change (waits [EvFetch url]) with (@nil nat).
        by rewrite app_nil_r.
      * split; [lia|]. rewrite attempts_app, Hatt.
        change (attempts [EvFetch url]) with 1. lia.
    + destruct (IH (S i) err ((log ++ [EvFetch url]) ++ [EvWait (250 * (i + 1))]))
        as (k & Hk & Hw & Hres).
      * by rewrite attempts_round, Hatt.
      * rewrite waits_round, Hwaits, seq_S, fmap_app. reflexivity.
      * exists k. split; [lia|]. split; [exact Hw|].
        destruct (retryLoop net url remaining (S i) err _).1; (split; [lia|tauto]).
Qed.

(** X16: the retries are bounded and the waits escalate.  Whatever the
    network does, [fetchWithRetry] issues at most [tries] requests and the
    j-th wait, when there is one, lasts 250*j ms.  When it returns a payload
    it has failed k < tries times and issued k+1 requests; when it throws it
    has issued [tries] requests and waited [tries] times, the last wait
    following the last request. *)
Theorem fetchWithRetry_bounded {A} (net : nat → FetchOutcome A) (url : string) (tries : nat) :
  ∃ k, k ≤ tries ∧
    attempts (fetchWithRetry net url tries).2 ≤ tries ∧
    waits (fetchWithRetry net url tries).2 = (λ j, 250 * (j + 1)) <$> seq 0 k ∧
    match (fetchWithRetry net url tries).1 with
    | Returned _ => k < tries ∧ attempts (fetchWithRetry net url tries).2 = S k
    | Threw _ => k = tries ∧ attempts (fetchWithRetry net url tries).2 = tries
    end.
Proof.
  unfold fetchWithRetry.
  destruct (retryLoop_bounded net url tries 0 ErrNull []) as (k & Hk & Hw & Hres);
    [reflexivity | reflexivity |].
  exists k. split; [lia|]. split; [|split; [exact Hw|]].
  - destruct (retryLoop net url tries 0 ErrNull []).1; lia.
  - destruct (retryLoop net url tries 0 ErrNull []).1; [tauto|].
    destruct Hres as [-> Ha]. by rewrite Ha.
Qed.

Lemma fetchWithRetry_success_at {A} (net : nat → FetchOutcome A) (url : string)
    (tries k : nat) (v : A) :
  k < tries →
  (∀ j, j < k → ∃ e, attempt net url j = inr e) →
  attempt net url k = inl v →
  fetchWithRetry net url tries = (Returned v, failedRounds url 0 k ++ [EvFetch url]).
Proof.
  intros Hk Hfail Hv. unfold fetchWithRetry.
  destruct (retryLoop_failures net url k (tries - k) 0 ErrNull [])
    as (err & Hloop & _ & _); [reflexivity | intros j Hj; apply Hfail; lia |].
  replace (k + (tries - k)) with tries in Hloop by lia.
  rewrite Hloop. destruct (tries - k) as [|r] eqn:Hr; [lia|].
  rewrite (retryLoop_success net url r (0 + k) err _ v); [reflexivity|].
  cbn [app]. by rewrite attempts_failedRounds.
Qed.

(** X17: [fetchWithRetry] returns the payload of the first attempt that
    succeeds within [tries], after one request and one wait per failed
    attempt before it and no wait after it; later attempts are never made. *)
Theorem fetchWithRetry_first_success {A} (net : nat → FetchOutcome A) (url : string)
    (tries k : nat) (v : A) :
  k < tries →
  (∀ j, j < k → ∃ e, attempt net url j = inr e) →
  attempt net url k = inl v →
  fetchWithRetry net url tries = (Returned v, failedRounds url 0 k ++ [EvFetch url]) ∧
  attempts (fetchWithRetry net url tries).2 = S k ∧
  waits (fetchWithRetry net url tries).2 = (λ j, 250 * (j + 1)) <$> seq 0 k.
Proof.
  intros Hk Hfail Hv.
  rewrite (fetchWithRetry_success_at net url tries k v Hk Hfail Hv).
  cbn [fst snd app]. split; [reflexivity|]. split.
  - rewrite attempts_app, attempts_failedRounds. change (attempts [EvFetch url]) with 1. lia.
  - rewrite waits_app, waits_failedRounds. change (waits [EvFetch url]) with (@nil nat).
    by rewrite app_nil_r.
Qed.

Lemma fetchWithRetry_first_success_witness :
  2 < 3 ∧
  (∀ j, j < 2 → ∃ e, attempt upOnThird "/clinician-data" j = inr e) ∧
  attempt upOnThird "/clinician-data" 2 = inl examplePatients ∧
  fetchWithRetry upOnThird "/clinician-data" 3 =
    (Returned examplePatients,
     failedRounds "/clinician-data" 0 2 ++ [EvFetch "/clinician-data"]).
Proof.
  assert (Hfail : ∀ j, j < 2 → ∃ e, attempt upOnThird "/clinician-data" j = inr e).
  { intros j Hj. exists (ErrStatus "/clinician-data" 503).
    destruct j as [|[|j]]; [reflexivity | reflexivity | lia]. }
  split; [lia|]. split; [exact Hfail|]. split; [reflexivity|].
  exact (proj1 (fetchWithRetry_first_success upOnThird "/clinician-data" 3 2
                  examplePatients ltac:(lia) Hfail eq_refl)).
Defined.

(** ** Page load of the clinician page *)

Section InitProperties.
Context `{JsRuntime}.


End InitProperties.

(** X18: for an identity whose role is not the clinician role, [init] only
    redirects to the clinician login page: it requests no data, adds no click
    handler and leaves the records, the table, the status and the charts as
    they were. *)
Theorem init_not_clinician `{JsRuntime} (data : Identity) (net : nat → FetchOutcome Store)
    (pg : Page) :
  role data ≠ JStr "clinician" →
  init data net pg = mkInit (set_location pg "/clinician_login.html") [] false false.
Proof.
  intros Hrole. unfold init.
  by rewrite (proj1 (requireClinician_contract data pg) Hrole).
Qed.

Lemma init_not_clinician_witness :
  role patientIdentity ≠ JStr "clinician" ∧
  init patientIdentity alwaysDown examplePage =
    mkInit (set_location examplePage "/clinician_login.html") [] false false.
Proof.
  assert (Hrole : role patientIdentity ≠ JStr "clinician") by discriminate.
  split; [exact Hrole | exact (init_not_clinician patientIdentity alwaysDown examplePage Hrole)].
Defined.





(** ** The PDF link *)

Lemma hexDigit_unreserved n : isUnreserved (hexDigit n) = true.
Proof. do 16 (destruct n as [|n]; [reflexivity|]). reflexivity. Qed.

Lemma countChar_cons c x s :
  countChar c (String x s) = (if Ascii.eqb x c then 1 else 0) + countChar c s.
Proof. reflexivity. Qed.

Lemma eqb_reserved x c : isUnreserved x = true → isUnreserved c = false → Ascii.eqb x c = false.
Proof.
  intros Hx Hc. destruct (Ascii.eqb_spec x c) as [->|]; [congruence | done].
Qed.

(** A character that [encodeURIComponent] does not keep, other than the
    percent sign, does not occur in what it returns. *)
Lemma countChar_encodeURIComponent c s :
  isUnreserved c = false → c ≠ "%"%char → countChar c (encodeURIComponent s) = 0.
Proof.
  intros Hc Hpct. induction s as [|x s IH]; [reflexivity|].
  change (encodeURIComponent (String x s))
    with ((if isUnreserved x then String x EmptyString else percentEncode x)
          +:+ encodeURIComponent s).
  rewrite countChar_app, IH, Nat.add_0_r.
  destruct (isUnreserved x) eqn:Hx.
  - rewrite countChar_cons, (eqb_reserved x c Hx Hc). reflexivity.
  - unfold percentEncode. rewrite !countChar_cons.
    rewrite !(eqb_reserved _ c (hexDigit_unreserved _) Hc).
    destruct (Ascii.eqb_spec "%"%char c) as [Heq|_]; [by destruct Hpct | reflexivity].
Qed.

(** X21: whatever the two filter controls hold, the address that
    [downloadPdf] navigates to has one question mark, one ampersand, two
    equals signs and no hash: the filter values cannot add or end a query
    parameter. *)
Theorem downloadPdf_query_shape (pg : Page) :
  countChar "?" (location (downloadPdf pg)) = 1 ∧
  countChar "&" (location (downloadPdf pg)) = 1 ∧
  countChar "=" (location (downloadPdf pg)) = 2 ∧
  countChar "#" (location (downloadPdf pg)) = 0 ∧
  allPatients (downloadPdf pg) = allPatients pg ∧
  patientsTable (downloadPdf pg) = patientsTable pg ∧
  charts (downloadPdf pg) = charts pg.
Proof.
  unfold downloadPdf. cbn [location set_location allPatients patientsTable charts].
  rewrite !countChar_app.
  rewrite !countChar_encodeURIComponent by (reflexivity || discriminate).
  repeat split.
Qed.

Lemma encodeURIComponent_unreserved s : allUnreserved s = true → encodeURIComponent s = s.
Proof.
  induction s as [|c s IH]; [reflexivity|].
  intros [Hc Hs]%andb_true_iff.
  change (encodeURIComponent (String c s))
    with ((if isUnreserved c then String c EmptyString else percentEncode c)
          +:+ encodeURIComponent s).
  by rewrite Hc, IH.
Qed.

(** X22: filter values made of letters, digits and the other unreserved
    characters, as the values all, low, medium and high are, go into the
    address as they are. *)
Theorem downloadPdf_plain_values (pg : Page) :
  allUnreserved (bmiFilter pg) = true →
  allUnreserved (feedbackFilter pg) = true →
  location (downloadPdf pg) =
    "/export-pdf?bmi=" +:+ bmiFilter pg +:+ "&feedback=" +:+ feedbackFilter pg.
Proof.
  intros Hb Hf. unfold downloadPdf. cbn [location set_location].
  by rewrite !encodeURIComponent_unreserved.
Qed.

Lemma downloadPdf_plain_values_witness :
  allUnreserved (bmiFilter (set_filters examplePage "high" "low")) = true ∧
  allUnreserved (feedbackFilter (set_filters examplePage "high" "low")) = true ∧
  location (downloadPdf (set_filters examplePage "high" "low")) =
    "/export-pdf?bmi=high&feedback=low".
Proof.
  split; [reflexivity|]. split; [reflexivity|].
  exact (downloadPdf_plain_values (set_filters examplePage "high" "low") eq_refl eq_refl).
Defined.

Example downloadPdf_encodes :
  location (downloadPdf (set_filters examplePage "a&b=c" "50% é")) =
    "/export-pdf?bmi=a%26b%3Dc&feedback=50%25%20%C3%A9".
Proof. reflexivity. Qed.

(** ** The legacy form *)

Lemma splitCommaSpace_nil cur : splitCommaSpace "" cur = [cur].
Proof. reflexivity. Qed.

Lemma splitCommaSpace_one c cur :
  splitCommaSpace (String c "") cur = [cur +:+ String c ""].
Proof. reflexivity. Qed.

Lemma splitCommaSpace_two c c2 rest cur :
  splitCommaSpace (String c (String c2 rest)) cur =
    if Ascii.eqb c ","%char && Ascii.eqb c2 " "%char
    then cur :: splitCommaSpace rest ""
    else splitCommaSpace (String c2 rest) (cur +:+ String c "").
Proof. reflexivity. Qed.

Lemma splitCommaSpace_not_nil s cur : splitCommaSpace s cur ≠ [].
Proof.
  assert (Hboth : (∀ cur, splitCommaSpace s cur ≠ []) ∧
                  (∀ c cur, splitCommaSpace (String c s) cur ≠ [])).
  { induction s as [|c2 s [IH1 IH2]].
    - split; intros; discriminate.
    - split; [exact (IH2 c2)|]. intros c cur0. rewrite splitCommaSpace_two.
      destruct (Ascii.eqb c ","%char && Ascii.eqb c2 " "%char); [discriminate | apply IH2]. }
  apply Hboth.
Qed.

Lemma join_cons_nonempty sep x xs : xs ≠ [] → join sep (x :: xs) = x +:+ sep +:+ join sep xs.
Proof. intros Hxs. unfold join. by destruct xs. Qed.

(** Joining the pieces gives the text back. *)
Lemma join_splitCommaSpace s cur : join ", " (splitCommaSpace s cur) = cur +:+ s.
Proof.
  assert (Hboth : (∀ cur, join ", " (splitCommaSpace s cur) = cur +:+ s) ∧
                  (∀ c cur, join ", " (splitCommaSpace (String c s) cur)
                            = cur +:+ String c s)).
  { induction s as [|c2 s [IH1 IH2]].
    - split; [intros cur0; rewrite splitCommaSpace_nil, append_nil_r; reflexivity|].
      intros c cur0. rewrite splitCommaSpace_one. reflexivity.
    - split; [exact (IH2 c2)|]. intros c cur0. rewrite splitCommaSpace_two.
      destruct (Ascii.eqb c ","%char && Ascii.eqb c2 " "%char) eqn:Hsep.
      + apply andb_true_iff in Hsep as [->%Ascii.eqb_eq ->%Ascii.eqb_eq].
        rewrite join_cons_nonempty by apply splitCommaSpace_not_nil.
        by rewrite IH1.
      + rewrite IH2, append_assoc. reflexivity. }
  apply Hboth.
Qed.

Lemma Array_join_strings `{JsRuntime} sep (xs : list string) :
  Array_join sep (JStr <$> xs) = join sep xs.
Proof.
  unfold Array_join. f_equal. induction xs as [|x xs IH]; [reflexivity|].
  change (map joinItem (JStr <$> x :: xs)) with (x :: map joinItem (JStr <$> xs)).
  by rewrite IH.
Qed.

Lemma hasCommaSpace_cons x y r :
  hasCommaSpace (String x (String y r)) =
    (Ascii.eqb x ","%char && Ascii.eqb y " "%char) || hasCommaSpace (String y r).
Proof. reflexivity. Qed.

Lemma hasCommaSpace_prefix a b :
  hasCommaSpace (a +:+ b) = false → hasCommaSpace a = false.
Proof.
  induction a as [|x a IH]; [done|]. destruct a as [|y a]; [done|].
  rewrite !append_cons, !hasCommaSpace_cons, !orb_false_iff.
  intros [Hxy Hrest]. split; [exact Hxy|]. apply IH. by rewrite append_cons.
Qed.

Lemma hasCommaSpace_snoc a c c2 :
  hasCommaSpace (a +:+ String c (String c2 "")) =
    hasCommaSpace (a +:+ String c "") ||
    (Ascii.eqb c ","%char && Ascii.eqb c2 " "%char).
Proof.
  induction a as [|x a IH].
  - rewrite !append_nil_l, hasCommaSpace_cons. cbn [hasCommaSpace].
    by rewrite orb_false_r.
  - destruct a as [|y a].
    + rewrite !append_cons, !append_nil_l, !hasCommaSpace_cons. cbn [hasCommaSpace].
      by rewrite !orb_false_r.
    + rewrite !append_cons in *. rewrite !hasCommaSpace_cons, IH. by rewrite orb_assoc.
Qed.

(** No piece of the split holds the separator, as long as the piece being
    read, with the character that follows it, holds none. *)
Lemma splitCommaSpace_pieces s cur :
  hasCommaSpace (cur +:+ firstChar s) = false →
  Forall (λ piece, hasCommaSpace piece = false) (splitCommaSpace s cur).
Proof.
  assert (Hboth :
    (∀ cur, hasCommaSpace (cur +:+ firstChar s) = false →
       Forall (λ piece, hasCommaSpace piece = false) (splitCommaSpace s cur)) ∧
    (∀ c cur, hasCommaSpace (cur +:+ String c "") = false →
       Forall (λ piece, hasCommaSpace piece = false) (splitCommaSpace (String c s) cur))).
  { induction s as [|c2 s [IH1 IH2]].
    - split.
      + intros cur0 Hcur. rewrite splitCommaSpace_nil. constructor; [|constructor].
        cbn [firstChar] in Hcur. by rewrite append_nil_r in Hcur.
      + intros c cur0 Hcur. rewrite splitCommaSpace_one. by constructor.
    - split; [exact (IH2 c2)|]. intros c cur0 Hcur. rewrite splitCommaSpace_two.
      destruct (Ascii.eqb c ","%char && Ascii.eqb c2 " "%char) eqn:Hsep.
      + constructor; [by eapply hasCommaSpace_prefix|].
        apply IH1. rewrite append_nil_l. by destruct s.
      + apply IH2. rewrite append_assoc, append_cons, append_nil_l.
        by rewrite hasCommaSpace_snoc, Hcur, Hsep. }
  apply Hboth.
Qed.

(** X23: a list field that the server sends as one text is cut at each comma
    followed by a space: the pieces are at least one, none of them holds the
    separator, and joining them with the same separator, as the form does
    for display, gives the text back.  A field that is already an array is
    kept, and a field that is neither a text nor an array makes the coercion
    throw. *)
Theorem ensureArray_round_trip `{JsRuntime} (v : JsValue) :
  (∀ s, v = JStr s →
     ∃ pieces,
       ensureArray v = Some (JStr <$> pieces) ∧ pieces ≠ [] ∧
       Forall (λ piece, hasCommaSpace piece = false) pieces ∧
       join ", " pieces = s ∧
       Array_join ", " (JStr <$> pieces) = s) ∧
  (∀ items, v = JArray items → ensureArray v = Some items) ∧
  ((∀ s, v ≠ JStr s) → (∀ items, v ≠ JArray items) → ensureArray v = None).
Proof.
  split; [|split].
  - intros s ->. exists (splitCommaSpace s ""). split; [reflexivity|]. split.
    + apply splitCommaSpace_not_nil.
    + split; [|split].
      * apply splitCommaSpace_pieces. rewrite append_nil_l. by destruct s.
      * by rewrite join_splitCommaSpace.
      * by rewrite Array_join_strings, join_splitCommaSpace.
  - by intros items ->.
  - intros Hs Ha. destruct v; try reflexivity; [by destruct (Hs s) | by destruct (Ha items)].
Qed.

Example ensureArray_cuts :
  ensureArray (JStr "oats, rice,fish, ") = Some [JStr "oats"; JStr "rice,fish"; JStr ""] ∧
  ensureArray (JStr ",, ") = Some [JStr ","; JStr ""] ∧
  ensureArray (JStr "") = Some [JStr ""].
Proof. repeat split. Qed.

Section HistoryBound.
Context `{JsRuntime}.

Lemma updateHistory_history r pg :
  recommendationHistory (updateHistory r pg) = take 3 (r :: recommendationHistory pg).
Proof.
  unfold updateHistory. cbn [recommendationHistory].
  destruct (Nat.ltb_spec 3 (length (r :: recommendationHistory pg))); [done|].
  by rewrite take_ge by lia.
Qed.

Lemma take3_cons_take3 {A} (x : A) (l : list A) : take 3 (x :: take 3 l) = take 3 (x :: l).
Proof. destruct l as [|a [|b [|c l]]]; reflexivity. Qed.

Lemma updateAll_snoc results r pg :
  updateAll (results ++ [r]) pg = updateHistory r (updateAll results pg).
Proof. unfold updateAll. by rewrite foldl_app. Qed.

Lemma updateAll_history results pg :
  length (recommendationHistory pg) ≤ 3 →
  recommendationHistory (updateAll results pg) =
    take 3 (reverse results ++ recommendationHistory pg).
Proof.
  intros Hlen. induction results as [|r results IH] using rev_ind.
  - simpl. by rewrite take_ge.
  - rewrite updateAll_snoc, updateHistory_history, IH, reverse_snoc.
    apply take3_cons_take3.
Qed.
End HistoryBound.

(** X24: the form keeps the last three recommendations, newest first.  From
    a history of at most three, after any number of recommendations the
    history is the three most recent of them and of the ones kept before, in
    reverse order of arrival; it never holds more than three, and the list
    shown is the one kept. *)
Theorem updateHistory_keeps_last_three `{JsRuntime} (results : list PastRecommendation)
    (pg : FormPage) :
  length (recommendationHistory pg) ≤ 3 →
  recommendationHistory (updateAll results pg) =
    take 3 (reverse results ++ recommendationHistory pg) ∧
  length (recommendationHistory (updateAll results pg)) ≤ 3 ∧
  (∀ r, last results = Some r →
     head (recommendationHistory (updateAll results pg)) = Some r ∧
     historyList (updateAll results pg) =
       pastBoxes (recommendationHistory (updateAll results pg))) ∧
  formResult (updateAll results pg) = formResult pg.
Proof.
  intros Hlen. split; [by apply updateAll_history|].
  split; [rewrite (updateAll_history results pg Hlen), length_take; lia|]. split.
  - intros r Hlast. apply last_Some in Hlast as [results' ->].
    rewrite updateAll_snoc. split.
    + rewrite updateHistory_history. reflexivity.
    + reflexivity.
  - induction results as [|r results IH] using rev_ind; [reflexivity|].
    by rewrite updateAll_snoc.
Qed.

Lemma updateHistory_keeps_last_three_witness :
  length (recommendationHistory exampleFormPage) ≤ 3 ∧
  recommendationHistory (updateAll fourRecommendations exampleFormPage) =
    take 3 (reverse fourRecommendations).
Proof.
  assert (Hlen : length (recommendationHistory exampleFormPage) ≤ 3) by (simpl; lia).
  split; [exact Hlen|].
  exact (proj1 (updateHistory_keeps_last_three fourRecommendations exampleFormPage Hlen)).
Defined.

Lemma Boolean_number_false (n : JsNumber) :
  Boolean (JNum n) = false ↔ n = NaN ∨ ∃ q, n = Fin q ∧ (q == 0)%Q.
Proof.
  destruct n as [| |q|]; simpl.
  - split; [by left | done].
  - split; [done | by intros [|(q & ? & _)]].
  - rewrite negb_false_iff, Qeq_bool_iff. split.
    + intros Hq. right. by exists q.
    + by intros [|(q' & [= <-] & Hq)].
  - split; [done | by intros [|(q & ? & _)]].
Qed.

Section FormOutcomes.
Context `{JsRuntime}.

Lemma updateHistory_frame r pg :
  formAlerts (updateHistory r pg) = formAlerts pg ∧
  formRequests (updateHistory r pg) = formRequests pg ∧
  formResult (updateHistory r pg) = formResult pg.
Proof. done. Qed.
End FormOutcomes.

(** X25: the legacy form sends its request only when the age, the weight and
    the height read from the fields are each a number other than zero;
    otherwise it alerts and changes nothing else.  Once the request is sent,
    either the answer is displayed and put in front of the history, with no
    alert, or exactly one alert is raised and the result, the list shown and
    the history kept stay as they were.  The sign and the range of the three
    numbers are not looked at. *)
Theorem getRecommendations_validates `{JsRuntime} (age weight height : JsNumber)
    (resp : FetchOutcome LegacyResult) (pg : FormPage) :
  let pg' := getRecommendations age weight height resp pg in
  let blank n := n = NaN ∨ ∃ q, n = Fin q ∧ (q == 0)%Q in
  ((blank age ∨ blank weight ∨ blank height) →
     pg' = formAlert "Please fill all fields with valid numbers." pg) ∧
  (¬ (blank age ∨ blank weight ∨ blank height) →
     formRequests pg' = (formRequests pg ++ ["POST /recommend"])%list ∧
     ((∃ status result r, resp = Response status (Some result) ∧
         ensureArrays result = Some r ∧
         formAlerts pg' = formAlerts pg ∧ formResult pg' = currentBox r ∧
         recommendationHistory pg' = take 3 (r :: recommendationHistory pg) ∧
         historyList pg' = pastBoxes (recommendationHistory pg')) ∨
      (formAlerts pg' =
         (formAlerts pg ++ ["Error getting recommendations. Check console."])%list ∧
       formResult pg' = formResult pg ∧ historyList pg' = historyList pg ∧
       recommendationHistory pg' = recommendationHistory pg))).
Proof.
  intros pg' blank. subst pg'. unfold getRecommendations.
  assert (Hblank : ∀ n, Boolean (JNum n) = false ↔ blank n)
    by apply Boolean_number_false.
  destruct (Boolean (JNum age)) eqn:Ha; cbn [negb orb].
  2:{ split; [done|]. intros Hno. destruct Hno. left. by apply Hblank. }
  destruct (Boolean (JNum weight)) eqn:Hw; cbn [negb orb].
  2:{ split; [done|]. intros Hno. destruct Hno. right; left. by apply Hblank. }
  destruct (Boolean (JNum height)) eqn:Hh; cbn [negb orb].
  2:{ split; [done|]. intros Hno. destruct Hno. right; right. by apply Hblank. }
  split.
  { intros [Hb|[Hb|Hb]]; apply Hblank in Hb; congruence. }
  intros _. destruct resp as [e|status [result|]]; [by split; [|right] | | by split; [|right]].
  destruct (ensureArrays result) as [r|] eqn:Hr; [|by split; [|right]].
  split; [reflexivity|]. left. exists status, result, r.
  split; [reflexivity|]. split; [exact Hr|]. split; [reflexivity|].
  split; [reflexivity|]. split; [|reflexivity].
  by rewrite updateHistory_history.
Qed.

(** A negative age, weight and height pass the validation of the form. *)
Example getRecommendations_accepts_negative :
  formRequests (getRecommendations (Fin (-5)) (Fin (-70)) (Fin (-2))
                  (NetworkError "offline") exampleFormPage) = ["POST /recommend"].
Proof. reflexivity. Qed.
